(** * Baichuan protocol client: a shallow embedding of [baichuan.ts]

    The development follows the class [Baichuan] of the TypeScript client
    (message framing, the decryption fallback chain, the retry policy of
    [send], the nonce handshake, login/logout, the event subscription and the
    push dispatch) and states the properties of its specification over that
    embedding.

    Conventions.
    - A JavaScript string is the list of its UTF-16 code units ([jsstring]);
      [s.length] is the length of that list.
    - A [Buffer] is a list of byte values, each in [0, 256).
    - A [number] that the code only ever uses as an integer (command ids,
      channel numbers, lengths, retry budgets) is a [Z].
    - [Date.now()] is an integer number of milliseconds; the code stores
      [Date.now() / 1000]; the model keeps the milliseconds and scales the
      constants it is compared with (exact arithmetic, where the runtime
      rounds to doubles).
    - An [async] method is run to completion; what it awaits from the network
      is supplied by an explicit environment.  The interleaving of two
      invocations is modelled separately, in [Module EventLoop].
    - The modules the file imports but which are outside the verified unit
      (the legacy cipher and the hash of [./util], the envelope builders of
      [./xmls], Node's AES) are the fields of the class [Externals]. *)

From Stdlib Require Import ZArith NArith List Lia Bool.
From Stdlib Require Import Strings.String Strings.Ascii DecimalString.
From stdpp Require Import base option list gmap.
Import ListNotations.

#[local] Open Scope Z_scope.

(* ===================================================================== *)
(** * JavaScript values used by the client                                *)
(* ===================================================================== *)

Module JS.

(** A string, as the list of its UTF-16 code units. *)
Definition jsstring := list Z.

(** A Node [Buffer], as the list of its bytes. *)
Definition Buffer := list Z.

Definition is_byte (b : Z) : Prop := 0 <= b < 256.
Definition is_bytes (bs : Buffer) : Prop := Forall is_byte bs.

(** The code units of an ASCII literal of the source. *)
Definition js (s : string) : jsstring :=
  map (fun c => Z.of_N (N_of_ascii c)) (list_ascii_of_string s).

(** [s.length] *)
Definition jslength (s : jsstring) : Z := Z.of_nat (length s).

(** [s.startsWith(p)] *)
Fixpoint startsWith (s p : jsstring) {struct p} : bool :=
  match p, s with
  | [], _ => true
  | _ :: _, [] => false
  | c :: p', d :: s' => (c =? d) && startsWith s' p'
  end.

(** [s.includes(p)] *)
Fixpoint includes (s p : jsstring) : bool :=
  startsWith s p ||
  match s with
  | [] => false
  | _ :: s' => includes s' p
  end.

(** An index argument of [slice]: a negative one counts from the end. *)
Definition sliceIndex {A} (i : Z) (l : list A) : nat :=
  if i <? 0 then Z.to_nat (Z.max 0 (Z.of_nat (length l) + i)) else Z.to_nat i.

(** [l.slice(i)] *)
Definition sliceFrom {A} (i : Z) (l : list A) : list A :=
  drop (sliceIndex i l) l.

(** [l.slice(i, j)] *)
Definition slice {A} (i j : Z) (l : list A) : list A :=
  take (sliceIndex j l - sliceIndex i l)%nat (drop (sliceIndex i l) l).

(** [String(n)] and [`${n}`] for an integer [n]. *)
Definition String_of_Z (n : Z) : jsstring :=
  js (NilZero.string_of_int (Z.to_int n)).

(** ** Hexadecimal encoding of buffers *)

Definition hexDigit (d : Z) : Z :=
  if d <? 10 then 48 + d else 87 + d.            (* '0'..'9', 'a'..'f' *)

(** [buf.toString("hex")] *)
Definition toHex (bs : Buffer) : jsstring :=
  flat_map (fun b => [hexDigit (b / 16); hexDigit (b mod 16)]) bs.

Definition hexValue (c : Z) : option Z :=
  if (48 <=? c) && (c <=? 57) then Some (c - 48)
  else if (97 <=? c) && (c <=? 102) then Some (c - 87)
  else if (65 <=? c) && (c <=? 70) then Some (c - 55)
  else None.

(** [Buffer.from(s, "hex")]: pairs of digits, up to the first pair that is
    not hexadecimal. *)
Fixpoint fromHex (s : jsstring) : Buffer :=
  match s with
  | h :: l :: s' =>
      match hexValue h, hexValue l with
      | Some a, Some b => (16 * a + b) :: fromHex s'
      | _, _ => []
      end
  | _ => []
  end.

(** ** UTF-8 *)

Definition isHighSurrogate (c : Z) : bool := (0xD800 <=? c) && (c <=? 0xDBFF).
Definition isLowSurrogate (c : Z) : bool := (0xDC00 <=? c) && (c <=? 0xDFFF).

Definition utf8_of_codepoint (c : Z) : Buffer :=
  if c <? 0x80 then [c]
  else if c <? 0x800 then [0xC0 + c / 64; 0x80 + c mod 64]
  else if c <? 0x10000 then
    [0xE0 + c / 4096; 0x80 + (c / 64) mod 64; 0x80 + c mod 64]
  else
    [0xF0 + c / 262144; 0x80 + (c / 4096) mod 64;
     0x80 + (c / 64) mod 64; 0x80 + c mod 64].

(** [Buffer.from(s, "utf8")]: a surrogate pair is one code point, a lone
    surrogate is encoded as U+FFFD. *)
Fixpoint utf8Encode (s : jsstring) : Buffer :=
  match s with
  | [] => []
  | c :: s' =>
      if isHighSurrogate c then
        match s' with
        | d :: s'' =>
            if isLowSurrogate d
            then utf8_of_codepoint (0x10000 + (c - 0xD800) * 1024 + (d - 0xDC00))
                   ++ utf8Encode s''
            else utf8_of_codepoint 0xFFFD ++ utf8Encode s'
        | [] => utf8_of_codepoint 0xFFFD
        end
      else if isLowSurrogate c then utf8_of_codepoint 0xFFFD ++ utf8Encode s'
      else utf8_of_codepoint c ++ utf8Encode s'
  end.

Definition isAscii (s : jsstring) : Prop := Forall (fun c => 0 <= c < 128) s.

(** ** [Map]: insertion-ordered, one entry per key *)

Section Map.
Context {K V : Type} `{EqDecision K}.

Definition Map := list (K * V).

Fixpoint map_get (k : K) (m : Map) : option V :=
  match m with
  | [] => None
  | (k', v) :: m' => if decide (k = k') then Some v else map_get k m'
  end.

Definition map_has (k : K) (m : Map) : bool := bool_decide (is_Some (map_get k m)).

(** [m.set(k, v)]: an existing key keeps its position. *)
Fixpoint map_set (k : K) (v : V) (m : Map) : Map :=
  match m with
  | [] => [(k, v)]
  | (k', v') :: m' =>
      if decide (k = k') then (k, v) :: m' else (k', v') :: map_set k v m'
  end.

Fixpoint map_delete (k : K) (m : Map) : Map :=
  match m with
  | [] => []
  | (k', v') :: m' =>
      if decide (k = k') then m' else (k', v') :: map_delete k m'
  end.

Definition map_keys (m : Map) : list K := m.*1.

(** A [Map] never holds a key twice. *)
Definition map_wf (m : Map) : Prop := NoDup (map_keys m).
End Map.
Arguments Map : clear implicits.

(** ** The values the XML parser produces

    [fast-xml-parser] turns an envelope into nested objects, arrays, strings,
    numbers and booleans.  A number is an integer ([JNumber]) or a fraction
    ([JFraction], by the text [String] gives for it).  The properties of an
    object are listed in the order [for ... in] enumerates them. *)

#[local] Set Warnings "-register-all".

Inductive JsValue :=
| JUndefined
| JNull
| JBool (b : bool)
| JNumber (n : Z)
| JFraction (shown : jsstring)
| JString (s : jsstring)
| JArray (items : list JsValue)
| JObject (props : list (jsstring * JsValue)).

(** [v.k] and [v?.k] on a value that is neither null nor undefined, and
    [v?.k] on any value. *)
Definition getProp (v : JsValue) (k : jsstring) : JsValue :=
  match v with
  | JObject props => default JUndefined (map_get k props)
  | _ => JUndefined
  end.

(** [!!v] *)
Definition truthy (v : JsValue) : bool :=
  match v with
  | JUndefined | JNull => false
  | JBool b => b
  | JNumber n => negb (n =? 0)
  | JFraction _ => true
  | JString s => negb (bool_decide (s = []))
  | JArray _ | JObject _ => true
  end.

(** [a || b] *)
Definition jsOr (a b : JsValue) : JsValue := if truthy a then a else b.

(** [a ?? b] *)
Definition nullish (a b : JsValue) : JsValue :=
  match a with
  | JUndefined | JNull => b
  | _ => a
  end.

Definition isUndefined (v : JsValue) : bool :=
  match v with JUndefined => true | _ => false end.

(** [v === "s"], [v === n], [v === true] *)
Definition isString (v : JsValue) (s : jsstring) : bool :=
  match v with JString t => bool_decide (t = s) | _ => false end.
Definition isNumber (v : JsValue) (n : Z) : bool :=
  match v with JNumber m => m =? n | _ => false end.
Definition isTrue (v : JsValue) : bool :=
  match v with JBool b => b | _ => false end.

(** [Array.isArray(v)] *)
Definition isArray (v : JsValue) : bool :=
  match v with JArray _ => true | _ => false end.

Definition joinWith (sep : jsstring) (parts : list jsstring) : jsstring :=
  match parts with
  | [] => []
  | p :: ps => p ++ flat_map (fun q => sep ++ q) ps
  end.

(** [String(v)] *)
Fixpoint toString (v : JsValue) : jsstring :=
  match v with
  | JUndefined => js "undefined"
  | JNull => js "null"
  | JBool true => js "true"
  | JBool false => js "false"
  | JNumber n => String_of_Z n
  | JFraction shown => shown
  | JString s => s
  | JArray items =>
      joinWith (js ",")
        (map (fun i => match i with
                       | JUndefined | JNull => []
                       | _ => toString i
                       end) items)
  | JObject _ => js "[object Object]"
  end.

(** The values [for (const key in v)] gives to [v[key]]. *)
Definition forInValues (v : JsValue) : list JsValue :=
  match v with
  | JObject props => props.*2
  | JArray items => items
  | JString s => map (fun c => JString [c]) s
  | _ => []
  end.

(** ** Exceptions *)

Inductive ErrorClass :=
| ApiError
| CredentialsInvalidError
| InvalidContentTypeError
| InvalidParameterError
| ReolinkConnectionError
| ReolinkTimeoutError
| UnexpectedDataError
| RangeError            (* Node's ERR_OUT_OF_RANGE and friends *)
| PlainError            (* any other instance of Error *)
| NotAnError.           (* a thrown value that is no instance of Error *)

#[global] Instance ErrorClass_eq_dec : EqDecision ErrorClass.
Proof. solve_decision. Defined.

Record Exception := mkException {
  err_class : ErrorClass;
  err_rspCode : Z;                 (* [rspCode] of an ApiError *)
  err_message : jsstring
}.

Definition mkError (c : ErrorClass) (msg : jsstring) : Exception :=
  mkException c 0 msg.

(** [err instanceof Error] *)
Definition instanceofError (e : Exception) : bool :=
  match err_class e with NotAnError => false | _ => true end.

(** The outcome of a call: a value, or an exception being thrown. *)
Inductive Completion (A : Type) :=
| Return (a : A)
| Throw (e : Exception).
Arguments Return {A} a.
Arguments Throw {A} e.

(** [try { c } catch (e) { h e }] *)
Definition catch {A} (c : Completion A) (h : Exception -> Completion A) : Completion A :=
  match c with
  | Return a => Return a
  | Throw e => h e
  end.

#[global] Instance Completion_ret : MRet Completion := @Return.
#[global] Instance Completion_bind : MBind Completion := fun A B k c =>
  match c with
  | Return a => k a
  | Throw e => Throw e
  end.

End JS.
Import JS.

(* ===================================================================== *)
(** * The collaborators outside the verified unit                         *)
(* ===================================================================== *)

(** [EncType] of [./util]. *)
Inductive EncType := BC | AES.

#[global] Instance EncType_eq_dec : EqDecision EncType.
Proof. solve_decision. Defined.

(** What [baichuan.ts] imports from [./util], [./xmls] and Node. *)
Class Externals := {
  (* ./util *)
  encryptBaichuan : jsstring -> Z -> Buffer;
  decryptBaichuan : Buffer -> Z -> Completion jsstring;
  md5StrModern : jsstring -> jsstring;
  AES_IV : Buffer;
  (* node:crypto, "aes-128-cfb" with auto padding off: update ++ final;
     [createCipheriv] throws on a key of the wrong length *)
  aes128cfb_encrypt : Buffer -> Buffer -> Buffer -> Completion Buffer;
  aes128cfb_decrypt : Buffer -> Buffer -> Buffer -> Completion Buffer;
  (* buf.toString("utf8") *)
  utf8Decode : Buffer -> jsstring;
  (* Number(s) of a string, when it is an integer *)
  stringToNumber : jsstring -> option Z;
  (* fast-xml-parser: xmlParser.parse(xml) *)
  xmlParse : jsstring -> Completion JsValue;
  (* ./xmls *)
  buildChannelExtensionXml : Z -> jsstring;
  buildLoginXml : jsstring -> jsstring -> jsstring;
  buildLogoutXml : jsstring -> jsstring -> jsstring
}.

(** What the specification says of these collaborators (section 4.1): both
    ciphers keep the length of what they encrypt, byte for byte. *)
Class ExternalsLaws `{Externals} := {
  encryptBaichuan_length : forall s off,
    length (encryptBaichuan s off) = length (utf8Encode s);
  aes128cfb_encrypt_length : forall key iv bs out,
    aes128cfb_encrypt key iv bs = Return out -> length out = length bs
}.

(* ===================================================================== *)
(** * The state of a client                                               *)
(* ===================================================================== *)

Record Socket := { destroyed : bool }.

(** A registered callback, by what calling it does: it returns, or it throws.
    Callbacks are code of the caller; they are taken not to call back into
    the client while a push is being dispatched. *)
Record CallbackFunction := { cb_throws : option Exception }.

Inductive ProtocolHandle := BaichuanTcpClientProtocol.

(** What the client does to the world around it. *)
Inductive Event :=
| EvWrite (frame : Buffer)           (* transport.write(frame) *)
| EvConnect                          (* socket.connect(port, host) *)
| EvClose                            (* protocol.close() *)
| EvDelay (ms : Z)                   (* await of a setTimeout *)
| EvSetInterval (id ms : Z)
| EvClearInterval (id : Z)
| EvCallback (id : jsstring)         (* a registered callback is called *)
| EvDebugLog (e : Exception).        (* debugLog of a caught exception *)

(** The fields of [Baichuan], the sink of [Host] it writes to
    ([_channels], [_motionDetectionStates], [_visitorStates],
    [_aiDetectionStates]) and, last, the part of the runtime the methods act
    on: the interval timers that are armed and the events so far. *)
Record State := {
  host : jsstring;
  username : jsstring;
  password : jsstring;
  nonce : option jsstring;
  userHash : option jsstring;
  passwordHash : option jsstring;
  aesKey : option Buffer;
  transport : option Socket;
  protocol : option ProtocolHandle;
  loggedIn : bool;
  subscribed : bool;
  eventsActive : bool;
  keepaliveTask : option Z;
  keepaliveInterval : Z;
  timeKeepaliveLoop : Z;             (* milliseconds *)
  timeConnectionLost : Z;            (* milliseconds *)
  extCallback : Map (option Z) (Map (option Z) (Map jsstring CallbackFunction));
  devType : jsstring;
  privacyMode : gmap Z bool;
  httpApi_isNvr : bool;
  httpApi_isHub : bool;
  httpApi_numChannels : Z;
  httpApi_channels : list Z;
  httpApi_motionDetectionStates : gmap Z bool;
  httpApi_visitorStates : gmap Z bool;
  httpApi_aiDetectionStates : gmap Z (Map jsstring bool);
  timers : list Z;
  nextTimer : Z;
  trace : list Event
}.

(** Assignments to one field. *)

Definition set_nonce v (s : State) : State :=
  {| host := host s; username := username s; password := password s; nonce := v;
     userHash := userHash s; passwordHash := passwordHash s; aesKey := aesKey s;
     transport := transport s; protocol := protocol s; loggedIn := loggedIn s;
     subscribed := subscribed s; eventsActive := eventsActive s; keepaliveTask :=
     keepaliveTask s; keepaliveInterval := keepaliveInterval s; timeKeepaliveLoop :=
     timeKeepaliveLoop s; timeConnectionLost := timeConnectionLost s; extCallback :=
     extCallback s; devType := devType s; privacyMode := privacyMode s; httpApi_isNvr :=
     httpApi_isNvr s; httpApi_isHub := httpApi_isHub s; httpApi_numChannels :=
     httpApi_numChannels s; httpApi_channels := httpApi_channels s;
     httpApi_motionDetectionStates := httpApi_motionDetectionStates s;
     httpApi_visitorStates := httpApi_visitorStates s; httpApi_aiDetectionStates :=
     httpApi_aiDetectionStates s; timers := timers s; nextTimer := nextTimer s; trace :=
     trace s |}.

Definition set_userHash v (s : State) : State :=
  {| host := host s; username := username s; password := password s; nonce := nonce s;
     userHash := v; passwordHash := passwordHash s; aesKey := aesKey s; transport :=
     transport s; protocol := protocol s; loggedIn := loggedIn s; subscribed :=
     subscribed s; eventsActive := eventsActive s; keepaliveTask := keepaliveTask s;
     keepaliveInterval := keepaliveInterval s; timeKeepaliveLoop := timeKeepaliveLoop s;
     timeConnectionLost := timeConnectionLost s; extCallback := extCallback s; devType
     := devType s; privacyMode := privacyMode s; httpApi_isNvr := httpApi_isNvr s;
     httpApi_isHub := httpApi_isHub s; httpApi_numChannels := httpApi_numChannels s;
     httpApi_channels := httpApi_channels s; httpApi_motionDetectionStates :=
     httpApi_motionDetectionStates s; httpApi_visitorStates := httpApi_visitorStates s;
     httpApi_aiDetectionStates := httpApi_aiDetectionStates s; timers := timers s;
     nextTimer := nextTimer s; trace := trace s |}.

Definition set_passwordHash v (s : State) : State :=
  {| host := host s; username := username s; password := password s; nonce := nonce s;
     userHash := userHash s; passwordHash := v; aesKey := aesKey s; transport :=
     transport s; protocol := protocol s; loggedIn := loggedIn s; subscribed :=
     subscribed s; eventsActive := eventsActive s; keepaliveTask := keepaliveTask s;
     keepaliveInterval := keepaliveInterval s; timeKeepaliveLoop := timeKeepaliveLoop s;
     timeConnectionLost := timeConnectionLost s; extCallback := extCallback s; devType
     := devType s; privacyMode := privacyMode s; httpApi_isNvr := httpApi_isNvr s;
     httpApi_isHub := httpApi_isHub s; httpApi_numChannels := httpApi_numChannels s;
     httpApi_channels := httpApi_channels s; httpApi_motionDetectionStates :=
     httpApi_motionDetectionStates s; httpApi_visitorStates := httpApi_visitorStates s;
     httpApi_aiDetectionStates := httpApi_aiDetectionStates s; timers := timers s;
     nextTimer := nextTimer s; trace := trace s |}.

Definition set_aesKey v (s : State) : State :=
  {| host := host s; username := username s; password := password s; nonce := nonce s;
     userHash := userHash s; passwordHash := passwordHash s; aesKey := v; transport :=
     transport s; protocol := protocol s; loggedIn := loggedIn s; subscribed :=
     subscribed s; eventsActive := eventsActive s; keepaliveTask := keepaliveTask s;
     keepaliveInterval := keepaliveInterval s; timeKeepaliveLoop := timeKeepaliveLoop s;
     timeConnectionLost := timeConnectionLost s; extCallback := extCallback s; devType
     := devType s; privacyMode := privacyMode s; httpApi_isNvr := httpApi_isNvr s;
     httpApi_isHub := httpApi_isHub s; httpApi_numChannels := httpApi_numChannels s;
     httpApi_channels := httpApi_channels s; httpApi_motionDetectionStates :=
     httpApi_motionDetectionStates s; httpApi_visitorStates := httpApi_visitorStates s;
     httpApi_aiDetectionStates := httpApi_aiDetectionStates s; timers := timers s;
     nextTimer := nextTimer s; trace := trace s |}.

Definition set_transport v (s : State) : State :=
  {| host := host s; username := username s; password := password s; nonce := nonce s;
     userHash := userHash s; passwordHash := passwordHash s; aesKey := aesKey s;
     transport := v; protocol := protocol s; loggedIn := loggedIn s; subscribed :=
     subscribed s; eventsActive := eventsActive s; keepaliveTask := keepaliveTask s;
     keepaliveInterval := keepaliveInterval s; timeKeepaliveLoop := timeKeepaliveLoop s;
     timeConnectionLost := timeConnectionLost s; extCallback := extCallback s; devType
     := devType s; privacyMode := privacyMode s; httpApi_isNvr := httpApi_isNvr s;
     httpApi_isHub := httpApi_isHub s; httpApi_numChannels := httpApi_numChannels s;
     httpApi_channels := httpApi_channels s; httpApi_motionDetectionStates :=
     httpApi_motionDetectionStates s; httpApi_visitorStates := httpApi_visitorStates s;
     httpApi_aiDetectionStates := httpApi_aiDetectionStates s; timers := timers s;
     nextTimer := nextTimer s; trace := trace s |}.

Definition set_protocol v (s : State) : State :=
  {| host := host s; username := username s; password := password s; nonce := nonce s;
     userHash := userHash s; passwordHash := passwordHash s; aesKey := aesKey s;
     transport := transport s; protocol := v; loggedIn := loggedIn s; subscribed :=
     subscribed s; eventsActive := eventsActive s; keepaliveTask := keepaliveTask s;
     keepaliveInterval := keepaliveInterval s; timeKeepaliveLoop := timeKeepaliveLoop s;
     timeConnectionLost := timeConnectionLost s; extCallback := extCallback s; devType
     := devType s; privacyMode := privacyMode s; httpApi_isNvr := httpApi_isNvr s;
     httpApi_isHub := httpApi_isHub s; httpApi_numChannels := httpApi_numChannels s;
     httpApi_channels := httpApi_channels s; httpApi_motionDetectionStates :=
     httpApi_motionDetectionStates s; httpApi_visitorStates := httpApi_visitorStates s;
     httpApi_aiDetectionStates := httpApi_aiDetectionStates s; timers := timers s;
     nextTimer := nextTimer s; trace := trace s |}.

Definition set_loggedIn v (s : State) : State :=
  {| host := host s; username := username s; password := password s; nonce := nonce s;
     userHash := userHash s; passwordHash := passwordHash s; aesKey := aesKey s;
     transport := transport s; protocol := protocol s; loggedIn := v; subscribed :=
     subscribed s; eventsActive := eventsActive s; keepaliveTask := keepaliveTask s;
     keepaliveInterval := keepaliveInterval s; timeKeepaliveLoop := timeKeepaliveLoop s;
     timeConnectionLost := timeConnectionLost s; extCallback := extCallback s; devType
     := devType s; privacyMode := privacyMode s; httpApi_isNvr := httpApi_isNvr s;
     httpApi_isHub := httpApi_isHub s; httpApi_numChannels := httpApi_numChannels s;
     httpApi_channels := httpApi_channels s; httpApi_motionDetectionStates :=
     httpApi_motionDetectionStates s; httpApi_visitorStates := httpApi_visitorStates s;
     httpApi_aiDetectionStates := httpApi_aiDetectionStates s; timers := timers s;
     nextTimer := nextTimer s; trace := trace s |}.

Definition set_subscribed v (s : State) : State :=
  {| host := host s; username := username s; password := password s; nonce := nonce s;
     userHash := userHash s; passwordHash := passwordHash s; aesKey := aesKey s;
     transport := transport s; protocol := protocol s; loggedIn := loggedIn s;
     subscribed := v; eventsActive := eventsActive s; keepaliveTask := keepaliveTask s;
     keepaliveInterval := keepaliveInterval s; timeKeepaliveLoop := timeKeepaliveLoop s;
     timeConnectionLost := timeConnectionLost s; extCallback := extCallback s; devType
     := devType s; privacyMode := privacyMode s; httpApi_isNvr := httpApi_isNvr s;
     httpApi_isHub := httpApi_isHub s; httpApi_numChannels := httpApi_numChannels s;
     httpApi_channels := httpApi_channels s; httpApi_motionDetectionStates :=
     httpApi_motionDetectionStates s; httpApi_visitorStates := httpApi_visitorStates s;
     httpApi_aiDetectionStates := httpApi_aiDetectionStates s; timers := timers s;
     nextTimer := nextTimer s; trace := trace s |}.

Definition set_eventsActive v (s : State) : State :=
  {| host := host s; username := username s; password := password s; nonce := nonce s;
     userHash := userHash s; passwordHash := passwordHash s; aesKey := aesKey s;
     transport := transport s; protocol := protocol s; loggedIn := loggedIn s;
     subscribed := subscribed s; eventsActive := v; keepaliveTask := keepaliveTask s;
     keepaliveInterval := keepaliveInterval s; timeKeepaliveLoop := timeKeepaliveLoop s;
     timeConnectionLost := timeConnectionLost s; extCallback := extCallback s; devType
     := devType s; privacyMode := privacyMode s; httpApi_isNvr := httpApi_isNvr s;
     httpApi_isHub := httpApi_isHub s; httpApi_numChannels := httpApi_numChannels s;
     httpApi_channels := httpApi_channels s; httpApi_motionDetectionStates :=
     httpApi_motionDetectionStates s; httpApi_visitorStates := httpApi_visitorStates s;
     httpApi_aiDetectionStates := httpApi_aiDetectionStates s; timers := timers s;
     nextTimer := nextTimer s; trace := trace s |}.

Definition set_keepaliveTask v (s : State) : State :=
  {| host := host s; username := username s; password := password s; nonce := nonce s;
     userHash := userHash s; passwordHash := passwordHash s; aesKey := aesKey s;
     transport := transport s; protocol := protocol s; loggedIn := loggedIn s;
     subscribed := subscribed s; eventsActive := eventsActive s; keepaliveTask := v;
     keepaliveInterval := keepaliveInterval s; timeKeepaliveLoop := timeKeepaliveLoop s;
     timeConnectionLost := timeConnectionLost s; extCallback := extCallback s; devType
     := devType s; privacyMode := privacyMode s; httpApi_isNvr := httpApi_isNvr s;
     httpApi_isHub := httpApi_isHub s; httpApi_numChannels := httpApi_numChannels s;
     httpApi_channels := httpApi_channels s; httpApi_motionDetectionStates :=
     httpApi_motionDetectionStates s; httpApi_visitorStates := httpApi_visitorStates s;
     httpApi_aiDetectionStates := httpApi_aiDetectionStates s; timers := timers s;
     nextTimer := nextTimer s; trace := trace s |}.

Definition set_timeKeepaliveLoop v (s : State) : State :=
  {| host := host s; username := username s; password := password s; nonce := nonce s;
     userHash := userHash s; passwordHash := passwordHash s; aesKey := aesKey s;
     transport := transport s; protocol := protocol s; loggedIn := loggedIn s;
     subscribed := subscribed s; eventsActive := eventsActive s; keepaliveTask :=
     keepaliveTask s; keepaliveInterval := keepaliveInterval s; timeKeepaliveLoop := v;
     timeConnectionLost := timeConnectionLost s; extCallback := extCallback s; devType
     := devType s; privacyMode := privacyMode s; httpApi_isNvr := httpApi_isNvr s;
     httpApi_isHub := httpApi_isHub s; httpApi_numChannels := httpApi_numChannels s;
     httpApi_channels := httpApi_channels s; httpApi_motionDetectionStates :=
     httpApi_motionDetectionStates s; httpApi_visitorStates := httpApi_visitorStates s;
     httpApi_aiDetectionStates := httpApi_aiDetectionStates s; timers := timers s;
     nextTimer := nextTimer s; trace := trace s |}.

Definition set_timeConnectionLost v (s : State) : State :=
  {| host := host s; username := username s; password := password s; nonce := nonce s;
     userHash := userHash s; passwordHash := passwordHash s; aesKey := aesKey s;
     transport := transport s; protocol := protocol s; loggedIn := loggedIn s;
     subscribed := subscribed s; eventsActive := eventsActive s; keepaliveTask :=
     keepaliveTask s; keepaliveInterval := keepaliveInterval s; timeKeepaliveLoop :=
     timeKeepaliveLoop s; timeConnectionLost := v; extCallback := extCallback s; devType
     := devType s; privacyMode := privacyMode s; httpApi_isNvr := httpApi_isNvr s;
     httpApi_isHub := httpApi_isHub s; httpApi_numChannels := httpApi_numChannels s;
     httpApi_channels := httpApi_channels s; httpApi_motionDetectionStates :=
     httpApi_motionDetectionStates s; httpApi_visitorStates := httpApi_visitorStates s;
     httpApi_aiDetectionStates := httpApi_aiDetectionStates s; timers := timers s;
     nextTimer := nextTimer s; trace := trace s |}.

Definition set_extCallback v (s : State) : State :=
  {| host := host s; username := username s; password := password s; nonce := nonce s;
     userHash := userHash s; passwordHash := passwordHash s; aesKey := aesKey s;
     transport := transport s; protocol := protocol s; loggedIn := loggedIn s;
     subscribed := subscribed s; eventsActive := eventsActive s; keepaliveTask :=
     keepaliveTask s; keepaliveInterval := keepaliveInterval s; timeKeepaliveLoop :=
     timeKeepaliveLoop s; timeConnectionLost := timeConnectionLost s; extCallback := v;
     devType := devType s; privacyMode := privacyMode s; httpApi_isNvr := httpApi_isNvr
     s; httpApi_isHub := httpApi_isHub s; httpApi_numChannels := httpApi_numChannels s;
     httpApi_channels := httpApi_channels s; httpApi_motionDetectionStates :=
     httpApi_motionDetectionStates s; httpApi_visitorStates := httpApi_visitorStates s;
     httpApi_aiDetectionStates := httpApi_aiDetectionStates s; timers := timers s;
     nextTimer := nextTimer s; trace := trace s |}.

Definition set_devType v (s : State) : State :=
  {| host := host s; username := username s; password := password s; nonce := nonce s;
     userHash := userHash s; passwordHash := passwordHash s; aesKey := aesKey s;
     transport := transport s; protocol := protocol s; loggedIn := loggedIn s;
     subscribed := subscribed s; eventsActive := eventsActive s; keepaliveTask :=
     keepaliveTask s; keepaliveInterval := keepaliveInterval s; timeKeepaliveLoop :=
     timeKeepaliveLoop s; timeConnectionLost := timeConnectionLost s; extCallback :=
     extCallback s; devType := v; privacyMode := privacyMode s; httpApi_isNvr :=
     httpApi_isNvr s; httpApi_isHub := httpApi_isHub s; httpApi_numChannels :=
     httpApi_numChannels s; httpApi_channels := httpApi_channels s;
     httpApi_motionDetectionStates := httpApi_motionDetectionStates s;
     httpApi_visitorStates := httpApi_visitorStates s; httpApi_aiDetectionStates :=
     httpApi_aiDetectionStates s; timers := timers s; nextTimer := nextTimer s; trace :=
     trace s |}.

Definition set_privacyMode v (s : State) : State :=
  {| host := host s; username := username s; password := password s; nonce := nonce s;
     userHash := userHash s; passwordHash := passwordHash s; aesKey := aesKey s;
     transport := transport s; protocol := protocol s; loggedIn := loggedIn s;
     subscribed := subscribed s; eventsActive := eventsActive s; keepaliveTask :=
     keepaliveTask s; keepaliveInterval := keepaliveInterval s; timeKeepaliveLoop :=
     timeKeepaliveLoop s; timeConnectionLost := timeConnectionLost s; extCallback :=
     extCallback s; devType := devType s; privacyMode := v; httpApi_isNvr :=
     httpApi_isNvr s; httpApi_isHub := httpApi_isHub s; httpApi_numChannels :=
     httpApi_numChannels s; httpApi_channels := httpApi_channels s;
     httpApi_motionDetectionStates := httpApi_motionDetectionStates s;
     httpApi_visitorStates := httpApi_visitorStates s; httpApi_aiDetectionStates :=
     httpApi_aiDetectionStates s; timers := timers s; nextTimer := nextTimer s; trace :=
     trace s |}.

Definition set_httpApi_isNvr v (s : State) : State :=
  {| host := host s; username := username s; password := password s; nonce := nonce s;
     userHash := userHash s; passwordHash := passwordHash s; aesKey := aesKey s;
     transport := transport s; protocol := protocol s; loggedIn := loggedIn s;
     subscribed := subscribed s; eventsActive := eventsActive s; keepaliveTask :=
     keepaliveTask s; keepaliveInterval := keepaliveInterval s; timeKeepaliveLoop :=
     timeKeepaliveLoop s; timeConnectionLost := timeConnectionLost s; extCallback :=
     extCallback s; devType := devType s; privacyMode := privacyMode s; httpApi_isNvr :=
     v; httpApi_isHub := httpApi_isHub s; httpApi_numChannels := httpApi_numChannels s;
     httpApi_channels := httpApi_channels s; httpApi_motionDetectionStates :=
     httpApi_motionDetectionStates s; httpApi_visitorStates := httpApi_visitorStates s;
     httpApi_aiDetectionStates := httpApi_aiDetectionStates s; timers := timers s;
     nextTimer := nextTimer s; trace := trace s |}.

Definition set_httpApi_isHub v (s : State) : State :=
  {| host := host s; username := username s; password := password s; nonce := nonce s;
     userHash := userHash s; passwordHash := passwordHash s; aesKey := aesKey s;
     transport := transport s; protocol := protocol s; loggedIn := loggedIn s;
     subscribed := subscribed s; eventsActive := eventsActive s; keepaliveTask :=
     keepaliveTask s; keepaliveInterval := keepaliveInterval s; timeKeepaliveLoop :=
     timeKeepaliveLoop s; timeConnectionLost := timeConnectionLost s; extCallback :=
     extCallback s; devType := devType s; privacyMode := privacyMode s; httpApi_isNvr :=
     httpApi_isNvr s; httpApi_isHub := v; httpApi_numChannels := httpApi_numChannels s;
     httpApi_channels := httpApi_channels s; httpApi_motionDetectionStates :=
     httpApi_motionDetectionStates s; httpApi_visitorStates := httpApi_visitorStates s;
     httpApi_aiDetectionStates := httpApi_aiDetectionStates s; timers := timers s;
     nextTimer := nextTimer s; trace := trace s |}.

Definition set_httpApi_numChannels v (s : State) : State :=
  {| host := host s; username := username s; password := password s; nonce := nonce s;
     userHash := userHash s; passwordHash := passwordHash s; aesKey := aesKey s;
     transport := transport s; protocol := protocol s; loggedIn := loggedIn s;
     subscribed := subscribed s; eventsActive := eventsActive s; keepaliveTask :=
     keepaliveTask s; keepaliveInterval := keepaliveInterval s; timeKeepaliveLoop :=
     timeKeepaliveLoop s; timeConnectionLost := timeConnectionLost s; extCallback :=
     extCallback s; devType := devType s; privacyMode := privacyMode s; httpApi_isNvr :=
     httpApi_isNvr s; httpApi_isHub := httpApi_isHub s; httpApi_numChannels := v;
     httpApi_channels := httpApi_channels s; httpApi_motionDetectionStates :=
     httpApi_motionDetectionStates s; httpApi_visitorStates := httpApi_visitorStates s;
     httpApi_aiDetectionStates := httpApi_aiDetectionStates s; timers := timers s;
     nextTimer := nextTimer s; trace := trace s |}.

Definition set_httpApi_channels v (s : State) : State :=
  {| host := host s; username := username s; password := password s; nonce := nonce s;
     userHash := userHash s; passwordHash := passwordHash s; aesKey := aesKey s;
     transport := transport s; protocol := protocol s; loggedIn := loggedIn s;
     subscribed := subscribed s; eventsActive := eventsActive s; keepaliveTask :=
     keepaliveTask s; keepaliveInterval := keepaliveInterval s; timeKeepaliveLoop :=
     timeKeepaliveLoop s; timeConnectionLost := timeConnectionLost s; extCallback :=
     extCallback s; devType := devType s; privacyMode := privacyMode s; httpApi_isNvr :=
     httpApi_isNvr s; httpApi_isHub := httpApi_isHub s; httpApi_numChannels :=
     httpApi_numChannels s; httpApi_channels := v; httpApi_motionDetectionStates :=
     httpApi_motionDetectionStates s; httpApi_visitorStates := httpApi_visitorStates s;
     httpApi_aiDetectionStates := httpApi_aiDetectionStates s; timers := timers s;
     nextTimer := nextTimer s; trace := trace s |}.

Definition set_httpApi_motionDetectionStates v (s : State) : State :=
  {| host := host s; username := username s; password := password s; nonce := nonce s;
     userHash := userHash s; passwordHash := passwordHash s; aesKey := aesKey s;
     transport := transport s; protocol := protocol s; loggedIn := loggedIn s;
     subscribed := subscribed s; eventsActive := eventsActive s; keepaliveTask :=
     keepaliveTask s; keepaliveInterval := keepaliveInterval s; timeKeepaliveLoop :=
     timeKeepaliveLoop s; timeConnectionLost := timeConnectionLost s; extCallback :=
     extCallback s; devType := devType s; privacyMode := privacyMode s; httpApi_isNvr :=
     httpApi_isNvr s; httpApi_isHub := httpApi_isHub s; httpApi_numChannels :=
     httpApi_numChannels s; httpApi_channels := httpApi_channels s;
     httpApi_motionDetectionStates := v; httpApi_visitorStates := httpApi_visitorStates
     s; httpApi_aiDetectionStates := httpApi_aiDetectionStates s; timers := timers s;
     nextTimer := nextTimer s; trace := trace s |}.

Definition set_httpApi_visitorStates v (s : State) : State :=
  {| host := host s; username := username s; password := password s; nonce := nonce s;
     userHash := userHash s; passwordHash := passwordHash s; aesKey := aesKey s;
     transport := transport s; protocol := protocol s; loggedIn := loggedIn s;
     subscribed := subscribed s; eventsActive := eventsActive s; keepaliveTask :=
     keepaliveTask s; keepaliveInterval := keepaliveInterval s; timeKeepaliveLoop :=
     timeKeepaliveLoop s; timeConnectionLost := timeConnectionLost s; extCallback :=
     extCallback s; devType := devType s; privacyMode := privacyMode s; httpApi_isNvr :=
     httpApi_isNvr s; httpApi_isHub := httpApi_isHub s; httpApi_numChannels :=
     httpApi_numChannels s; httpApi_channels := httpApi_channels s;
     httpApi_motionDetectionStates := httpApi_motionDetectionStates s;
     httpApi_visitorStates := v; httpApi_aiDetectionStates := httpApi_aiDetectionStates
     s; timers := timers s; nextTimer := nextTimer s; trace := trace s |}.

Definition set_httpApi_aiDetectionStates v (s : State) : State :=
  {| host := host s; username := username s; password := password s; nonce := nonce s;
     userHash := userHash s; passwordHash := passwordHash s; aesKey := aesKey s;
     transport := transport s; protocol := protocol s; loggedIn := loggedIn s;
     subscribed := subscribed s; eventsActive := eventsActive s; keepaliveTask :=
     keepaliveTask s; keepaliveInterval := keepaliveInterval s; timeKeepaliveLoop :=
     timeKeepaliveLoop s; timeConnectionLost := timeConnectionLost s; extCallback :=
     extCallback s; devType := devType s; privacyMode := privacyMode s; httpApi_isNvr :=
     httpApi_isNvr s; httpApi_isHub := httpApi_isHub s; httpApi_numChannels :=
     httpApi_numChannels s; httpApi_channels := httpApi_channels s;
     httpApi_motionDetectionStates := httpApi_motionDetectionStates s;
     httpApi_visitorStates := httpApi_visitorStates s; httpApi_aiDetectionStates := v;
     timers := timers s; nextTimer := nextTimer s; trace := trace s |}.

Definition set_timers v (s : State) : State :=
  {| host := host s; username := username s; password := password s; nonce := nonce s;
     userHash := userHash s; passwordHash := passwordHash s; aesKey := aesKey s;
     transport := transport s; protocol := protocol s; loggedIn := loggedIn s;
     subscribed := subscribed s; eventsActive := eventsActive s; keepaliveTask :=
     keepaliveTask s; keepaliveInterval := keepaliveInterval s; timeKeepaliveLoop :=
     timeKeepaliveLoop s; timeConnectionLost := timeConnectionLost s; extCallback :=
     extCallback s; devType := devType s; privacyMode := privacyMode s; httpApi_isNvr :=
     httpApi_isNvr s; httpApi_isHub := httpApi_isHub s; httpApi_numChannels :=
     httpApi_numChannels s; httpApi_channels := httpApi_channels s;
     httpApi_motionDetectionStates := httpApi_motionDetectionStates s;
     httpApi_visitorStates := httpApi_visitorStates s; httpApi_aiDetectionStates :=
     httpApi_aiDetectionStates s; timers := v; nextTimer := nextTimer s; trace := trace
     s |}.

Definition set_nextTimer v (s : State) : State :=
  {| host := host s; username := username s; password := password s; nonce := nonce s;
     userHash := userHash s; passwordHash := passwordHash s; aesKey := aesKey s;
     transport := transport s; protocol := protocol s; loggedIn := loggedIn s;
     subscribed := subscribed s; eventsActive := eventsActive s; keepaliveTask :=
     keepaliveTask s; keepaliveInterval := keepaliveInterval s; timeKeepaliveLoop :=
     timeKeepaliveLoop s; timeConnectionLost := timeConnectionLost s; extCallback :=
     extCallback s; devType := devType s; privacyMode := privacyMode s; httpApi_isNvr :=
     httpApi_isNvr s; httpApi_isHub := httpApi_isHub s; httpApi_numChannels :=
     httpApi_numChannels s; httpApi_channels := httpApi_channels s;
     httpApi_motionDetectionStates := httpApi_motionDetectionStates s;
     httpApi_visitorStates := httpApi_visitorStates s; httpApi_aiDetectionStates :=
     httpApi_aiDetectionStates s; timers := timers s; nextTimer := v; trace := trace s |}.

Definition set_trace v (s : State) : State :=
  {| host := host s; username := username s; password := password s; nonce := nonce s;
     userHash := userHash s; passwordHash := passwordHash s; aesKey := aesKey s;
     transport := transport s; protocol := protocol s; loggedIn := loggedIn s;
     subscribed := subscribed s; eventsActive := eventsActive s; keepaliveTask :=
     keepaliveTask s; keepaliveInterval := keepaliveInterval s; timeKeepaliveLoop :=
     timeKeepaliveLoop s; timeConnectionLost := timeConnectionLost s; extCallback :=
     extCallback s; devType := devType s; privacyMode := privacyMode s; httpApi_isNvr :=
     httpApi_isNvr s; httpApi_isHub := httpApi_isHub s; httpApi_numChannels :=
     httpApi_numChannels s; httpApi_channels := httpApi_channels s;
     httpApi_motionDetectionStates := httpApi_motionDetectionStates s;
     httpApi_visitorStates := httpApi_visitorStates s; httpApi_aiDetectionStates :=
     httpApi_aiDetectionStates s; timers := timers s; nextTimer := nextTimer s; trace :=
     v |}.

(** A method of the client: it reads and updates the state and returns or
    throws. *)
Definition M (A : Type) : Type := State -> State * Completion A.

#[global] Instance M_ret : MRet M := fun A a s => (s, Return a).
#[global] Instance M_bind : MBind M := fun A B k c s =>
  match c s with
  | (s', Return a) => k a s'
  | (s', Throw e) => (s', Throw e)
  end.

Definition throw {A} (e : Exception) : M A := fun s => (s, Throw e).
Definition get : M State := fun s => (s, Return s).
Definition modify (f : State -> State) : M unit := fun s => (f s, Return tt).
Definition lift {A} (c : Completion A) : M A := fun s => (s, c).
Definition emit (e : Event) : M unit :=
  modify (fun s => set_trace (trace s ++ [e]) s).

(** [try { c } catch (err) { h err }] *)
Definition try_catch {A} (c : M A) (h : Exception -> M A) : M A := fun s =>
  match c s with
  | (s', Return a) => (s', Return a)
  | (s', Throw e) => h e s'
  end.

(** [try { c } finally { f }], for an [f] that does not throw *)
Definition try_finally {A} (c : M A) (f : State -> State) : M A := fun s =>
  let '(s', r) := c s in (f s', r).

(* ===================================================================== *)
(** * Constants                                                           *)
(* ===================================================================== *)

Definition RETRY_ATTEMPTS : Z := 3.
Definition KEEP_ALIVE_INTERVAL : Z := 30.
Definition MIN_KEEP_ALIVE_INTERVAL : Z := 9.
Definition TIMEOUT : Z := 30.

(** The prologue every decoded body has to begin with. *)
Definition xmlPrologue : jsstring := js "<?xml".

(** [`Baichuan host ${this.host}: `], the head of every message. *)
Definition hostPrefix (this : State) : jsstring :=
  js "Baichuan host " ++ host this ++ js ": ".

(* ===================================================================== *)
(** * Framing: the header and the payload of [send]                       *)
(* ===================================================================== *)

(** [buf.writeUInt32LE(v, 0)] on a fresh 4-byte buffer. *)
Definition writeUInt32LE (v : Z) : Completion Buffer :=
  if (0 <=? v) && (v <=? 4294967295)
  then Return [v mod 256; (v / 256) mod 256; (v / 65536) mod 256; (v / 16777216) mod 256]
  else Throw (mkError RangeError (js "The value of 'value' is out of range.")).

(** [buf.readUInt32LE(off)] *)
Definition readUInt32LE (off : nat) (data : Buffer) : Completion Z :=
  match drop off data with
  | b0 :: b1 :: b2 :: b3 :: _ =>
      Return (b0 + 256 * b1 + 65536 * b2 + 16777216 * b3)
  | _ => Throw (mkError RangeError (js "Attempt to access memory outside buffer bounds"))
  end.

(** The header of [send], lines 251-284: the four little-endian words and
    the tail of the message class. *)
Definition buildHeader (this : State) (cmdId messLen messId payloadOffset : Z)
    (messageClass : jsstring) : Completion Buffer :=
  cmdIdBytes ← writeUInt32LE cmdId;
  messLenBytes ← writeUInt32LE messLen;
  messIdBytes ← writeUInt32LE messId;
  payloadOffsetBytes ← writeUInt32LE payloadOffset;
  if decide (messageClass = js "1465") then
    let encrypt := fromHex (js "12dc") in
    Return (fromHex (js "f0debc0a") ++ cmdIdBytes ++ messLenBytes ++ messIdBytes
            ++ encrypt ++ fromHex messageClass)
  else if decide (messageClass = js "1464") then
    let statusCode := fromHex (js "0000") in
    Return (fromHex (js "f0debc0a") ++ cmdIdBytes ++ messLenBytes ++ messIdBytes
            ++ statusCode ++ fromHex messageClass ++ payloadOffsetBytes)
  else
    Throw (mkError InvalidParameterError
             (hostPrefix this ++ js "invalid param message_class '" ++ messageClass ++ js "'")).

Section Ciphers.
Context `{Externals}.

(** [aesEncrypt] *)
Definition aesEncrypt (this : State) (body : jsstring) : Completion Buffer :=
  match body with
  | [] => Return []
  | _ =>
      match aesKey this with
      | None => Throw (mkError InvalidParameterError
                         (hostPrefix this ++ js "first login before using AES encryption"))
      | Some key => aes128cfb_encrypt key AES_IV (utf8Encode body)
      end
  end.

(** [aesDecrypt] *)
Definition aesDecrypt (this : State) (data header : Buffer) : Completion jsstring :=
  match aesKey this with
  | None => Throw (mkError InvalidParameterError
                     (hostPrefix this ++ js "first login before using AES decryption, header: "
                      ++ toHex header))
  | Some key =>
      plain ← aes128cfb_decrypt key AES_IV data;
      Return (utf8Decode plain)
  end.

(** The payload of [send], lines 286-295. *)
Definition encryptPayload (this : State) (ext body : jsstring) (messLen messId : Z)
    (encType : EncType) : Completion Buffer :=
  if 0 <? messLen then
    match encType with
    | BC => Return (encryptBaichuan ext messId ++ encryptBaichuan body messId)
    | AES =>
        encExt ← aesEncrypt this ext;
        encBody ← aesEncrypt this body;
        Return (encExt ++ encBody)
    end
  else Return [].

(* ===================================================================== *)
(** * [decrypt]                                                           *)
(* ===================================================================== *)

(** The two errors of [decrypt], lines 472-474 and 487-491. *)
Definition unableToDecrypt (this : State) (cmdId : Z) (header encBody : Buffer)
    (recBody : jsstring) : Exception :=
  mkError UnexpectedDataError
    (hostPrefix this ++ js "unable to decrypt message with cmd_id " ++ String_of_Z cmdId
     ++ js ", header '" ++ toHex header
     ++ js "', decrypted data startswith '" ++ slice 0 5 recBody
     ++ js "', encrypted data startswith '" ++ toHex (slice 0 5 encBody)
     ++ js "' instead of '<?xml'").

Definition unknownEncryption (this : State) (recEncType : jsstring) (data : Buffer) : Exception :=
  mkError InvalidContentTypeError
    (hostPrefix this ++ js "received unknown encryption type '" ++ recEncType
     ++ js "', data: " ++ toHex data).

(** [decrypt] *)
Definition decrypt (this : State) (data : Buffer) (lenHeader : Z) (cmdId : Z)
    (encType : EncType) : Completion jsstring :=
  recEncOffset ← readUInt32LE 12 data;
  let recEncType := toHex (slice 16 18 data) in
  let encBody := sliceFrom lenHeader data in
  let header := slice 0 lenHeader data in
  if decide (length encBody = 0%nat) then Return []
  else
    let is24ByteHeader := bool_decide (lenHeader = 24) in
    let is20 := bool_decide (lenHeader = 20) in
    let isType (t : jsstring) := bool_decide (recEncType = t) in
    recBody ←
      (if (is20 && (isType (js "01dd") || isType (js "12dd"))) || bool_decide (encType = BC) then
         decryptBaichuan encBody recEncOffset
       else if (is20 && (isType (js "02dd") || isType (js "03dd")))
               || (is24ByteHeader && bool_decide (is_Some (aesKey this))) then
         catch
           (recBody ← aesDecrypt this encBody header;
            if negb (startsWith recBody xmlPrologue)
            then decryptBaichuan encBody recEncOffset
            else Return recBody)
           (fun _ => decryptBaichuan encBody recEncOffset)
       else if isType (js "00dd") || is24ByteHeader then
         catch
           (recBody ← decryptBaichuan encBody recEncOffset;
            if negb (startsWith recBody xmlPrologue)
            then Return (utf8Decode encBody)
            else Return recBody)
           (fun _ => Return (utf8Decode encBody))
       else Throw (unknownEncryption this recEncType data));
    if negb (startsWith recBody xmlPrologue) then
      let recBody1 := if isType (js "00dd") then utf8Decode encBody else recBody in
      recBody2 ← (if negb (startsWith recBody1 xmlPrologue)
                  then decryptBaichuan encBody recEncOffset
                  else Return recBody1);
      if negb (startsWith recBody2 xmlPrologue)
      then Throw (unableToDecrypt this cmdId header encBody recBody2)
      else Return recBody2
    else Return recBody.

End Ciphers.

(* ===================================================================== *)
(** * The network, as the client meets it                                 *)
(* ===================================================================== *)

Inductive ConnectOutcome :=
| Connected
| ConnectTimeout
| ConnectError (message : jsstring).

(** What awaiting the response to a written frame yields: the frame and the
    length of its header, or the exception the promise is rejected with; and
    whether, and when, the socket was closed meanwhile. *)
Record Reply := {
  reply_closedAt : option Z;
  reply_result : Completion (Buffer * Z)
}.

(** The [n]-th connection attempt and the reply to the [n]-th written frame,
    counted from 0. *)
Record Network := {
  net_connect : nat -> ConnectOutcome;
  net_reply : nat -> Reply
}.

Definition isWrite (e : Event) : bool :=
  match e with EvWrite _ => true | _ => false end.
Definition isConnect (e : Event) : bool :=
  match e with EvConnect => true | _ => false end.

Definition writes (s : State) : list Event := filter isWrite (trace s).
Definition connects (s : State) : list Event := filter isConnect (trace s).

(** [closeCallback], at time [now] (milliseconds). *)
Definition closeCallback (now : Z) (this : State) : State :=
  let this1 := set_loggedIn false this in
  let eventsActive0 := eventsActive this1 in
  let this2 := set_eventsActive false this1 in
  if subscribed this2 then
    if negb eventsActive0 then set_timeConnectionLost now this2
    else set_timeConnectionLost now this2
  else this2.

(** The socket is closed at [now]: it is destroyed and the protocol handle
    calls [closeCallback]. *)
Definition socketClosed (now : Z) (this : State) : State :=
  closeCallback now
    (set_transport (match transport this with
                    | Some _ => Some {| destroyed := true |}
                    | None => None
                    end) this).

Section Send.
Context `{Externals} (net : Network).

(** The tail of [connectIfNeeded]: a new socket is connected. *)
Definition openConnection : M unit := fun this =>
  let n := length (connects this) in
  let this' := set_trace (trace this ++ [EvConnect]) this in
  match net_connect net n with
  | Connected =>
      (set_protocol (Some BaichuanTcpClientProtocol)
         (set_transport (Some {| destroyed := false |}) this'), Return tt)
  | ConnectTimeout =>
      (this', Throw (mkError ReolinkConnectionError
                       (hostPrefix this ++ js "Connection timeout")))
  | ConnectError m =>
      (this', Throw (mkError ReolinkConnectionError
                       (hostPrefix this ++ js "Connection error: " ++ m)))
  end.

(** [connectIfNeeded] *)
Definition connectIfNeeded : M unit := fun this =>
  match transport this, protocol this with
  | Some sock, Some _ =>
      if negb (destroyed sock) then (this, Return tt) else openConnection this
  | _, _ => openConnection this
  end.

(** [transport.write(fullData)] followed by [await responsePromise]. *)
Definition writeAndAwait (fullData : Buffer) : M (Buffer * Z) := fun this =>
  let n := length (writes this) in
  let this1 := set_trace (trace this ++ [EvWrite fullData]) this in
  let r := net_reply net n in
  let this2 := match reply_closedAt r with
               | Some now => socketClosed now this1
               | None => this1
               end in
  (this2, reply_result r).

(** What the [catch] of [send] decides, lines 358-374. *)
Inductive RetryDecision :=
| RetryAfterDelay (ms : Z)
| RetryNow
| Rethrow.

Definition retryDecision (err : Exception) (retry cmdId : Z) : RetryDecision :=
  if bool_decide (err_class err = ApiError) && (err_rspCode err =? 400) && (0 <? retry)
  then RetryAfterDelay 1500
  else if bool_decide (err_class err = ReolinkTimeoutError) && (0 <? retry)
          && negb (cmdId =? 2)
  then RetryNow
  else if instanceofError err && includes (err_message err) (js "Connection")
          && (0 <? retry) && negb (cmdId =? 2)
  then RetryNow
  else Rethrow.

Definition outOfFuel : Exception := mkError PlainError (js "out of fuel").

(** The sequence id and the frame of [send], lines 231-295 and 349: the
    sequence id is resolved, the extension chosen, the header built and the
    payload encrypted. *)
Definition prepareFrame (this : State) (cmdId : Z) (channel : option Z)
    (body extension : jsstring) (encType : EncType) (messageClass : jsstring)
    (messId : option Z) : Completion (Z * Buffer) :=
  let messId := match messId with
                | Some m => m
                | None => match channel with
                          | None => 250
                          | Some ch => ch + 1
                          end
                end in
  ext ← match channel with
        | Some ch =>
            match extension with
            | _ :: _ => Throw (mkError InvalidParameterError
                                 (hostPrefix this
                                  ++ js "cannot specify both channel and extension"))
            | [] => Return (buildChannelExtensionXml ch)
            end
        | None => Return extension
        end;
  let messLen := jslength ext + jslength body in
  let payloadOffset := jslength ext in
  header ← buildHeader this cmdId messLen messId payloadOffset messageClass;
  encBodyBytes ← encryptPayload this ext body messLen messId encType;
  Return (messId, header ++ encBodyBytes).

(** One pass through [send] up to its [catch], lines 226-374, with the
    budget [retry] already decremented: the sequence id, and the reply or
    the decision to try again.  The wait for a request outstanding under the
    same key (lines 303-325) and the write lock (lines 344-347) delay the
    write and change nothing else; they are left out. *)
Definition sendAttempt (login : M unit) (cmdId : Z) (channel : option Z)
    (body extension : jsstring) (encType : EncType) (messageClass : jsstring)
    (messId : option Z) (retry : Z) : M (Z * (unit + Buffer * Z)) :=
  this ← get;
  _ ← (if negb (loggedIn this) && (2 <? cmdId) then login else mret tt);
  this ← get;
  '(messId, fullData) ←
    lift (prepareFrame this cmdId channel body extension encType messageClass messId);
  _ ← connectIfNeeded;
  this ← get;
  _ ← match protocol this, transport this with
      | Some _, Some _ => mret tt
      | _, _ => throw (mkError ReolinkConnectionError
                         (hostPrefix this ++ js "Protocol not initialized"))
      end;
  r ← try_catch
        (r ← writeAndAwait fullData; mret (inr r))
        (fun err =>
           match retryDecision err retry cmdId with
           | RetryAfterDelay ms => _ ← emit (EvDelay ms); mret (inl tt)
           | RetryNow => mret (inl tt)
           | Rethrow => throw err
           end);
  mret (messId, r).

(** [send]; [fuel] bounds the depth of the recursion on [retry], and [login]
    is the method [send] calls first when the session is not logged in. *)
Fixpoint send_fuel (login : M unit) (fuel : nat) (cmdId : Z) (channel : option Z)
    (body extension : jsstring) (encType : EncType) (messageClass : jsstring)
    (messId : option Z) (retry : Z) : M jsstring :=
  match fuel with
  | O => throw outOfFuel
  | S fuel' =>
      let retry := retry - 1 in
      '(messId, r) ← sendAttempt login cmdId channel body extension encType
                       messageClass messId retry;
      match r with
      | inl _ =>
          send_fuel login fuel' cmdId channel body extension encType messageClass
            (Some messId) retry
      | inr (data, lenHeader) =>
          this ← get;
          lift (decrypt this data lenHeader cmdId encType)
      end
  end.

End Send.

(** [send] with the budget as the bound of its recursion: a call with budget
    [retry] nests at most [max 1 retry] deep. *)
Definition send `{Externals} (net : Network) (login : M unit) (cmdId : Z)
    (channel : option Z) (body extension : jsstring) (encType : EncType)
    (messageClass : jsstring) (messId : option Z) (retry : Z) : M jsstring :=
  send_fuel net login (Z.to_nat (Z.max 1 retry)) cmdId channel body extension encType
    messageClass messId retry.

(* ===================================================================== *)
(** * The session: nonce handshake, login, logout                         *)
(* ===================================================================== *)

(** [err instanceof ReolinkError]: the classes of [../exceptions]. *)
Definition instanceofReolinkError (e : Exception) : bool :=
  match err_class e with
  | RangeError | PlainError | NotAnError => false
  | _ => true
  end.

Section Session.
Context `{Externals} (net : Network).

(** [Number(v)], when it is an integer: [None] stands for NaN and for a
    fraction, neither of which is a channel or a channel count. *)
Definition toNumber (v : JsValue) : option Z :=
  match v with
  | JUndefined => None
  | JNull => Some 0
  | JBool b => Some (if b then 1 else 0)
  | JNumber n => Some n
  | JFraction _ => None
  | JString s => stringToNumber s
  | JArray _ => stringToNumber (toString v)
  | JObject _ => None
  end.

(** The calls of [send] made while logging in carry command 1 and never
    reach the login of [send]. *)
Definition sendBootstrap := send net (mret tt).

(** [getNonce].  The nonce is kept as the text the template strings of the
    code make of it. *)
Definition getNonce : M jsstring :=
  mess ← sendBootstrap 1 None [] [] BC (js "1465") None RETRY_ATTEMPTS;
  this ← get;
  match mess with
  | [] => throw (mkError UnexpectedDataError
                   (hostPrefix this ++ js "received empty response when requesting nonce"))
  | _ =>
      parsed ← lift (xmlParse mess);
      let body := getProp parsed (js "body") in
      let encryption := getProp body (js "Encryption") in
      let found :=
        jsOr (getProp (getProp encryption (js "nonce")) (js "_text"))
         (jsOr (getProp encryption (js "nonce"))
           (jsOr (getProp (getProp body (js "nonce")) (js "_text"))
             (jsOr (getProp body (js "nonce")) JNull))) in
      if negb (truthy found) then
        _ ← modify (set_nonce None);
        throw (mkError UnexpectedDataError
                 (hostPrefix this ++ js "could not find nonce in response:" ++ [10] ++ mess))
      else
        let nonce := toString found in
        _ ← modify (set_nonce (Some nonce));
        let aesKeyStr := slice 0 16 (md5StrModern (nonce ++ js "-" ++ password this)) in
        _ ← modify (set_aesKey (Some (utf8Encode aesKeyStr)));
        mret nonce
  end.

(** [0, 1, ..., n - 1], the channels of lines 687-691. *)
Definition range (n : Z) : list Z := map Z.of_nat (seq 0 (Z.to_nat n)).

(** [parseDeviceInfo] *)
Definition parseDeviceInfo (devInfo : JsValue) (this : State) : State :=
  let devType := jsOr (getProp (getProp devInfo (js "type")) (js "_text"))
                      (getProp devInfo (js "type")) in
  let devTypeInfo := jsOr (getProp (getProp devInfo (js "typeInfo")) (js "_text"))
                          (getProp devInfo (js "typeInfo")) in
  let this1 :=
    if truthy devType && truthy devTypeInfo then
      let a := set_devType (toString devType) this in
      let b :=
        if negb (httpApi_isNvr a) then
          set_httpApi_isNvr
            (isString devType (js "nvr") || isString devType (js "wifi_nvr")
             || isString devType (js "homehub") || isString devTypeInfo (js "NVR")
             || isString devTypeInfo (js "WIFI_NVR") || isString devTypeInfo (js "HOMEHUB")) a
        else a in
      if negb (httpApi_isHub b) then
        set_httpApi_isHub
          (isString devType (js "homehub") || isString devTypeInfo (js "HOMEHUB")) b
      else b
    else this in
  let sleepV := getProp devInfo (js "sleep") in
  let this2 :=
    if negb (isUndefined (getProp sleepV (js "_text"))) || negb (isUndefined sleepV) then
      let sleep := isString (getProp sleepV (js "_text")) (js "1")
                   || isNumber sleepV 1 || isTrue sleepV in
      set_privacyMode (<[0 := sleep]> (privacyMode this1)) this1
    else this1 in
  let channelNum :=
    toNumber (jsOr (jsOr (getProp (getProp devInfo (js "channelNum")) (js "_text"))
                         (getProp devInfo (js "channelNum")))
                   (JNumber 0)) in
  match channelNum with
  | Some n =>
      if (0 <? n) && (httpApi_numChannels this2 =? 0) && negb (httpApi_isNvr this2)
      then set_httpApi_numChannels n (set_httpApi_channels (range n) this2)
      else this2
  | None => this2
  end.

Definition credentialsInvalid (this : State) : Exception :=
  mkError CredentialsInvalidError (hostPrefix this ++ js "Invalid credentials during login").

(** The tail shared by the modern and the legacy login: the session is
    logged in and the device information of the reply is taken over. *)
Definition loggedInWith (mess : jsstring) : M unit :=
  _ ← modify (set_loggedIn true);
  parsed ← lift (xmlParse mess);
  let devInfo := getProp (getProp parsed (js "body")) (js "DeviceInfo") in
  if truthy devInfo then modify (parseDeviceInfo devInfo) else mret tt.

(** [login], one invocation at a time: the login mutex is free when it is
    called and released when it ends. *)
Definition login : M unit :=
  this ← get;
  if loggedIn this then mret tt
  else
    try_catch
      (nonce ← getNonce;
       this ← get;
       let uh := md5StrModern (username this ++ nonce) in
       let ph := md5StrModern (password this ++ nonce) in
       _ ← modify (set_userHash (Some uh));
       _ ← modify (set_passwordHash (Some ph));
       let xml := buildLoginXml uh ph in
       mess ← sendBootstrap 1 None xml [] BC (js "1464") None RETRY_ATTEMPTS;
       loggedInWith mess)
      (fun err =>
         this ← get;
         if bool_decide (err_class err = UnexpectedDataError)
            && includes (err_message err) (js "nonce") then
           let xml := buildLoginXml (username this) (password this) in
           try_catch
             (mess ← sendBootstrap 1 None xml [] BC (js "1464") None RETRY_ATTEMPTS;
              loggedInWith mess)
             (fun legacyErr =>
                this ← get;
                if bool_decide (err_class legacyErr = ApiError) && (err_rspCode legacyErr =? 401)
                then throw (credentialsInvalid this)
                else throw legacyErr)
         else if bool_decide (err_class err = ApiError) && (err_rspCode err =? 401)
         then throw (credentialsInvalid this)
         else throw err).

(** [send] as the other methods call it. *)
Definition sendCmd := send net login.

(** [logout].  Closing the protocol handle ends in [closeCallback], which
    for a client that is not subscribed only clears what the assignments
    that follow clear as well. *)
Definition logout : M unit :=
  this ← get;
  if subscribed this then mret tt
  else
    _ ← match loggedIn this, transport this, protocol this with
        | true, Some _, Some _ =>
            _ ← try_catch
                  (let xml := buildLogoutXml (username this) (password this) in
                   _ ← sendCmd 2 None xml [] AES (js "1464") None RETRY_ATTEMPTS;
                   mret tt)
                  (fun err =>
                     if instanceofReolinkError err then emit (EvDebugLog err) else mret tt);
            emit EvClose
        | _, _, _ => mret tt
        end;
    _ ← modify (set_loggedIn false);
    _ ← modify (set_eventsActive false);
    _ ← modify (set_transport None);
    _ ← modify (set_protocol None);
    _ ← modify (set_nonce None);
    _ ← modify (set_aesKey None);
    _ ← modify (set_userHash None);
    modify (set_passwordHash None).

End Session.

(* ===================================================================== *)
(** * Callbacks and the push dispatch                                     *)
(* ===================================================================== *)

(** [registerCallback]: the maps of the command and of the channel are
    created when missing, and the callback is set under its id. *)
Definition registerCallback (callbackId : jsstring) (callback : CallbackFunction)
    (cmdId channel : option Z) (this : State) : State :=
  let ext0 := extCallback this in
  let ext1 := if map_has cmdId ext0 then ext0 else map_set cmdId [] ext0 in
  let cmdCallbacks0 := default [] (map_get cmdId ext1) in
  let cmdCallbacks1 :=
    if map_has channel cmdCallbacks0 then cmdCallbacks0
    else map_set channel [] cmdCallbacks0 in
  let channelCallbacks := default [] (map_get channel cmdCallbacks1) in
  let channelCallbacks' := map_set callbackId callback channelCallbacks in
  set_extCallback
    (map_set cmdId (map_set channel channelCallbacks' cmdCallbacks1) ext1) this.

(** One level of [unregisterCallback]: every inner map is rewritten and the
    entries whose map has become empty are deleted. *)
Definition pruneWith {K V} (f : V -> list V) (m : Map K V) : Map K V :=
  flat_map (fun '(k, v) => map (fun v' => (k, v')) (f v)) m.

(** A map is kept when it still has an entry. *)
Definition nonEmpty {A} (m : list A) : list (list A) :=
  match m with
  | [] => []
  | _ :: _ => [m]
  end.

(** [unregisterCallback] *)
Definition unregisterCallback (callbackId : jsstring) (this : State) : State :=
  set_extCallback
    (pruneWith
       (fun cmdCallbacks =>
          nonEmpty (pruneWith
                      (fun channelCallbacks =>
                         nonEmpty (map_delete callbackId channelCallbacks))
                      cmdCallbacks))
       (extCallback this)) this.

(** [for (const x of l) { f x }] *)
Fixpoint forOf {A} (l : list A) (f : A -> M unit) : M unit :=
  match l with
  | [] => mret tt
  | x :: l' => _ ← f x; forOf l' f
  end.

(** [callback()] *)
Definition invoke (entry : jsstring * CallbackFunction) : M unit :=
  _ ← emit (EvCallback entry.1);
  match cb_throws entry.2 with
  | Some err => throw err
  | None => mret tt
  end.

(** [executeCallbacks]: the callbacks in the order of the [Map], each in
    its own [try]. *)
Definition executeCallbacks (cmdId channel : option Z) : M unit :=
  this ← get;
  match map_get cmdId (extCallback this) with
  | None => mret tt
  | Some cmdCallbacks =>
      match map_get channel cmdCallbacks with
      | None => mret tt
      | Some channelCallbacks =>
          forOf channelCallbacks (fun entry =>
            try_catch (invoke entry) (fun err => emit (EvDebugLog err)))
      end
  end.

(** [events] of [parseXml], line 850. *)
Definition eventsOf (eventList : JsValue) : list JsValue :=
  match eventList with
  | JArray items => items
  | _ =>
      match getProp eventList (js "AlarmEvent") with
      | JArray items => items
      | _ => [eventList]
      end
  end.

Section Push.
Context `{Externals}.

(** [Number(channelId)] is one of [_channels]. *)
Definition knownChannel (this : State) (channelId : JsValue) : option Z :=
  match toNumber channelId with
  | Some channel =>
      if bool_decide (channel ∈ httpApi_channels this) then Some channel else None
  | None => None
  end.

(** Lines 874-892: the motion and the visitor state of the channel. *)
Definition updateStatus (channel : Z) (status : JsValue) (this : State) : State :=
  let states := toString status in
  let motionState := includes states (js "MD") in
  let visitorState := includes states (js "visitor") in
  let this1 :=
    set_httpApi_motionDetectionStates
      (<[channel := motionState]> (httpApi_motionDetectionStates this)) this in
  set_httpApi_visitorStates
    (<[channel := visitorState]> (httpApi_visitorStates this1)) this1.

(** Lines 895-914: the AI states the channel tracks, and the "other" type
    taken as motion when no motion is set. *)
Definition updateAItype (channel : Z) (aiType : JsValue) (this : State) : State :=
  let aiTypes := toString aiType in
  let this1 :=
    match httpApi_aiDetectionStates this !! channel with
    | Some aiStates =>
        set_httpApi_aiDetectionStates
          (<[channel := map (fun '(aiTypeKey, _) => (aiTypeKey, includes aiTypes aiTypeKey))
                            aiStates]> (httpApi_aiDetectionStates this)) this
    | None => this
    end in
  let motionState := default false (httpApi_motionDetectionStates this1 !! channel) in
  if negb motionState && includes aiTypes (js "other") then
    set_httpApi_motionDetectionStates
      (<[channel := true]> (httpApi_motionDetectionStates this1)) this1
  else this1.

(** Lines 868-871: the first event of a subscribed client marks the events
    active. *)
Definition markEventsActive (this : State) : State :=
  if negb (eventsActive this) && subscribed this
  then set_eventsActive true this else this.

(** The body of [for (const event of events)], lines 853-919. *)
Definition handleEvent (cmdId : Z) (event : JsValue) : M unit :=
  if negb (truthy event) then mret tt
  else
    let alarmEvent := nullish (getProp event (js "AlarmEvent")) event in
    if negb (truthy alarmEvent) then mret tt
    else
      let channelId := nullish (getProp alarmEvent (js "channelId"))
                               (getProp alarmEvent (js "channel")) in
      if isUndefined channelId then mret tt
      else
        this ← get;
        match knownChannel this channelId with
        | None => mret tt
        | Some channel =>
            let status := getProp alarmEvent (js "status") in
            let aiType := getProp alarmEvent (js "AItype") in
            if negb (isUndefined status) || negb (isUndefined aiType) then
              _ ← modify markEventsActive;
              _ ← (if negb (isUndefined status)
                   then modify (updateStatus channel status) else mret tt);
              _ ← (if negb (isUndefined aiType)
                   then modify (updateAItype channel aiType) else mret tt);
              _ ← executeCallbacks (Some cmdId) (Some channel);
              executeCallbacks (Some cmdId) None
            else mret tt
        end.

(** The body of [for (const key in body)], lines 846-920. *)
Definition handleEventList (cmdId : Z) (eventList : JsValue) : M unit :=
  if negb (truthy eventList) then mret tt
  else forOf (eventsOf eventList) (handleEvent cmdId).

(** [parseXml] *)
Definition parseXml (cmdId : Z) (xml : jsstring) : M unit :=
  try_catch
    (parsed ← lift (xmlParse xml);
     if cmdId =? 33 then
       let body := getProp parsed (js "body") in
       if negb (truthy body) then mret tt
       else forOf (forInValues body) (handleEventList cmdId)
     else mret tt)
    (fun err => emit (EvDebugLog err)).

(** [pushCallback] *)
Definition pushCallback (cmdId : Z) (data : Buffer) (lenHeader : Z) : M unit :=
  try_catch
    (this ← get;
     recBody ← lift (decrypt this data lenHeader cmdId AES);
     match recBody with
     | [] => mret tt
     | _ => parseXml cmdId recBody
     end)
    (fun err => if instanceofReolinkError err then emit (EvDebugLog err) else mret tt).

End Push.

(* ===================================================================== *)
(** * The event subscription                                              *)
(* ===================================================================== *)

(** [setInterval(f, ms)] and [clearInterval(id)] of the runtime. *)
Definition setInterval (ms : Z) (this : State) : Z * State :=
  let id := nextTimer this in
  (id, set_trace (trace this ++ [EvSetInterval id ms])
         (set_nextTimer (id + 1) (set_timers (timers this ++ [id]) this))).

Definition clearInterval (id : Z) (this : State) : State :=
  set_trace (trace this ++ [EvClearInterval id])
    (set_timers (filter (fun t => t ≠ id) (timers this)) this).

Section Subscription.
Context `{Externals} (net : Network).

(** Lines 780-783: a missing or destroyed transport forces a new login. *)
Definition forceRelogin (this : State) : State :=
  match transport this with
  | Some sock => if destroyed sock then set_loggedIn false this else this
  | None => set_loggedIn false this
  end.

(** Lines 786-796: the flags are set, the time is taken and the keepalive
    timer is armed. *)
Definition armKeepalive (now : Z) (this : State) : State :=
  let this1 := set_timeKeepaliveLoop now (set_eventsActive true (set_subscribed true this)) in
  let '(id, this2) := setInterval (keepaliveInterval this1 * 1000) this1 in
  set_keepaliveTask (Some id) this2.

(** [subscribeEvents], at time [now].  The subscribe command is sent without
    being awaited; here it runs at once, and what it throws is dropped. *)
Definition subscribeEvents (now : Z) : M unit :=
  this ← get;
  if subscribed this then mret tt
  else
    _ ← modify forceRelogin;
    _ ← login net;
    _ ← modify (armKeepalive now);
    try_catch
      (_ ← sendCmd net 31 None [] [] AES (js "1464") (Some 251) RETRY_ATTEMPTS; mret tt)
      (fun err => emit (EvDebugLog err)).

(** Lines 811-816: the flags are cleared and the timer is cancelled. *)
Definition disarmKeepalive (this : State) : State :=
  let this1 := set_eventsActive false (set_subscribed false this) in
  match keepaliveTask this1 with
  | Some id => set_keepaliveTask None (clearInterval id this1)
  | None => this1
  end.

(** [unsubscribeEvents] *)
Definition unsubscribeEvents : M unit :=
  _ ← modify disarmKeepalive;
  logout net.

(** [keepaliveLoop]; the command is answered at time [now]. *)
Definition keepaliveLoop (now : Z) : M unit :=
  this ← get;
  if negb (subscribed this) || negb (eventsActive this) then mret tt
  else
    try_catch
      (_ ← sendCmd net 93 None [] [] AES (js "1464") None RETRY_ATTEMPTS;
       modify (set_timeKeepaliveLoop now))
      (fun err => emit (EvDebugLog err)).

End Subscription.


(** [subscribedValue] *)
Definition subscribedValue (this : State) : bool := subscribed this.

(** The state the constructor leaves, for a [Host] with the given channels
    and detection tables. *)
Definition newBaichuan (host username password : jsstring) (channels : list Z)
    (aiStates : gmap Z (Map jsstring bool)) : State :=
  {| host := host; username := username; password := password;
     nonce := None; userHash := None; passwordHash := None; aesKey := None;
     transport := None; protocol := None; loggedIn := false;
     subscribed := false; eventsActive := false; keepaliveTask := None;
     keepaliveInterval := KEEP_ALIVE_INTERVAL; timeKeepaliveLoop := 0;
     timeConnectionLost := 0; extCallback := [];
     devType := []; privacyMode := ∅;
     httpApi_isNvr := false; httpApi_isHub := false;
     httpApi_numChannels := Z.of_nat (length channels); httpApi_channels := channels;
     httpApi_motionDetectionStates := ∅; httpApi_visitorStates := ∅;
     httpApi_aiDetectionStates := aiStates;
     timers := []; nextTimer := 1; trace := [] |}.

(* ===================================================================== *)
(** * Test doubles for the collaborators                                  *)
(* ===================================================================== *)

Module Doubles.

(** The offset-keyed XOR stream of the legacy cipher. *)
Definition XML_KEY : list Z := [0x1F; 0x2D; 0x3C; 0x4B; 0x5A; 0x69; 0x78; 0xFF].

Fixpoint xorStream (offset : Z) (idx : Z) (bs : list Z) : list Z :=
  match bs with
  | [] => []
  | b :: bs' =>
      let key := nth (Z.to_nat ((offset + idx) mod 8)) XML_KEY 0 in
      Z.lxor (Z.lxor b key) (offset mod 256) :: xorStream offset (idx + 1) bs'
  end.

(** A stand-in for AES-CFB that keeps lengths: a XOR with the key, repeated;
    like Node it refuses a key that has not 16 bytes. *)
Fixpoint xorKey (key : list Z) (i : nat) (bs : list Z) : list Z :=
  match bs with
  | [] => []
  | b :: bs' => Z.lxor b (nth (i mod 16) key 0) :: xorKey key (S i) bs'
  end.

Definition streamCipher (key iv bs : Buffer) : Completion Buffer :=
  if decide (length key = 16%nat) then Return (xorKey key 0 bs)
  else Throw (mkError RangeError (js "Invalid key length")).

(** Bytes below 128 are their own code unit, any other is U+FFFD. *)
Definition asciiDecode (bs : Buffer) : jsstring :=
  map (fun b => if b <? 128 then b else 0xFFFD) bs.

(** Decimal digits only. *)
Definition digitsToNumber (s : jsstring) : option Z :=
  match s with
  | [] => Some 0
  | _ =>
      foldl (fun acc c =>
               match acc with
               | Some n => if (48 <=? c) && (c <=? 57) then Some (10 * n + (c - 48)) else None
               | None => None
               end) (Some 0) s
  end.

(** A hash of 32 upper-case hexadecimal digits (not MD5). *)
Definition toyHash (s : jsstring) : jsstring :=
  let h := foldl (fun acc c => (acc * 31 + c) mod 4294967296) 7 s in
  let word := [h mod 256; (h / 256) mod 256; (h / 65536) mod 256; (h / 16777216) mod 256] in
  map (fun c => if (97 <=? c) && (c <=? 102) then c - 32 else c)
      (toHex (word ++ word ++ word ++ word)).

(** The envelopes of the fixtures, as the parser returns them. *)
Definition nonceReply : jsstring :=
  js "<?xml version='1.0' encoding='UTF-8' ?><body><Encryption version='1.1'><type>md5</type><nonce>abc123</nonce></Encryption></body>".

Definition nonceParsed : JsValue :=
  JObject [(js "?xml", JObject [(js "version", JString (js "1.0"))]);
           (js "body", JObject [(js "Encryption",
              JObject [(js "type", JString (js "md5"));
                       (js "nonce", JString (js "abc123"));
                       (js "version", JString (js "1.1"))])])].

Definition loginReply : jsstring :=
  js "<?xml version='1.0' encoding='UTF-8' ?><body><DeviceInfo version='1.1'><type>ipc</type><typeInfo>IPC</typeInfo><channelNum>1</channelNum></DeviceInfo></body>".

Definition loginParsed : JsValue :=
  JObject [(js "body", JObject [(js "DeviceInfo",
              JObject [(js "type", JString (js "ipc"));
                       (js "typeInfo", JString (js "IPC"));
                       (js "channelNum", JNumber 1)])])].

Definition alarmPush : jsstring :=
  js "<?xml version='1.0' encoding='UTF-8' ?><body><AlarmEventList version='1.1'><AlarmEvent version='1.1'><channelId>0</channelId><status>MD</status><AItype>none</AItype></AlarmEvent></AlarmEventList></body>".

Definition alarmEvent : JsValue :=
  JObject [(js "channelId", JNumber 0);
           (js "status", JString (js "MD"));
           (js "AItype", JString (js "none"))].

Definition alarmParsed : JsValue :=
  JObject [(js "body", JObject [(js "AlarmEventList",
              JObject [(js "AlarmEvent", alarmEvent)])])].

Definition fixtures : list (jsstring * JsValue) :=
  [(nonceReply, nonceParsed); (loginReply, loginParsed); (alarmPush, alarmParsed)].

Definition parseFixture (xml : jsstring) : Completion JsValue :=
  match map_get xml fixtures with
  | Some v => Return v
  | None => Return (JObject [])
  end.

#[local] Instance externals : Externals := {|
  encryptBaichuan s off := xorStream off 0 (utf8Encode s);
  decryptBaichuan bs off := Return (asciiDecode (xorStream off 0 bs));
  md5StrModern := toyHash;
  AES_IV := utf8Encode (js "0123456789abcdef");
  aes128cfb_encrypt := streamCipher;
  aes128cfb_decrypt := streamCipher;
  utf8Decode := asciiDecode;
  stringToNumber := digitsToNumber;
  xmlParse := parseFixture;
  buildChannelExtensionXml ch :=
    js "<?xml version='1.0' encoding='UTF-8' ?><Extension version='1.1'><channelId>"
    ++ String_of_Z ch ++ js "</channelId></Extension>";
  buildLoginXml u p :=
    js "<?xml version='1.0' encoding='UTF-8' ?><body><LoginUser version='1.1'><userName>"
    ++ u ++ js "</userName><password>" ++ p ++ js "</password></LoginUser></body>";
  buildLogoutXml u p :=
    js "<?xml version='1.0' encoding='UTF-8' ?><body><LoginUser version='1.1'><userName>"
    ++ u ++ js "</userName><password>" ++ p ++ js "</password></LoginUser></body>"
|}.

(** A response frame: a 24-byte header with status 200 and the body under the
    legacy cipher, or in the clear. *)
Definition header24 (cmdId messLen messId : Z) : Buffer :=
  fromHex (js "f0debc0a")
  ++ [cmdId mod 256; (cmdId / 256) mod 256; 0; 0]
  ++ [messLen mod 256; (messLen / 256) mod 256; 0; 0]
  ++ [messId mod 256; 0; 0; 0]
  ++ fromHex (js "c800") ++ fromHex (js "1464") ++ [0; 0; 0; 0].

Definition legacyFrame (cmdId messId : Z) (body : jsstring) : Buffer :=
  header24 cmdId (jslength body) messId ++ xorStream messId 0 (utf8Encode body).

Definition plainFrame (cmdId messId : Z) (body : jsstring) : Buffer :=
  header24 cmdId (jslength body) messId ++ utf8Encode body.

Definition timeoutError : Exception :=
  mkError ReolinkTimeoutError (js "Baichuan host 192.168.1.10: Timeout error").

Definition busyError : Exception :=
  mkException ApiError 400 (js "Baichuan host 192.168.1.10: API error 400").

Definition answered (frame : Buffer) : Reply :=
  {| reply_closedAt := None; reply_result := Return (frame, 24) |}.

Definition rejected (err : Exception) : Reply :=
  {| reply_closedAt := None; reply_result := Throw err |}.

(** A device that answers nothing. *)
Definition silentNet : Network :=
  {| net_connect := fun _ => Connected; net_reply := fun _ => rejected timeoutError |}.

(** A device that is always busy. *)
Definition busyNet : Network :=
  {| net_connect := fun _ => Connected; net_reply := fun _ => rejected busyError |}.

(** A device that completes the modern login and then falls silent. *)
Definition loginNet : Network :=
  {| net_connect := fun _ => Connected;
     net_reply := fun n =>
       match n with
       | O => answered (legacyFrame 1 250 nonceReply)
       | S O => answered (legacyFrame 1 250 loginReply)
       | _ => rejected timeoutError
       end |}.

Definition fresh : State :=
  newBaichuan (js "192.168.1.10") (js "admin") (js "secret") [0] ∅.

(** A session after the modern login. *)
Definition session : State := (login loginNet fresh).1.

End Doubles.

(* ===================================================================== *)
(** * The client over time                                                *)
(* ===================================================================== *)

(** What can happen to a client: a call of a public method, the interval
    timer firing, the socket being closed, a frame being pushed. *)
Inductive Op :=
| OpLogin
| OpLogout
| OpSend (cmdId : Z) (channel : option Z) (body extension : jsstring)
    (encType : EncType) (messageClass : jsstring) (messId : option Z) (retry : Z)
| OpSubscribeEvents (now : Z)
| OpUnsubscribeEvents
| OpKeepaliveTick (now : Z)
| OpCloseCallback (now : Z)
| OpPush (cmdId : Z) (data : Buffer) (lenHeader : Z)
| OpRegisterCallback (callbackId : jsstring) (callback : CallbackFunction)
    (cmdId channel : option Z)
| OpUnregisterCallback (callbackId : jsstring).

Definition perform `{Externals} (net : Network) (op : Op) (this : State) : State :=
  match op with
  | OpLogin => (login net this).1
  | OpLogout => (logout net this).1
  | OpSend cmdId channel body extension encType messageClass messId retry =>
      (sendCmd net cmdId channel body extension encType messageClass messId retry this).1
  | OpSubscribeEvents now => (subscribeEvents net now this).1
  | OpUnsubscribeEvents => (unsubscribeEvents net this).1
  | OpKeepaliveTick now =>
      match timers this with
      | [] => this
      | _ :: _ => (keepaliveLoop net now this).1
      end
  | OpCloseCallback now => socketClosed now this
  | OpPush cmdId data lenHeader => (pushCallback cmdId data lenHeader this).1
  | OpRegisterCallback callbackId callback cmdId channel =>
      registerCallback callbackId callback cmdId channel this
  | OpUnregisterCallback callbackId => unregisterCallback callbackId this
  end.

(** The states a client can be in. *)
Inductive reachable `{Externals} : State -> Prop :=
| reachable_new host username password channels aiStates :
    reachable (newBaichuan host username password channels aiStates)
| reachable_perform net op this :
    reachable this -> reachable (perform net op this).



(** The armed timers are exactly the one the client holds the handle of. *)
Definition timersOwned (this : State) : Prop :=
  timers this = match keepaliveTask this with Some id => [id] | None => [] end
  /\ (is_Some (keepaliveTask this) <-> subscribed this = true)
  /\ (eventsActive this = true -> subscribed this = true).

(** Every [Map] of the registry holds a key once. *)
Definition registryWf (ext : Map (option Z) (Map (option Z) (Map jsstring CallbackFunction)))
    : Prop :=
  map_wf ext /\
  Forall (fun cmdEntry =>
            map_wf cmdEntry.2 /\ Forall (fun chEntry => map_wf chEntry.2) cmdEntry.2) ext.


(** The callbacks registered for a command and a channel. *)
Definition registered (this : State) (cmdId channel : option Z)
    : Map jsstring CallbackFunction :=
  default [] (map_get cmdId (extCallback this) ≫= map_get channel).

(** What calling the callbacks of a map leaves in the trace: each call, and
    the log of what it threw. *)
Definition callbackEvents (callbacks : Map jsstring CallbackFunction) : list Event :=
  flat_map (fun entry =>
              EvCallback entry.1 ::
              match cb_throws entry.2 with
              | Some err => [EvDebugLog err]
              | None => []
              end) callbacks.

Definition isCallbackOf (callbackId : jsstring) (e : Event) : bool :=
  match e with
  | EvCallback id => bool_decide (id = callbackId)
  | _ => false
  end.


(** The alarm event of an element of the list, line 855. *)
Definition alarmEventOf (event : JsValue) : JsValue :=
  nullish (getProp event (js "AlarmEvent")) event.

(** The channel an event names, when it is one of [_channels]. *)
Definition eventChannel `{Externals} (this : State) (event : JsValue) : option Z :=
  if truthy event && truthy (alarmEventOf event) then
    let channelId := nullish (getProp (alarmEventOf event) (js "channelId"))
                             (getProp (alarmEventOf event) (js "channel")) in
    if isUndefined channelId then None else knownChannel this channelId
  else None.

(** The state [handleEvent] leaves. *)
Definition dispatchEvent `{Externals} (cmdId : Z) (this : State) (event : JsValue) : State :=
  (handleEvent cmdId event this).1.


(* ===================================================================== *)
(** * The policies, as the specification words them                       *)
(* ===================================================================== *)

Section Policies.
Context `{Externals}.

(** The first attempt that returned a body beginning with the prologue. *)
Fixpoint firstPrologue (attempts : list (Completion jsstring)) : option jsstring :=
  match attempts with
  | [] => None
  | Return body :: rest =>
      if startsWith body xmlPrologue then Some body else firstPrologue rest
  | Throw _ :: rest => firstPrologue rest
  end.

(** The cipher a 20-byte header declares. *)
Definition declaredCipher (lenHeader : Z) (recEncType : jsstring) : option EncType :=
  if bool_decide (lenHeader = 20) then
    if bool_decide (recEncType = js "01dd") || bool_decide (recEncType = js "12dd")
    then Some BC
    else if bool_decide (recEncType = js "02dd") || bool_decide (recEncType = js "03dd")
    then Some AES
    else None
  else None.

(** The decode policy of section 4.2, in its words: (a) the cipher the header
    declares, (b) AES when a key is available, (c) the legacy cipher, (d) the
    plain text; the first result with the prologue, else a diagnostic. *)
Definition decodePolicy (this : State) (data : Buffer) (lenHeader cmdId : Z)
    : Completion jsstring :=
  recEncOffset ← readUInt32LE 12 data;
  let recEncType := toHex (slice 16 18 data) in
  let encBody := sliceFrom lenHeader data in
  let header := slice 0 lenHeader data in
  let legacy := decryptBaichuan encBody recEncOffset in
  let aes := aesDecrypt this encBody header in
  let attempts :=
    match declaredCipher lenHeader recEncType with
    | Some BC => [legacy]
    | Some AES => [aes]
    | None => []
    end
    ++ (if bool_decide (is_Some (aesKey this)) then [aes] else [])
    ++ [legacy]
    ++ [Return (utf8Decode encBody)] in
  match firstPrologue attempts with
  | Some body => Return body
  | None =>
      Throw (unableToDecrypt this cmdId header encBody
               (match legacy with Return b => b | Throw _ => [] end))
  end.

(** The bodies [decrypt] tries, in its order, when the legacy cipher gives
    [legacy] and AES gives [aes]; [None] when it tries nothing. *)
Definition decodeChain (this : State) (lenHeader : Z) (recEncType : jsstring)
    (encType : EncType) (legacy plain : jsstring) (aes : Completion jsstring)
    : option (list (Completion jsstring)) :=
  let is20 := bool_decide (lenHeader = 20) in
  let is24 := bool_decide (lenHeader = 24) in
  let isType t := bool_decide (recEncType = t) in
  let last := if isType (js "00dd") then [Return plain] else [] in
  if (is20 && (isType (js "01dd") || isType (js "12dd"))) || bool_decide (encType = BC)
  then Some (Return legacy :: last)
  else if (is20 && (isType (js "02dd") || isType (js "03dd")))
          || (is24 && bool_decide (is_Some (aesKey this)))
  then Some (aes :: Return legacy :: last)
  else if isType (js "00dd") || is24
  then Some [Return legacy; Return plain]
  else None.

(** The retry policy of section 4.4, in its words. *)
Definition isBusy (err : Exception) : bool :=
  bool_decide (err_class err = ApiError) && (err_rspCode err =? 400).
Definition isTimeout (err : Exception) : bool :=
  bool_decide (err_class err = ReolinkTimeoutError).
Definition isConnectionError (err : Exception) : bool :=
  instanceofError err && includes (err_message err) (js "Connection").


(** The key of section 4.1: the first 16 bytes of the hash of
    [nonce + "-" + password]. *)
Definition deriveAesKey (nonce password : jsstring) : Buffer :=
  take 16 (utf8Encode (md5StrModern (nonce ++ js "-" ++ password))).

End Policies.

(** The hash of [./util] is a text of at least 16 ASCII characters (the
    hexadecimal digits of a digest). *)
Class HashLaws `{Externals} := {
  md5StrModern_ascii : forall s, isAscii (md5StrModern s);
  md5StrModern_length : forall s, (16 <= length (md5StrModern s))%nat
}.

(** The fields of a header, read back. *)
Definition headerField (off : nat) (header : Buffer) : Z :=
  match readUInt32LE off header with
  | Return v => v
  | Throw _ => -1
  end.

Definition lastWrite (this : State) : Buffer :=
  match last (writes this) with
  | Some (EvWrite frame) => frame
  | _ => []
  end.

(* ===================================================================== *)
(** * Two invocations of [login] on the event loop                        *)
(* ===================================================================== *)

(** [login] as the runtime runs it: an invocation runs until it awaits, the
    continuation of an await on a settled promise is a job of the microtask
    queue, the jobs run in order before the next message of the network is
    handled.  [send] is reduced to what it puts on the wire and to the await
    of the reply. *)
Module EventLoop.

(** A [Promise<void>]: settled or not, and the invocations awaiting it. *)
Record Promise := { settled : bool; awaiting : list nat }.

(** Where an invocation of [login] stands. *)
Inductive Pc :=
| AwaitMutex                      (* line 588, await this.loginMutex *)
| AwaitNonce (releaseMutex : nat) (* line 604, the nonce request is in flight *)
| AwaitLogin (releaseMutex : nat) (* lines 612 and 634, the login command is in flight *)
| Resolved
| Rejected.

Inductive Wire :=
| NonceRequest (invocation : nat)
| LoginCommand (invocation : nat).

Inductive ReplyKind :=
| ReplyOk
| ReplyNoNonce        (* UnexpectedDataError, "could not find nonce" *)
| ReplyError.

Record World := {
  loginMutex : nat;
  loggedIn : bool;
  promises : list Promise;
  invocations : list Pc;
  microtasks : list nat;
  wire : list Wire
}.

(** A fresh client: [loginMutex = Promise.resolve()]. *)
Definition start : World :=
  {| loginMutex := 0%nat; loggedIn := false;
     promises := [{| settled := true; awaiting := [] |}];
     invocations := []; microtasks := []; wire := [] |}.

Definition setPc (t : nat) (pc : Pc) (w : World) : World :=
  {| loginMutex := loginMutex w; loggedIn := loggedIn w; promises := promises w;
     invocations := <[t := pc]> (invocations w); microtasks := microtasks w;
     wire := wire w |}.

Definition put (x : Wire) (w : World) : World :=
  {| loginMutex := loginMutex w; loggedIn := loggedIn w; promises := promises w;
     invocations := invocations w; microtasks := microtasks w;
     wire := wire w ++ [x] |}.

(** [releaseMutex()]: the promise is settled, its awaiters become jobs. *)
Definition release (q : nat) (w : World) : World :=
  match promises w !! q with
  | Some p =>
      {| loginMutex := loginMutex w; loggedIn := loggedIn w;
         promises := <[q := {| settled := true; awaiting := [] |}]> (promises w);
         invocations := invocations w;
         microtasks := microtasks w ++ awaiting p;
         wire := wire w |}
  | None => w
  end.

(** A call of [login()]: it runs up to [await this.loginMutex]. *)
Definition call (w : World) : World :=
  let t := length (invocations w) in
  let m := loginMutex w in
  match promises w !! m with
  | Some p =>
      if settled p then
        {| loginMutex := m; loggedIn := loggedIn w; promises := promises w;
           invocations := invocations w ++ [AwaitMutex];
           microtasks := microtasks w ++ [t]; wire := wire w |}
      else
        {| loginMutex := m; loggedIn := loggedIn w;
           promises := <[m := {| settled := false; awaiting := awaiting p ++ [t] |}]>
                         (promises w);
           invocations := invocations w ++ [AwaitMutex];
           microtasks := microtasks w; wire := wire w |}
  | None => w
  end.

(** The job that resumes invocation [t] after [await this.loginMutex]:
    lines 589-604. *)
Definition resume (t : nat) (w : World) : World :=
  match invocations w !! t with
  | Some AwaitMutex =>
      let q := length (promises w) in
      let w1 :=
        {| loginMutex := q; loggedIn := loggedIn w;
           promises := promises w ++ [{| settled := false; awaiting := [] |}];
           invocations := invocations w; microtasks := microtasks w;
           wire := wire w |} in
      if loggedIn w1 then release q (setPc t Resolved w1)
      else setPc t (AwaitNonce q) (put (NonceRequest t) w1)
  | _ => w
  end.

(** The reply to what invocation [t] has in flight arrives. *)
Definition deliver (t : nat) (r : ReplyKind) (w : World) : World :=
  match invocations w !! t, r with
  | Some (AwaitNonce q), ReplyOk => setPc t (AwaitLogin q) (put (LoginCommand t) w)
  | Some (AwaitNonce q), ReplyNoNonce => setPc t (AwaitLogin q) (put (LoginCommand t) w)
  | Some (AwaitNonce q), ReplyError => release q (setPc t Rejected w)
  | Some (AwaitLogin q), ReplyOk =>
      release q (setPc t Resolved
        {| loginMutex := loginMutex w; loggedIn := true; promises := promises w;
           invocations := invocations w; microtasks := microtasks w; wire := wire w |})
  | Some (AwaitLogin q), _ => release q (setPc t Rejected w)
  | _, _ => w
  end.

(** The microtask queue is run until it is empty. *)
Fixpoint drain (fuel : nat) (w : World) : World :=
  match fuel, microtasks w with
  | S fuel', t :: rest =>
      drain fuel'
        (resume t {| loginMutex := loginMutex w; loggedIn := loggedIn w;
                     promises := promises w; invocations := invocations w;
                     microtasks := rest; wire := wire w |})
  | _, _ => w
  end.

(** One turn of the event loop: the script calls [login()] [n] times in a
    row, or a reply arrives; then the jobs run. *)
Inductive Turn :=
| Calls (n : nat)
| Arrives (invocation : nat) (r : ReplyKind).

Definition turn (w : World) (x : Turn) : World :=
  let w' := match x with
            | Calls n => Nat.iter n call w
            | Arrives t r => deliver t r w
            end in
  drain (length (microtasks w') + length (invocations w')) w'.

Definition run (script : list Turn) : World := foldl turn start script.

Definition isNonceRequest (x : Wire) : bool :=
  match x with NonceRequest _ => true | LoginCommand _ => false end.

(** The handshakes begun on the wire. *)
Definition handshakes (w : World) : nat := length (filter isNonceRequest (wire w)).

End EventLoop.

(* ===================================================================== *)
(** * What a method leaves untouched                                      *)
(* ===================================================================== *)

(** A method keeps a relation between the state it starts in and the state
    it leaves, whether it returns or throws. *)
Definition keeps (R : relation State) {A} (c : M A) : Prop :=
  forall s, R s (c s).1.

(** A method that never throws. *)
Definition returns {A} (c : M A) : Prop :=
  forall s, exists a, (c s).2 = Return a.

(** The subscription is left as it is: the flag, the handle of the timer,
    the timers and the registry are the same, and the events are not flagged
    active unless they were or the client is subscribed. *)
Definition subscriptionKept (s s' : State) : Prop :=
  subscribed s' = subscribed s
  /\ keepaliveTask s' = keepaliveTask s
  /\ timers s' = timers s
  /\ (eventsActive s' = true -> eventsActive s = true \/ subscribed s = true).

(** The registry of callbacks is left as it is. *)
Definition registryKept (s s' : State) : Prop := extCallback s' = extCallback s.

(** The method touches neither the subscription nor the registry, nor the
    credentials the client was built with. *)
Definition sessionOnly (s s' : State) : Prop :=
  subscriptionKept s s' /\ registryKept s s' /\ password s' = password s.

(** The session is logged in over a transport: what [logout] asks for before
    it sends the logout command, line 705. *)
Definition sessionOpen (this : State) : bool :=
  loggedIn this && bool_decide (is_Some (transport this))
  && bool_decide (is_Some (protocol this)).

(** The connection is open: [connectIfNeeded] has nothing to do. *)
Definition connected (this : State) : Prop :=
  exists sock p,
    transport this = Some sock /\ destroyed sock = false /\ protocol this = Some p.

(** What [logout] logs of the exception the logout command threw. *)
Definition logoutLog (r : Completion jsstring) : list Event :=
  match r with
  | Throw err => if instanceofReolinkError err then [EvDebugLog err] else []
  | Return _ => []
  end.

(** The entry of a command in the registry holds each key once. *)
Definition cmdEntryWf (cmdCallbacks : Map (option Z) (Map jsstring CallbackFunction)) : Prop :=
  map_wf cmdCallbacks /\ Forall (fun chEntry => map_wf chEntry.2) cmdCallbacks.

(* ===================================================================== *)
(** * The rest of the class, and its callers in [Host]                    *)
(* ===================================================================== *)


(** [Host.motionDetected], [Host.visitorDetected] and [Host.aiDetected]: what
    a caller reads of the tables the push handler writes. *)
Definition motionDetected (channel : Z) (this : State) : bool :=
  default false (httpApi_motionDetectionStates this !! channel).

Definition visitorDetected (channel : Z) (this : State) : bool :=
  default false (httpApi_visitorStates this !! channel).

Definition aiDetected (channel : Z) (objectType : jsstring) (this : State) : bool :=
  default false (httpApi_aiDetectionStates this !! channel ≫= map_get objectType).

(** The envelopes of the siren, of [./xmls]: the arguments are the texts the
    caller makes of the channel, the count and the switch. *)
Class SirenXml := {
  buildSirenTimesXml : jsstring -> jsstring -> jsstring;       (* channel, times *)
  buildSirenManualXml : jsstring -> jsstring -> jsstring;      (* channel, enable *)
  buildSirenHubTimesXml : jsstring -> jsstring;                (* times *)
  buildSirenHubManualXml : jsstring -> jsstring                (* enable *)
}.

(** The options of [audioAlarmPlay]; an option that is left out is [None]. *)
Inductive AlarmMode := AlarmTimes | AlarmManual.

Record AlarmOptions := {
  alarmMode : AlarmMode;
  alarmTimes : option Z;
  manualSwitch : option bool
}.

(** The set of capabilities [getHostData] keeps per channel. *)
Definition Capabilities := Map (option Z) (list jsstring).

Section Siren.
Context `{Externals} `{SirenXml} (net : Network).

Definition channelRequired : Exception :=
  mkError InvalidParameterError
    (js "audioAlarmPlay: channel must be specified for non-hub devices").

(** The envelope [audioAlarmPlay] sends first, lines 970-990. *)
Definition alarmXml (this : State) (channel : option Z) (options : AlarmOptions)
    : Completion jsstring :=
  let isHub := httpApi_isHub this in
  let times := Z.max 1 (default 1 (alarmTimes options)) in
  let manualSwitch := default true (manualSwitch options) in
  match channel with
  | Some ch =>
      match alarmMode options with
      | AlarmTimes => Return (buildSirenTimesXml (String_of_Z ch) (String_of_Z times))
      | AlarmManual =>
          Return (buildSirenManualXml (String_of_Z ch) (if manualSwitch then js "1" else js "0"))
      end
  | None =>
      if isHub then
        match alarmMode options with
        | AlarmTimes => Return (buildSirenHubTimesXml (String_of_Z times))
        | AlarmManual =>
            Return (buildSirenHubManualXml (if manualSwitch then js "1" else js "0"))
        end
      else Throw channelRequired
  end.

(** The envelope of the second try, lines 1000-1002. *)
Definition fallbackXml (channel : option Z) : jsstring :=
  match channel with
  | Some ch => buildSirenTimesXml (String_of_Z ch) (js "2")
  | None => buildSirenHubTimesXml (js "2")
  end.

(** [audioAlarmPlay] *)
Definition audioAlarmPlay (channel : option Z) (options : AlarmOptions) : M unit :=
  this ← get;
  xml ← lift (alarmXml this channel options);
  try_catch
    (_ ← sendCmd net 263 channel xml [] AES (js "1464") None RETRY_ATTEMPTS; mret tt)
    (fun err =>
       match alarmMode options, default true (manualSwitch options) with
       | AlarmManual, true =>
           _ ← sendCmd net 263 channel (fallbackXml channel) [] AES (js "1464") None
                 RETRY_ATTEMPTS;
           mret tt
       | _, _ => throw err
       end).

Definition noCamera (channel : Z) : Exception :=
  mkError InvalidParameterError
    (js "setSiren: no camera connected to channel '" ++ String_of_Z channel ++ js "'").

Definition noChannels : Exception :=
  mkError InvalidParameterError (js "setSiren: no channels available").

(** The options [Host.setSiren] passes on, lines 2203-2216; the counts are
    integers, which [Math.round] leaves as they are. *)
Definition sirenOptions (enabled : bool) (duration times : option Z) : AlarmOptions :=
  let plays := default (default 1 duration) times in
  if enabled then
    if 0 <? plays
    then {| alarmMode := AlarmTimes; alarmTimes := Some (Z.max 1 plays);
            manualSwitch := None |}
    else {| alarmMode := AlarmManual; alarmTimes := None; manualSwitch := Some true |}
  else {| alarmMode := AlarmManual; alarmTimes := None; manualSwitch := Some false |}.

(** [Host.setSiren]; the client of the host is never missing. *)
Definition setSiren (channel : option Z) (enabled : bool) (duration times : option Z)
    : M unit :=
  this ← get;
  _ ← match channel with
      | Some ch =>
          if (0 <? Z.of_nat (length (httpApi_channels this)))
             && negb (bool_decide (ch ∈ httpApi_channels this))
          then throw (noCamera ch) else mret tt
      | None => mret tt
      end;
  let targetChannel := match channel with
                       | Some ch => Some ch
                       | None => head (httpApi_channels this)
                       end in
  _ ← match targetChannel with
      | None => if negb (httpApi_isHub this) then throw noChannels else mret tt
      | Some _ => mret tt
      end;
  audioAlarmPlay targetChannel (sirenOptions enabled duration times).

(** [getHostData] of the client.  Command 199 is sent with a budget of 0;
    what it throws is logged and dropped. *)
Definition getHostData (capabilities : Capabilities) : M Capabilities :=
  this ← get;
  _ ← (if negb (loggedIn this) then login net else mret tt);
  this ← get;
  _ ← match aesKey this with
      | Some _ =>
          try_catch
            (mess ← sendCmd net 199 None [] [] AES (js "1464") None 0;
             _ ← lift (xmlParse mess);
             mret tt)
            (fun err => emit (EvDebugLog err))
      | None => mret tt
      end;
  mret (map_set None (default [] (map_get None capabilities)) capabilities).

End Siren.

(** What the specification says of the ciphers (section 4.1): the legacy
    cipher is its own inverse under the same offset, AES decrypts what it
    encrypted under the same key, and the UTF-8 decoding of ASCII bytes is
    the text. *)
Class CipherLaws `{Externals} := {
  decryptBaichuan_encryptBaichuan : forall s off,
    isAscii s -> decryptBaichuan (encryptBaichuan s off) off = Return s;
  aes128cfb_decrypt_encrypt : forall key iv bs out,
    aes128cfb_encrypt key iv bs = Return out -> aes128cfb_decrypt key iv out = Return bs;
  utf8Decode_ascii : forall s, isAscii s -> utf8Decode s = s
}.

(** A value of the unsigned 32-bit range of a header field. *)
Definition isUInt32 (v : Z) : Prop := 0 <= v <= 4294967295.

Definition isDebugLog (e : Event) : bool :=
  match e with EvDebugLog _ => true | _ => false end.

(** No map of the registry is empty: [registerCallback] fills the maps it
    creates and [unregisterCallback] deletes the maps it empties. *)
Definition registryTight
    (ext : Map (option Z) (Map (option Z) (Map jsstring CallbackFunction))) : Prop :=
  Forall (fun cmdEntry =>
            cmdEntry.2 <> [] /\ Forall (fun chEntry => chEntry.2 <> []) cmdEntry.2) ext.

(** The detection tables of the host are left as they are. *)
Definition detectionKept (s s' : State) : Prop :=
  httpApi_motionDetectionStates s' = httpApi_motionDetectionStates s
  /\ httpApi_visitorStates s' = httpApi_visitorStates s
  /\ httpApi_aiDetectionStates s' = httpApi_aiDetectionStates s.



(** The callback [id] is not called and the registry is left as it is,
    when [id] is registered for no channel of the alarm command (33). *)
Definition notCalled (id : jsstring) (s s' : State) : Prop :=
  (forall channel, map_get id (registered s (Some 33) channel) = None) ->
  filter (fun e => isCallbackOf id e = true) (trace s')
  = filter (fun e => isCallbackOf id e = true) (trace s)
  /\ extCallback s' = extCallback s.

(** More doubles: the envelopes of the siren, a device of the legacy login
    and devices that fail in one way. *)
Module Scenarios.

#[local] Instance sirenXml : SirenXml := {|
  buildSirenTimesXml ch times :=
    js "<?xml version='1.0' encoding='UTF-8' ?><body><audioPlayInfo version='1.1'><channelId>"
    ++ ch ++ js "</channelId><playMode>0</playMode><playTimes>" ++ times
    ++ js "</playTimes></audioPlayInfo></body>";
  buildSirenManualXml ch enable :=
    js "<?xml version='1.0' encoding='UTF-8' ?><body><audioPlayInfo version='1.1'><channelId>"
    ++ ch ++ js "</channelId><playMode>2</playMode><onOff>" ++ enable
    ++ js "</onOff></audioPlayInfo></body>";
  buildSirenHubTimesXml times :=
    js "<?xml version='1.0' encoding='UTF-8' ?><body><audioPlayInfo version='1.1'><playMode>0</playMode><playTimes>"
    ++ times ++ js "</playTimes></audioPlayInfo></body>";
  buildSirenHubManualXml enable :=
    js "<?xml version='1.0' encoding='UTF-8' ?><body><audioPlayInfo version='1.1'><playMode>2</playMode><onOff>"
    ++ enable ++ js "</onOff></audioPlayInfo></body>"
|}.

(** A reply without a nonce. *)
Definition noNonceReply : jsstring :=
  js "<?xml version='1.0' encoding='UTF-8' ?><body><Encryption version='1.1'><type>none</type></Encryption></body>".

(** A device that knows no nonce: the login falls back to the legacy one. *)
Definition legacyNet : Network :=
  {| net_connect := fun _ => Connected;
     net_reply := fun n =>
       match n with
       | O => Doubles.answered (Doubles.legacyFrame 1 250 noNonceReply)
       | S O => Doubles.answered (Doubles.legacyFrame 1 250 Doubles.loginReply)
       | _ => Doubles.rejected Doubles.timeoutError
       end |}.

(** A session after the legacy login: logged in, without a key. *)
Definition legacySession : State := (@login Doubles.externals legacyNet Doubles.fresh).1.

(** A device that cannot be reached. *)
Definition unreachableNet : Network :=
  {| net_connect := fun _ => ConnectTimeout;
     net_reply := fun _ => Doubles.rejected Doubles.timeoutError |}.



End Scenarios.

(* ===================================================================== *)
(** * Properties                                                          *)
(* ===================================================================== *)

(** ** Strings and buffers *)

Lemma startsWith_app (p s : jsstring) : startsWith (p ++ s) p = true.
Proof.
  induction p as [|c p IH]; simpl; [done|].
  by rewrite Z.eqb_refl, IH.
Qed.

Lemma startsWith_prefix (s p : jsstring) :
  startsWith s p = true <-> exists t, s = p ++ t.
Proof.
  revert s; induction p as [|c p IH]; intros s; simpl.
  - split; [eauto|done].
  - destruct s as [|d s]; [split; [done|by intros [? ?]]|].
    rewrite andb_true_iff, Z.eqb_eq, IH. split.
    + intros [-> [t ->]]; eauto.
    + intros [t [= -> ->]]; eauto.
Qed.

Lemma includes_startsWith (s p : jsstring) :
  startsWith s p = true -> includes s p = true.
Proof. intros Hs. destruct s; simpl; by rewrite Hs. Qed.

Lemma includes_app (a p b : jsstring) : includes (a ++ p ++ b) p = true.
Proof.
  induction a as [|c a IH]; simpl.
  - apply includes_startsWith, startsWith_app.
  - rewrite IH. apply orb_true_r.
Qed.

Lemma includes_infix (s p : jsstring) :
  includes s p = true <-> exists a b, s = a ++ p ++ b.
Proof.
  split.
  - induction s as [|c s IH]; simpl.
    + rewrite orb_false_r, startsWith_prefix. intros [t ->]. by exists [], t.
    + rewrite orb_true_iff, startsWith_prefix. intros [[t Ht]|Hs].
      * rewrite Ht. by exists [], t.
      * destruct (IH Hs) as (a & b & ->). by exists (c :: a), b.
  - intros (a & b & ->). apply includes_app.
Qed.

Lemma utf8Encode_ascii (s : jsstring) : isAscii s -> utf8Encode s = s.
Proof.
  induction 1 as [|c s Hc _ IH]; [done|]. simpl.
  unfold isHighSurrogate, isLowSurrogate, utf8_of_codepoint.
  repeat match goal with
         | |- context [(?a <=? ?b)] => destruct (Z.leb_spec a b); try lia
         | |- context [(?a <? ?b)] => destruct (Z.ltb_spec a b); try lia
         end; simpl; by rewrite IH.
Qed.

(** ** The health predicate of the subscription *)



(** ** Two logins at once *)

(** A second [login()] called while the first is in flight waits for it and
    starts no handshake of its own. *)
Lemma login_late_caller_waits :
  EventLoop.wire
    (EventLoop.run [EventLoop.Calls 1; EventLoop.Calls 1;
                    EventLoop.Arrives 0 EventLoop.ReplyOk;
                    EventLoop.Arrives 0 EventLoop.ReplyOk])
  = [EventLoop.NonceRequest 0; EventLoop.LoginCommand 0].
Proof. reflexivity. Qed.

(** C9. Two calls of [login()] made in the same turn of the event loop both
    get past [await this.loginMutex], which is still the settled promise of
    the constructor, before either replaces it: both find the session logged
    out and two nonce requests are on the wire before any reply. *)
Theorem login_twice_two_handshakes :
  let w := EventLoop.run [EventLoop.Calls 2] in
  EventLoop.wire w = [EventLoop.NonceRequest 0; EventLoop.NonceRequest 1]
  /\ EventLoop.handshakes w = 2%nat
  /\ EventLoop.invocations w = [EventLoop.AwaitNonce 1; EventLoop.AwaitNonce 2].
Proof. repeat split. Qed.

(** ** The header and the payload of a request *)

Lemma writeUInt32LE_Return (v : Z) (bs : Buffer) :
  writeUInt32LE v = Return bs ->
  0 <= v <= 4294967295
  /\ bs = [v mod 256; (v / 256) mod 256; (v / 65536) mod 256; (v / 16777216) mod 256].
Proof.
  unfold writeUInt32LE.
  destruct (Z.leb_spec 0 v), (Z.leb_spec v 4294967295); simpl; try done.
  intros [= <-]. split; [lia|done].
Qed.

Lemma le32_value (v : Z) :
  0 <= v <= 4294967295 ->
  v mod 256 + 256 * ((v / 256) mod 256) + 65536 * ((v / 65536) mod 256)
  + 16777216 * ((v / 16777216) mod 256) = v.
Proof.
  intros Hv.
  replace (v / 65536) with (v / 256 / 256) by (rewrite Z.div_div by lia; done).
  replace (v / 16777216) with (v / 256 / 256 / 256) by (rewrite !Z.div_div by lia; done).
  assert (v / 256 / 256 / 256 < 256)
    by (rewrite !Z.div_div by lia; apply Z.div_lt_upper_bound; lia).
  assert (0 <= v / 256 / 256 / 256) by (rewrite !Z.div_div by lia; apply Z.div_pos; lia).
  rewrite (Z.mod_small (v / 256 / 256 / 256)) by lia.
  rewrite (Z.mod_eq v 256), (Z.mod_eq (v / 256) 256), (Z.mod_eq (v / 256 / 256) 256) by lia.
  lia.
Qed.

(** The layout of the header of the class "1464": 24 bytes, the magic, the
    command id, the payload length and the sequence id as little-endian
    words, a zero status, the class, the payload offset. *)
Lemma buildHeader_1464 (this : State) (cmdId messLen messId payloadOffset : Z)
    (header : Buffer) :
  buildHeader this cmdId messLen messId payloadOffset (js "1464") = Return header ->
  length header = 24%nat
  /\ is_bytes header
  /\ take 4 header = [0xf0; 0xde; 0xbc; 0x0a]
  /\ headerField 4 header = cmdId
  /\ headerField 8 header = messLen
  /\ headerField 12 header = messId
  /\ take 4 (drop 16 header) = [0; 0; 0x14; 0x64]
  /\ headerField 20 header = payloadOffset.
Proof.
  unfold buildHeader.
  destruct (writeUInt32LE cmdId) as [b1|] eqn:H1; [|done].
  destruct (writeUInt32LE messLen) as [b2|] eqn:H2; [|done].
  destruct (writeUInt32LE messId) as [b3|] eqn:H3; [|done].
  destruct (writeUInt32LE payloadOffset) as [b4|] eqn:H4; [|done].
  apply writeUInt32LE_Return in H1 as [? ->], H2 as [? ->], H3 as [? ->], H4 as [? ->].
  simpl. intros [= <-].
  unfold headerField, readUInt32LE. simpl.
  rewrite !le32_value by done.
  repeat split; try done.
  unfold is_bytes, is_byte. repeat constructor; try lia;
    apply Z.mod_pos_bound; lia.
Qed.

Lemma aesEncrypt_length `{ExternalsLaws} (this : State) (body : jsstring) (enc : Buffer) :
  aesEncrypt this body = Return enc -> length enc = length (utf8Encode body).
Proof.
  unfold aesEncrypt. destruct body as [|c body]; [by intros [= <-]|].
  destruct (aesKey this); [|done]. apply aes128cfb_encrypt_length.
Qed.

(** The encrypted payload is as long as the UTF-8 encodings of the extension
    and of the body. *)
Lemma encryptPayload_length `{ExternalsLaws} (this : State) (ext body : jsstring)
    (messId : Z) (encType : EncType) (enc : Buffer) :
  encryptPayload this ext body (jslength ext + jslength body) messId encType = Return enc ->
  length enc = (length (utf8Encode ext) + length (utf8Encode body))%nat.
Proof.
  unfold encryptPayload, jslength.
  destruct (Z.ltb_spec 0 (Z.of_nat (length ext) + Z.of_nat (length body))).
  - destruct encType.
    + intros [= <-]. by rewrite length_app, !encryptBaichuan_length.
    + destruct (aesEncrypt this ext) as [e|] eqn:He; [|done].
      destruct (aesEncrypt this body) as [b|] eqn:Hb; [|done].
      simpl. intros [= <-]. rewrite length_app.
      by rewrite (aesEncrypt_length _ _ _ He), (aesEncrypt_length _ _ _ Hb).
  - intros [= <-]. destruct ext, body; simpl in *; (done || lia).
Qed.

(** The frame [send] writes in the class "1464" for a request without
    channel: the payload length and the payload offset of its header count
    the UTF-16 units of the extension and of the body, and the payload that
    follows the 24 bytes of the header has the length of their UTF-8
    encodings. *)
Lemma prepareFrame_lengths `{ExternalsLaws} (this : State) (cmdId : Z)
    (body extension : jsstring) (encType : EncType) (messId : option Z) (m : Z)
    (frame : Buffer) :
  prepareFrame this cmdId None body extension encType (js "1464") messId = Return (m, frame) ->
  headerField 4 frame = cmdId
  /\ headerField 8 frame = jslength extension + jslength body
  /\ headerField 12 frame = m
  /\ headerField 20 frame = jslength extension
  /\ length (drop 24 frame)
     = (length (utf8Encode extension) + length (utf8Encode body))%nat.
Proof.
  unfold prepareFrame. simpl.
  destruct (buildHeader _ _ _ _ _ _) as [header|] eqn:Hh; [|done]. simpl.
  destruct (encryptPayload _ _ _ _ _ _) as [enc|] eqn:He; [|done]. simpl.
  intros [= <- <-].
  apply buildHeader_1464 in Hh as (Hlen & _ & _ & H4 & H8 & H12 & _ & H20).
  apply encryptPayload_length in He.
  assert (Hfield : forall off, (off + 4 <= 24)%nat ->
            headerField off (header ++ enc) = headerField off header).
  { intros off Hoff. unfold headerField, readUInt32LE.
    rewrite drop_app_le by lia.
    assert (4 <= length (drop off header))%nat by (rewrite length_drop; lia).
    destruct (drop off header) as [|? [|? [|? [|? ?]]]]; simpl in *; (lia || done). }
  rewrite !Hfield by lia.
  rewrite drop_app_length' by done. by rewrite H4, H8, H12, H20, He.
Qed.

(** For a request whose extension and body are ASCII the header is right:
    its payload length is the length of the encrypted payload and its payload
    offset the length of the encrypted extension. *)
Lemma prepareFrame_ascii `{ExternalsLaws} (this : State) (cmdId : Z) (body extension : jsstring)
    (encType : EncType) (messId : option Z) (m : Z) (frame : Buffer) :
  isAscii extension -> isAscii body ->
  prepareFrame this cmdId None body extension encType (js "1464") messId = Return (m, frame) ->
  headerField 8 frame = Z.of_nat (length (drop 24 frame))
  /\ headerField 20 frame = Z.of_nat (length (utf8Encode extension)).
Proof.
  intros Hext Hbody (_ & H8 & _ & H20 & Hlen)%prepareFrame_lengths.
  rewrite H8, H20, Hlen, !utf8Encode_ascii by done. unfold jslength. lia.
Qed.

(** For the body "é" it is not, whatever the cipher: the header announces a
    payload of one byte and two follow. *)
Lemma prepareFrame_not_ascii `{ExternalsLaws} (this : State) (cmdId : Z) (encType : EncType)
    (messId : option Z) (m : Z) (frame : Buffer) :
  prepareFrame this cmdId None [233] [] encType (js "1464") messId = Return (m, frame) ->
  headerField 8 frame = 1 /\ length (drop 24 frame) = 2%nat.
Proof. intros (_ & H8 & _ & _ & Hlen)%prepareFrame_lengths. by rewrite H8, Hlen. Qed.

(** C3. With a body that is not ASCII the header is wrong: for the body "é"
    (one UTF-16 unit, two bytes in UTF-8) [send] writes a 24-byte header
    whose payload length is 1, followed by a payload of 2 bytes. *)
Theorem send_payload_length_counts_code_units :
  let r := @sendCmd Doubles.externals Doubles.busyNet 263 None [233] [] AES
             (js "1464") None 1 Doubles.session in
  let frame := lastWrite r.1 in
  headerField 4 frame = 263
  /\ headerField 8 frame = 1
  /\ headerField 20 frame = 0
  /\ length (drop 24 frame) = 2%nat.
Proof. vm_compute. repeat split. Qed.

(** ** Reasoning about methods *)

Lemma set_trace_trace (s : State) : set_trace (trace s) s = s.
Proof. by destruct s. Qed.

Lemma set_trace_set_trace (t1 t2 : list Event) (s : State) :
  set_trace t2 (set_trace t1 s) = set_trace t2 s.
Proof. done. Qed.

Lemma set_trace_nil (s : State) : set_trace (trace s ++ []) s = s.
Proof. rewrite app_nil_r. apply set_trace_trace. Qed.

Section Keeps.
Context (R : relation State) `{!PreOrder R}.

Lemma keeps_ret {A} (a : A) : keeps R (mret a).
Proof. intros s. simpl. reflexivity. Qed.

Lemma keeps_throw {A} (e : Exception) : keeps R (@throw A e).
Proof. intros s. simpl. reflexivity. Qed.

Lemma keeps_get : keeps R get.
Proof. intros s. simpl. reflexivity. Qed.

Lemma keeps_lift {A} (c : Completion A) : keeps R (lift c).
Proof. intros s. simpl. reflexivity. Qed.

Lemma keeps_modify (f : State -> State) : (forall s, R s (f s)) -> keeps R (modify f).
Proof. intros Hf s. apply Hf. Qed.

Lemma keeps_bind {A B} (c : M A) (k : A -> M B) :
  keeps R c -> (forall a, keeps R (k a)) -> keeps R (c ≫= k).
Proof.
  intros Hc Hk s. unfold mbind, M_bind. specialize (Hc s).
  destruct (c s) as [s' [a|e]]; simpl in *; [|done].
  etrans; [exact Hc|apply Hk].
Qed.

Lemma keeps_try_catch {A} (c : M A) (h : Exception -> M A) :
  keeps R c -> (forall e, keeps R (h e)) -> keeps R (try_catch c h).
Proof.
  intros Hc Hh s. unfold try_catch. specialize (Hc s).
  destruct (c s) as [s' [a|e]]; simpl in *; [done|].
  etrans; [exact Hc|apply Hh].
Qed.

Lemma keeps_forOf {A} (l : list A) (f : A -> M unit) :
  (forall x, keeps R (f x)) -> keeps R (forOf l f).
Proof.
  intros Hf. induction l as [|x l IH]; simpl.
  - apply keeps_ret.
  - apply keeps_bind; [apply Hf|done].
Qed.

End Keeps.

Lemma keeps_weaken (R R' : relation State) {A} (c : M A) :
  (forall s s', R s s' -> R' s s') -> keeps R c -> keeps R' c.
Proof. intros HR Hc s. apply HR, Hc. Qed.

(** Breaks a method into its steps. *)
Ltac keeps_steps :=
  repeat match goal with
         | |- keeps ?R (mret _) => apply (keeps_ret R)
         | |- keeps ?R (throw _) => apply (keeps_throw R)
         | |- keeps ?R get => apply (keeps_get R)
         | |- keeps ?R (lift _) => apply (keeps_lift R)
         | |- keeps ?R (_ ≫= _) => apply (keeps_bind R); [|intros ?]
         | |- keeps ?R (try_catch _ _) => apply (keeps_try_catch R); [|intros ?]
         | |- keeps ?R (forOf _ _) => apply (keeps_forOf R); intros ?
         | |- keeps _ (if ?b then _ else _) => destruct b
         | |- keeps _ (match ?x with _ => _ end) => destruct x
         | |- keeps _ (let '(_, _) := ?x in _) => destruct x
         end.

(** ** The registry of callbacks *)

Section MapFacts.
Context {K V : Type} `{EqDecision K}.
Implicit Types (m : Map K V) (k : K) (v : V).

Lemma map_get_Some_elem m k v : map_get k m = Some v -> (k, v) ∈ m.
Proof.
  induction m as [|[k' v'] m IH]; cbn; [done|].
  destruct (decide (k = k')) as [->|]; [intros [= ->]; left|right; auto].
Qed.

Lemma map_get_set_eq m k v : map_get k (map_set k v m) = Some v.
Proof.
  induction m as [|[k' v'] m IH]; cbn.
  - by case_decide.
  - destruct (decide (k = k')) as [->|]; cbn; by case_decide.
Qed.

Lemma map_keys_set m k v :
  map_keys (map_set k v m)
  = if decide (k ∈ map_keys m) then map_keys m else map_keys m ++ [k].
Proof.
  unfold map_keys. induction m as [|[k' v'] m IH]; cbn.
  - case_decide as Hin; [by apply elem_of_nil in Hin|done].
  - destruct (decide (k = k')) as [->|Hne]; cbn.
    + clear IH. case_decide as Hin; [done|]. exfalso. apply Hin. set_solver.
    + rewrite IH. clear IH.
      destruct (decide (k ∈ m.*1)) as [Hin|Hin], (decide (k ∈ k' :: m.*1)) as [Hin'|Hin'];
        try done; exfalso.
      * apply Hin'. by right.
      * apply elem_of_cons in Hin' as [?|?]; done.
Qed.

Lemma map_wf_set m k v : map_wf m -> map_wf (map_set k v m).
Proof.
  unfold map_wf. rewrite map_keys_set. intros Hm.
  destruct (decide (k ∈ map_keys m)); [done|].
  apply NoDup_app. split_and!; [done| |apply NoDup_singleton].
  intros x Hx ->%list_elem_of_singleton. done.
Qed.

Lemma map_set_Forall (P : K * V -> Prop) m k v :
  Forall P m -> P (k, v) -> Forall P (map_set k v m).
Proof.
  intros Hm Hkv. induction Hm as [|[k' v'] m ? ? IH]; cbn.
  - by constructor.
  - destruct (decide (k = k')); by constructor.
Qed.

Lemma map_get_Forall (P : K * V -> Prop) m k v :
  Forall P m -> map_get k m = Some v -> P (k, v).
Proof.
  intros Hm Hget%map_get_Some_elem. by eapply Forall_forall in Hm.
Qed.

Lemma map_keys_delete_sublist m k : sublist (map_keys (map_delete k m)) (map_keys m).
Proof.
  unfold map_keys. induction m as [|[k' v'] m IH]; cbn; [done|].
  destruct (decide (k = k')); cbn; [by apply sublist_cons|by apply sublist_skip].
Qed.

Lemma map_wf_delete m k : map_wf m -> map_wf (map_delete k m).
Proof.
  unfold map_wf. intros Hm. eapply sublist_NoDup; [done|apply map_keys_delete_sublist].
Qed.

End MapFacts.

Lemma cmdEntryWf_get ext (cmdId : option Z) :
  registryWf ext -> cmdEntryWf (default [] (map_get cmdId ext)).
Proof.
  intros [_ Hall]. destruct (map_get cmdId ext) as [cmdCallbacks|] eqn:Hget; simpl.
  - by apply (map_get_Forall _ _ _ _ Hall Hget).
  - split; [apply NoDup_nil_2|constructor].
Qed.

Lemma registered_wf (this : State) (cmdId channel : option Z) :
  registryWf (extCallback this) -> map_wf (registered this cmdId channel).
Proof.
  intros Hwf. unfold registered.
  destruct (map_get cmdId (extCallback this)) as [cmdCallbacks|] eqn:Hcmd; simpl;
    [|apply NoDup_nil_2].
  destruct (map_get channel cmdCallbacks) as [callbacks|] eqn:Hch; simpl;
    [|apply NoDup_nil_2].
  destruct Hwf as [_ Hall].
  pose proof (map_get_Forall _ _ _ _ Hall Hcmd) as [_ Hch'].
  by apply (map_get_Forall _ _ _ _ Hch' Hch).
Qed.

Lemma registerCallback_wf callbackId callback cmdId channel (this : State) :
  registryWf (extCallback this) ->
  registryWf (extCallback (registerCallback callbackId callback cmdId channel this)).
Proof.
  intros Hwf. unfold registerCallback. simpl.
  set (ext1 := if map_has cmdId (extCallback this) then extCallback this
               else map_set cmdId [] (extCallback this)).
  assert (Hext1 : registryWf ext1).
  { subst ext1. destruct (map_has cmdId (extCallback this)); [done|].
    destruct Hwf as [Hk Hall]. split; [by apply map_wf_set|].
    apply map_set_Forall; [done|]. split; [apply NoDup_nil_2|constructor]. }
  pose proof (cmdEntryWf_get ext1 cmdId Hext1) as Hcmd0.
  set (cmdCallbacks0 := default [] (map_get cmdId ext1)) in *.
  set (cmdCallbacks1 := if map_has channel cmdCallbacks0 then cmdCallbacks0
                        else map_set channel [] cmdCallbacks0).
  assert (Hcmd1 : cmdEntryWf cmdCallbacks1).
  { subst cmdCallbacks1. destruct (map_has channel cmdCallbacks0); [done|].
    destruct Hcmd0 as [Hk Hall]. split; [by apply map_wf_set|].
    apply map_set_Forall; [done|]. apply NoDup_nil_2. }
  assert (Hch : map_wf (default [] (map_get channel cmdCallbacks1))).
  { destruct (map_get channel cmdCallbacks1) as [callbacks|] eqn:Hget; simpl;
      [|apply NoDup_nil_2].
    destruct Hcmd1 as [_ Hall]. by apply (map_get_Forall _ _ _ _ Hall Hget). }
  destruct Hext1 as [Hk1 Hall1], Hcmd1 as [Hk2 Hall2].
  split; [by apply map_wf_set|].
  apply map_set_Forall; [done|]. split; [by apply map_wf_set|].
  apply map_set_Forall; [done|]. by apply map_wf_set.
Qed.

Lemma pruneWith_keys_sublist {K V} (f : V -> list V) (m : Map K V) :
  (forall v, (length (f v) <= 1)%nat) ->
  sublist (map_keys (pruneWith f m)) (map_keys m).
Proof.
  intros Hf. unfold map_keys, pruneWith. induction m as [|[k v] m IH]; simpl; [done|].
  specialize (Hf v). destruct (f v) as [|v1 [|v2 rest]]; simpl in *; [| |lia].
  - by apply sublist_cons.
  - by apply sublist_skip.
Qed.

Lemma pruneWith_Forall {K V} (f : V -> list V) (P Q : K * V -> Prop) (m : Map K V) :
  (forall k v v', P (k, v) -> v' ∈ f v -> Q (k, v')) ->
  Forall P m -> Forall Q (pruneWith f m).
Proof.
  intros Hf Hm. unfold pruneWith. induction Hm as [|[k v] m Hkv _ IH]; simpl; [done|].
  apply Forall_app. split; [|done].
  apply Forall_fmap, Forall_forall. intros v' Hv'. simpl. by eapply Hf.
Qed.

Lemma nonEmpty_length {A} (m : list A) : (length (nonEmpty m) <= 1)%nat.
Proof. destruct m; simpl; lia. Qed.

Lemma nonEmpty_elem {A} (m m' : list A) : m' ∈ nonEmpty m -> m' = m.
Proof.
  destruct m; simpl; [by intros ?%elem_of_nil|].
  by intros ->%list_elem_of_singleton.
Qed.

Lemma unregisterCallback_wf callbackId (this : State) :
  registryWf (extCallback this) ->
  registryWf (extCallback (unregisterCallback callbackId this)).
Proof.
  intros [Hk Hall]. unfold unregisterCallback. simpl. split.
  - eapply sublist_NoDup; [exact Hk|].
    apply pruneWith_keys_sublist. intros v. apply nonEmpty_length.
  - eapply pruneWith_Forall; [|exact Hall].
    intros cmdId cmdCallbacks cmdCallbacks' [Hk' Hall'] ->%nonEmpty_elem. simpl in *. split.
    + eapply sublist_NoDup; [exact Hk'|].
      apply pruneWith_keys_sublist. intros v. apply nonEmpty_length.
    + eapply pruneWith_Forall; [|exact Hall'].
      intros channel callbacks callbacks' Hwf ->%nonEmpty_elem. simpl in *.
      by apply map_wf_delete.
Qed.

(** ** What the methods leave untouched *)

#[local] Instance subscriptionKept_preorder : PreOrder subscriptionKept.
Proof.
  split.
  - intros s. unfold subscriptionKept. tauto.
  - intros s1 s2 s3 (Hs & Hk & Ht & He) (Hs' & Hk' & Ht' & He').
    unfold subscriptionKept. rewrite Hs', Hk', Ht', Hs, Hk, Ht. split_and!; try done.
    intros H3. destruct (He' H3) as [H2|H2]; [auto|]. right. congruence.
Qed.

#[local] Instance registryKept_preorder : PreOrder registryKept.
Proof.
  split; [done|]. intros s1 s2 s3. unfold registryKept. congruence.
Qed.

#[local] Instance sessionOnly_preorder : PreOrder sessionOnly.
Proof.
  split.
  - intros s. split_and!; reflexivity.
  - intros s1 s2 s3 (? & ? & ?) (? & ? & ?). split_and!; etrans; done.
Qed.

(** Settles that an assignment leaves the subscription and the registry. *)
Ltac kept :=
  intros; unfold sessionOnly, subscriptionKept, registryKept; simpl;
  repeat match goal with
         | |- context [if ?b then _ else _] => destruct b eqn:?; simpl
         | |- context [match ?x with _ => _ end] => destruct x eqn:?; simpl
         end;
  split_and?; auto; try done; try (intros; congruence).

Lemma closeCallback_kept (now : Z) (s : State) : sessionOnly s (closeCallback now s).
Proof. unfold closeCallback. kept. Qed.

Lemma socketClosed_kept (now : Z) (s : State) : sessionOnly s (socketClosed now s).
Proof. unfold socketClosed, closeCallback. kept. Qed.

Lemma emit_kept (e : Event) : keeps sessionOnly (emit e).
Proof. apply (keeps_modify sessionOnly). kept. Qed.

Lemma parseDeviceInfo_kept `{Externals} (devInfo : JsValue) (s : State) :
  sessionOnly s (parseDeviceInfo devInfo s).
Proof.
  unfold parseDeviceInfo.
  repeat match goal with
         | |- context [if ?b then _ else _] => destruct b
         | |- context [match ?x with _ => _ end] => destruct x
         end; kept.
Qed.

Section KeepsSend.
Context `{Externals} (net : Network).

Lemma openConnection_kept : keeps sessionOnly (openConnection net).
Proof. intros s. unfold openConnection. destruct (net_connect _ _); kept. Qed.

Lemma connectIfNeeded_kept : keeps sessionOnly (connectIfNeeded net).
Proof.
  intros s. unfold connectIfNeeded.
  destruct (transport s) as [sock|], (protocol s); try apply openConnection_kept.
  destruct (negb (destroyed sock)); [reflexivity|apply openConnection_kept].
Qed.

Lemma writeAndAwait_kept (fullData : Buffer) : keeps sessionOnly (writeAndAwait net fullData).
Proof.
  intros s. unfold writeAndAwait. simpl.
  destruct (reply_closedAt _) as [now|]; [|kept].
  etrans; [|apply socketClosed_kept]. kept.
Qed.

Lemma sendAttempt_kept (login : M unit) cmdId channel body extension encType messageClass
    messId retry :
  keeps sessionOnly login ->
  keeps sessionOnly
    (sendAttempt net login cmdId channel body extension encType messageClass messId retry).
Proof.
  intros Hlogin. unfold sendAttempt.
  keeps_steps; try done; try apply emit_kept;
    try apply connectIfNeeded_kept; try apply writeAndAwait_kept.
Qed.

Lemma send_fuel_kept (login : M unit) fuel cmdId channel body extension encType
    messageClass messId retry :
  keeps sessionOnly login ->
  keeps sessionOnly
    (send_fuel net login fuel cmdId channel body extension encType messageClass messId retry).
Proof.
  intros Hlogin. revert messId retry.
  induction fuel as [|fuel IH]; intros messId retry; simpl.
  - apply (keeps_throw sessionOnly).
  - apply (keeps_bind sessionOnly); [by apply sendAttempt_kept|].
    intros [m [[]|[data lenHeader]]]; [apply IH|].
    keeps_steps.
Qed.

Lemma send_kept (login : M unit) cmdId channel body extension encType messageClass
    messId retry :
  keeps sessionOnly login ->
  keeps sessionOnly
    (send net login cmdId channel body extension encType messageClass messId retry).
Proof. apply send_fuel_kept. Qed.

Lemma getNonce_kept : keeps sessionOnly (getNonce net).
Proof.
  unfold getNonce, sendBootstrap.
  apply (keeps_bind sessionOnly); [apply send_kept, (keeps_ret sessionOnly)|]. intros mess.
  keeps_steps; apply (keeps_modify sessionOnly); kept.
Qed.

Lemma loggedInWith_kept (mess : jsstring) : keeps sessionOnly (loggedInWith mess).
Proof.
  unfold loggedInWith. keeps_steps; apply (keeps_modify sessionOnly); try (by kept).
  intros s. apply parseDeviceInfo_kept.
Qed.

Lemma login_kept : keeps sessionOnly (login net).
Proof.
  unfold login, sendBootstrap.
  keeps_steps;
    try apply getNonce_kept; try apply loggedInWith_kept;
    try (apply send_kept, (keeps_ret sessionOnly)); apply (keeps_modify sessionOnly); kept.
Qed.

Lemma sendCmd_kept cmdId channel body extension encType messageClass messId retry :
  keeps sessionOnly (sendCmd net cmdId channel body extension encType messageClass messId retry).
Proof. apply send_kept, login_kept. Qed.

Lemma logout_kept : keeps sessionOnly (logout net).
Proof.
  unfold logout.
  keeps_steps; try apply sendCmd_kept; try apply emit_kept; apply (keeps_modify sessionOnly); kept.
Qed.

Lemma keepaliveLoop_kept (now : Z) : keeps sessionOnly (keepaliveLoop net now).
Proof.
  unfold keepaliveLoop.
  keeps_steps; try apply sendCmd_kept; try apply emit_kept; apply (keeps_modify sessionOnly); kept.
Qed.

End KeepsSend.

(** ** The callbacks of a push *)

Lemma forOf_callbacks (callbacks : Map jsstring CallbackFunction) (s : State) :
  forOf callbacks
    (fun entry => try_catch (invoke entry) (fun err => emit (EvDebugLog err))) s
  = (set_trace (trace s ++ callbackEvents callbacks) s, Return tt).
Proof.
  revert s. induction callbacks as [|[id cb] callbacks IH]; intros s; simpl.
  - by rewrite set_trace_nil.
  - unfold mbind, M_bind, try_catch, invoke, emit, modify, throw, mret, M_ret. simpl.
    destruct (cb_throws cb) as [err|]; simpl; rewrite IH; simpl;
      by rewrite !set_trace_set_trace, <- !app_assoc.
Qed.

(** [executeCallbacks] calls the callbacks registered for the command and the
    channel, in the order of their registration, logs what they throw, and
    returns. *)
Lemma executeCallbacks_spec (cmdId channel : option Z) (s : State) :
  executeCallbacks cmdId channel s
  = (set_trace (trace s ++ callbackEvents (registered s cmdId channel)) s, Return tt).
Proof.
  unfold executeCallbacks, registered, mbind at 1, M_bind, get.
  destruct (map_get cmdId (extCallback s)) as [cmdCallbacks|]; simpl;
    [|by rewrite set_trace_nil].
  destruct (map_get channel cmdCallbacks) as [callbacks|]; simpl;
    [|by rewrite set_trace_nil].
  apply forOf_callbacks.
Qed.

Lemma executeCallbacks_kept (cmdId channel : option Z) :
  keeps sessionOnly (executeCallbacks cmdId channel).
Proof. intros s. rewrite executeCallbacks_spec. kept. Qed.

Lemma callbackEvents_cons id cb (callbacks : Map jsstring CallbackFunction) :
  callbackEvents ((id, cb) :: callbacks)
  = EvCallback id :: match cb_throws cb with Some err => [EvDebugLog err] | None => [] end
    ++ callbackEvents callbacks.
Proof. done. Qed.

Lemma callbackEvents_none (callbacks : Map jsstring CallbackFunction) id :
  id ∉ callbacks.*1 ->
  filter (fun e => isCallbackOf id e = true) (callbackEvents callbacks) = [].
Proof.
  induction callbacks as [|[id2 cb2] l IHl]; [done|].
  rewrite fmap_cons, callbackEvents_cons. intros [Hne Hl]%not_elem_of_cons.
  rewrite filter_cons_False by (simpl; rewrite bool_decide_eq_true; naive_solver).
  rewrite filter_app, IHl by done.
  destruct (cb_throws cb2); [|done].
  by rewrite filter_cons_False by done.
Qed.

(** Each callback of a well-formed map is called once. *)
Lemma callbackEvents_once (callbacks : Map jsstring CallbackFunction) id cb :
  map_wf callbacks -> (id, cb) ∈ callbacks ->
  length (filter (fun e => isCallbackOf id e = true) (callbackEvents callbacks)) = 1%nat.
Proof.
  unfold map_wf, map_keys.
  induction callbacks as [|[id' cb'] callbacks IH]; [by intros _ ?%elem_of_nil|].
  rewrite fmap_cons, callbackEvents_cons.
  intros [Hnotin Hnodup]%NoDup_cons Hin.
  assert (Hlog : filter (fun e => isCallbackOf id e = true)
            (match cb_throws cb' with Some err => [EvDebugLog err] | None => [] end) = []).
  { destruct (cb_throws cb'); [|done]. by rewrite filter_cons_False by done. }
  apply elem_of_cons in Hin as [[= -> ->]|Hin].
  - rewrite filter_cons_True by (simpl; by rewrite bool_decide_eq_true).
    rewrite filter_app, Hlog, callbackEvents_none by done. done.
  - assert (id ≠ id').
    { intros ->. apply Hnotin. apply list_elem_of_fmap. by exists (id', cb). }
    rewrite filter_cons_False by (simpl; rewrite bool_decide_eq_true; naive_solver).
    rewrite filter_app, Hlog. simpl. by apply IH.
Qed.

Lemma callbackEvents_logged (callbacks : Map jsstring CallbackFunction) id cb err :
  (id, cb) ∈ callbacks -> cb_throws cb = Some err ->
  EvDebugLog err ∈ callbackEvents callbacks.
Proof.
  intros Hin Herr. unfold callbackEvents. apply list_elem_of_In, in_flat_map.
  exists (id, cb). split; [by apply list_elem_of_In|]. simpl. rewrite Herr. right. by left.
Qed.

Section KeepsPush.
Context `{Externals}.

Lemma handleEvent_kept (cmdId : Z) (event : JsValue) :
  keeps sessionOnly (handleEvent cmdId event).
Proof.
  unfold handleEvent.
  keeps_steps; try apply executeCallbacks_kept; apply (keeps_modify sessionOnly).
  - unfold markEventsActive. kept.
    destruct (eventsActive s) eqn:?, (subscribed s) eqn:?; simpl in *; auto; congruence.
  - unfold updateStatus. kept.
  - unfold updateAItype. kept.
Qed.

Lemma parseXml_kept (cmdId : Z) (xml : jsstring) : keeps sessionOnly (parseXml cmdId xml).
Proof.
  unfold parseXml, handleEventList.
  keeps_steps; try apply handleEvent_kept; apply emit_kept.
Qed.

Lemma pushCallback_kept (cmdId : Z) (data : Buffer) (lenHeader : Z) :
  keeps sessionOnly (pushCallback cmdId data lenHeader).
Proof.
  unfold pushCallback.
  keeps_steps; try apply parseXml_kept; apply emit_kept.
Qed.

End KeepsPush.

(** ** The invariant of the subscription *)

Lemma run_bind {A B} (c : M A) (k : A -> M B) (s : State) :
  (c ≫= k) s = match c s with
               | (s', Return a) => k a s'
               | (s', Throw e) => (s', Throw e)
               end.
Proof. done. Qed.

Lemma run_get (s : State) : get s = (s, Return s).
Proof. done. Qed.

Lemma run_modify (f : State -> State) (s : State) : modify f s = (f s, Return tt).
Proof. done. Qed.

Lemma run_ret {A} (a : A) (s : State) : (mret a : M A) s = (s, Return a).
Proof. done. Qed.

(** Runs the first step of a method that is a read or an assignment. *)
Ltac run_step :=
  rewrite run_bind; first [rewrite run_get | rewrite run_modify | rewrite run_ret];
  cbv beta iota.

(** Runs the reads and assignments a method begins with. *)
Ltac run_steps :=
  repeat (first [rewrite run_bind | rewrite run_get | rewrite run_modify | rewrite run_ret];
          cbv beta iota).

Lemma timersOwned_kept (s s' : State) :
  subscriptionKept s s' -> timersOwned s -> timersOwned s'.
Proof.
  intros (Hs & Hk & Ht & He) (Ht0 & Hk0 & He0). unfold timersOwned.
  rewrite Hs, Hk, Ht. split_and!; try done.
  intros H'. destruct (He H') as [?|?]; auto.
Qed.


Lemma newBaichuan_timersOwned host username password channels aiStates :
  timersOwned (newBaichuan host username password channels aiStates).
Proof. unfold timersOwned. simpl. split_and!; done. Qed.

Section Invariant.
Context `{Externals} (net : Network).

Lemma subscribeEvents_timersOwned (now : Z) (s : State) :
  timersOwned s -> timersOwned (subscribeEvents net now s).1.
Proof.
  intros Hinv. unfold subscribeEvents. run_step.
  destruct (subscribed s) eqn:Hsub; [done|].
  run_step.
  assert (H1 : sessionOnly s (forceRelogin s)) by (unfold forceRelogin; kept).
  rewrite run_bind.
  pose proof (login_kept net (forceRelogin s)) as H2.
  destruct (login net (forceRelogin s)) as [s2 [[]|e]]; simpl in H2.
  2:{ simpl. eapply timersOwned_kept; [|exact Hinv]. etrans; [apply H1|apply H2]. }
  run_step.
  assert (Hinv2 : timersOwned s2).
  { eapply timersOwned_kept; [|exact Hinv]. etrans; [apply H1|apply H2]. }
  assert (Hsub2 : subscribed s2 = false).
  { destruct H1 as ((E1 & _) & _), H2 as ((E2 & _) & _). congruence. }
  assert (Harm : timersOwned (armKeepalive now s2)).
  { destruct Hinv2 as (Ht & Hk & He). unfold timersOwned, armKeepalive. simpl.
    destruct (keepaliveTask s2) as [id|] eqn:Hid.
    - assert (subscribed s2 = true) by (apply Hk; by eexists). congruence.
    - rewrite Ht. simpl. split_and!; done. }
  match goal with
  | |- timersOwned (?c (armKeepalive now s2)).1 =>
      assert (Htail : keeps sessionOnly c)
  end.
  { keeps_steps; [apply sendCmd_kept|apply emit_kept]. }
  eapply timersOwned_kept; [apply Htail|exact Harm].
Qed.

Lemma unsubscribeEvents_timersOwned (s : State) :
  timersOwned s -> timersOwned (unsubscribeEvents net s).1.
Proof.
  intros (Ht & Hk & He). unfold unsubscribeEvents. run_step.
  eapply timersOwned_kept; [apply logout_kept|].
  unfold timersOwned, disarmKeepalive. simpl.
  destruct (keepaliveTask s) as [id|] eqn:Hid; simpl.
  - rewrite Ht. rewrite filter_cons_False by (intros Hne; by apply Hne).
    split_and!; done.
  - rewrite Ht, Hid. split_and!; done.
Qed.

Lemma subscribeEvents_registryKept (now : Z) : keeps registryKept (subscribeEvents net now).
Proof.
  assert (Hweak : forall A (c : M A), keeps sessionOnly c -> keeps registryKept c).
  { intros A c. apply keeps_weaken. by intros s s' (_ & ? & _). }
  unfold subscribeEvents.
  keeps_steps; try (apply Hweak; first [apply login_kept|apply sendCmd_kept|apply emit_kept]).
  - apply (keeps_modify registryKept). intros s. unfold forceRelogin, registryKept.
    by repeat case_match.
  - apply (keeps_modify registryKept). done.
Qed.

Lemma unsubscribeEvents_registryKept : keeps registryKept (unsubscribeEvents net).
Proof.
  unfold unsubscribeEvents.
  apply (keeps_bind registryKept).
  - apply (keeps_modify registryKept). intros s. unfold disarmKeepalive, registryKept.
    simpl. by destruct (keepaliveTask s).
  - intros _. eapply keeps_weaken; [|apply logout_kept]. by intros s s' (_ & ? & _).
Qed.

(** Every operation keeps the timers owned and the registry well formed. *)
Lemma perform_invariant (op : Op) (s : State) :
  timersOwned s /\ registryWf (extCallback s) ->
  timersOwned (perform net op s) /\ registryWf (extCallback (perform net op s)).
Proof.
  intros [Hinv Hwf].
  assert (Hsession : forall A (c : M A), keeps sessionOnly c ->
            timersOwned (c s).1 /\ registryWf (extCallback (c s).1)).
  { intros A c Hc. destruct (Hc s) as (Hsub & Hreg & _). split.
    - by eapply timersOwned_kept.
    - by rewrite Hreg. }
  destruct op; simpl.
  - apply Hsession, login_kept.
  - apply Hsession, logout_kept.
  - apply Hsession, sendCmd_kept.
  - split; [by apply subscribeEvents_timersOwned|].
    by rewrite (subscribeEvents_registryKept now s).
  - split; [by apply unsubscribeEvents_timersOwned|].
    by rewrite (unsubscribeEvents_registryKept s).
  - destruct (timers s); [done|]. apply Hsession, keepaliveLoop_kept.
  - destruct (socketClosed_kept now s) as (Hsub & Hreg & _). split.
    + by eapply timersOwned_kept.
    + by rewrite Hreg.
  - apply Hsession, pushCallback_kept.
  - split; [|by apply registerCallback_wf].
    eapply timersOwned_kept; [|exact Hinv]. unfold registerCallback. kept.
  - split; [|by apply unregisterCallback_wf].
    eapply timersOwned_kept; [|exact Hinv]. unfold unregisterCallback. kept.
Qed.

End Invariant.

Lemma reachable_invariant `{Externals} (s : State) :
  reachable s -> timersOwned s /\ registryWf (extCallback s).
Proof.
  induction 1 as [host username password channels aiStates|net op s _ IH].
  - split; [apply newBaichuan_timersOwned|]. split; [apply NoDup_nil_2|constructor].
  - by apply perform_invariant.
Qed.


(** ** The dispatch of a push *)

Lemma returns_ret {A} (a : A) : returns (mret a : M A).
Proof. intros s. by exists a. Qed.

Lemma returns_get : returns get.
Proof. intros s. by exists s. Qed.

Lemma returns_modify (f : State -> State) : returns (modify f).
Proof. intros s. by exists tt. Qed.

Lemma returns_bind {A B} (c : M A) (k : A -> M B) :
  returns c -> (forall a, returns (k a)) -> returns (c ≫= k).
Proof.
  intros Hc Hk s. rewrite run_bind. destruct (Hc s) as [a Ha].
  destruct (c s) as [s' r]. simpl in Ha. subst r. apply Hk.
Qed.

Lemma returns_try_catch {A} (c : M A) (h : Exception -> M A) :
  (forall e, returns (h e)) -> returns (try_catch c h).
Proof.
  intros Hh s. unfold try_catch. destruct (c s) as [s' [a|e]]; [by exists a|apply Hh].
Qed.

Lemma returns_forOf {A} (l : list A) (f : A -> M unit) :
  (forall x, returns (f x)) -> returns (forOf l f).
Proof.
  intros Hf. induction l as [|x l IH]; simpl; [apply returns_ret|].
  by apply returns_bind.
Qed.

Lemma returns_unit (c : M unit) (s : State) : returns c -> (c s).2 = Return tt.
Proof. intros Hc. by destruct (Hc s) as [[] ?]. Qed.

Lemma executeCallbacks_returns (cmdId channel : option Z) :
  returns (executeCallbacks cmdId channel).
Proof. intros s. rewrite executeCallbacks_spec. by exists tt. Qed.

(** Breaks a method that never throws into its steps. *)
Ltac returns_steps :=
  repeat match goal with
         | |- returns (mret _) => apply returns_ret
         | |- returns get => apply returns_get
         | |- returns (modify _) => apply returns_modify
         | |- returns (emit _) => apply returns_modify
         | |- returns (executeCallbacks _ _) => apply executeCallbacks_returns
         | |- returns (_ ≫= _) => apply returns_bind; [|intros ?]
         | |- returns (try_catch _ _) => apply returns_try_catch; intros ?
         | |- returns (forOf _ _) => apply returns_forOf; intros ?
         | |- returns (if ?b then _ else _) => destruct b
         | |- returns (match ?x with _ => _ end) => destruct x
         end.

Lemma pushCallback_returns `{Externals} (cmdId : Z) (data : Buffer) (lenHeader : Z)
    (s : State) :
  (pushCallback cmdId data lenHeader s).2 = Return tt.
Proof. apply returns_unit. unfold pushCallback. returns_steps. Qed.


Section Dispatch.
Context `{Externals}.


Lemma handleEvent_unknown (cmdId : Z) (event : JsValue) (s : State) :
  eventChannel s event = None -> handleEvent cmdId event s = (s, Return tt).
Proof.
  unfold eventChannel, handleEvent, alarmEventOf.
  destruct (truthy event); simpl; [|done].
  destruct (truthy (nullish _ _)); simpl; [|done].
  destruct (isUndefined _); [done|].
  intros Hk. run_step. by rewrite Hk.
Qed.





End Dispatch.



(** C10. In a state the client can reach, [executeCallbacks] calls every
    callback registered for the command and the channel exactly once, in the
    order of registration; what a callback throws is caught and logged, the
    callbacks after it are still called, and neither [executeCallbacks] nor
    the push handler throws. *)
Theorem executeCallbacks_each_once `{Externals} (this : State) (cmdId channel : option Z) :
  reachable this ->
  executeCallbacks cmdId channel this
  = (set_trace (trace this ++ callbackEvents (registered this cmdId channel)) this,
     Return tt)
  /\ (forall id cb,
        (id, cb) ∈ registered this cmdId channel ->
        length (filter (fun e => isCallbackOf id e = true)
                  (callbackEvents (registered this cmdId channel))) = 1%nat
        /\ forall err, cb_throws cb = Some err ->
             EvDebugLog err ∈ callbackEvents (registered this cmdId channel))
  /\ (forall cmd data lenHeader, (pushCallback cmd data lenHeader this).2 = Return tt).
Proof.
  intros [_ Hwf]%reachable_invariant. split_and!.
  - apply executeCallbacks_spec.
  - intros id cb Hin. split.
    + apply callbackEvents_once with cb; [by apply registered_wf|done].
    + intros err Herr. by eapply callbackEvents_logged.
  - intros. apply pushCallback_returns.
Qed.

Lemma executeCallbacks_each_once_witness :
  let this :=
    @perform Doubles.externals Doubles.silentNet
      (OpRegisterCallback (js "second") {| cb_throws := None |} (Some 33) None)
      (@perform Doubles.externals Doubles.silentNet
         (OpRegisterCallback (js "first") {| cb_throws := Some Doubles.busyError |}
            (Some 33) None)
         (newBaichuan (js "192.168.1.10") (js "admin") (js "secret") [0] ∅)) in
  trace (executeCallbacks (Some 33) None this).1
  = [EvCallback (js "first"); EvDebugLog Doubles.busyError; EvCallback (js "second")].
Proof.
  intros this.
  rewrite (proj1 (@executeCallbacks_each_once Doubles.externals this (Some 33) None
                    (reachable_perform _ _ _ (reachable_perform _ _ _
                       (reachable_new _ _ _ _ _))))).
  vm_compute. reflexivity.
Defined.


(** ** Logout *)

(** C5, as the claim states it, fails: a client that is not subscribed and
    not logged in is logged out without a logout command and without the
    transport being closed. *)
Lemma logout_without_session_sends_nothing :
  ~ (forall this : State,
       subscribed this = false ->
       let after := (@logout Doubles.externals Doubles.silentNet this).1 in
       EvClose ∈ trace after /\ writes after <> writes this).
Proof.
  intros Hclaim. destruct (Hclaim Doubles.fresh eq_refl) as [Hclose _].
  vm_compute in Hclose. by apply elem_of_nil in Hclose.
Qed.

(** C5, amended.  While a subscription is active [logout] does nothing at
    all.  Otherwise it never throws and leaves the session logged out with
    the transport, the protocol handle, the nonce, the AES key and both
    hashes cleared; when the session was logged in over a transport it first
    runs [send] with the logout command (2), drops what that throws (an
    error of the library is logged) and closes the transport, and when it was
    not it sends and closes nothing. *)
Theorem logout_guarded `{Externals} (net : Network) (this : State) :
  (subscribed this = true -> logout net this = (this, Return tt))
  /\ (subscribed this = false ->
        let after := (logout net this).1 in
        (logout net this).2 = Return tt
        /\ loggedIn after = false /\ eventsActive after = false
        /\ transport after = None /\ protocol after = None
        /\ nonce after = None /\ aesKey after = None
        /\ userHash after = None /\ passwordHash after = None
        /\ (if sessionOpen this then
              let sent := sendCmd net 2 None
                            (buildLogoutXml (username this) (password this)) []
                            AES (js "1464") None RETRY_ATTEMPTS this in
              trace after = trace sent.1 ++ logoutLog sent.2 ++ [EvClose]
            else trace after = trace this)).
Proof.
  split; intros Hsub; unfold logout; run_step; rewrite Hsub; [done|].
  unfold sessionOpen.
  destruct (loggedIn this), (transport this) as [sock|], (protocol this) as [p|];
    cbn [andb bool_decide decide_rel]; try (repeat run_step; by repeat split).
  rewrite run_bind. rewrite (run_bind (try_catch _ _)). unfold try_catch.
  rewrite (run_bind (sendCmd _ _ _ _ _ _ _ _ _)).
  destruct (sendCmd net 2 None _ [] AES (js "1464") None RETRY_ATTEMPTS this)
    as [s1 [mess|err]]; cbv beta iota.
  - unfold emit. run_steps. simpl. repeat split.
  - cbn [fst snd logoutLog]. destruct (instanceofReolinkError err); unfold emit; run_steps;
      simpl; repeat split; by rewrite <- ?app_assoc.
Qed.

Lemma logout_guarded_witness :
  let this := Doubles.session in
  let after := (@logout Doubles.externals Doubles.silentNet this).1 in
  (@logout Doubles.externals Doubles.silentNet this).2 = Return tt
  /\ loggedIn after = false /\ eventsActive after = false
  /\ transport after = None /\ protocol after = None
  /\ nonce after = None /\ aesKey after = None
  /\ userHash after = None /\ passwordHash after = None
  /\ (if sessionOpen this then
        let sent := @sendCmd Doubles.externals Doubles.silentNet 2 None
                      (@buildLogoutXml Doubles.externals (username this) (password this)) []
                      AES (js "1464") None RETRY_ATTEMPTS this in
        trace after = trace sent.1 ++ logoutLog sent.2 ++ [EvClose]
      else trace after = trace this).
Proof.
  exact (proj2 (@logout_guarded Doubles.externals Doubles.silentNet Doubles.session)
               eq_refl).
Defined.

(** ** The key of the nonce handshake *)

Lemma slice_0_take {A} (n : nat) (l : list A) : slice 0 (Z.of_nat n) l = take n l.
Proof.
  unfold slice, sliceIndex. destruct (Z.ltb_spec (Z.of_nat n) 0); [lia|].
  simpl. by rewrite Nat2Z.id, Nat.sub_0_r.
Qed.

Lemma isAscii_take (n : nat) (s : jsstring) : isAscii s -> isAscii (take n s).
Proof. apply Forall_take. Qed.

(** C4. When the nonce handshake succeeds with nonce [n], the AES key it
    leaves is the first 16 bytes of the hash of [n + "-" + password]: a
    function of the nonce and the password alone, and 16 bytes long. *)
Theorem getNonce_derives_key `{Externals} `{!HashLaws} (net : Network)
    (this after : State) (n : jsstring) :
  getNonce net this = (after, Return n) ->
  nonce after = Some n
  /\ aesKey after = Some (deriveAesKey n (password this))
  /\ length (deriveAesKey n (password this)) = 16%nat.
Proof.
  unfold getNonce. rewrite run_bind.
  pose proof (send_kept net (mret tt) 1 None [] [] BC (js "1465") None RETRY_ATTEMPTS
                (keeps_ret sessionOnly tt) this) as (_ & _ & Hpw).
  unfold sendBootstrap.
  destruct (send net (mret tt) 1 None [] [] BC (js "1465") None RETRY_ATTEMPTS this)
    as [s1 [mess|e]]; [|done].
  simpl in Hpw. run_step. destruct mess as [|c mess]; [done|].
  rewrite run_bind. unfold lift at 1.
  destruct (xmlParse (c :: mess)) as [parsed|e]; [|done]. cbv beta iota.
  match goal with |- context [truthy ?v] => set (found := v) end.
  destruct (truthy found); cbn [negb]; cbv beta iota; [|by run_steps].
  run_steps. intros [= <- <-]. unfold deriveAesKey. simpl. rewrite Hpw.
  set (hash := md5StrModern _).
  assert (Hlen : (16 <= length hash)%nat) by apply md5StrModern_length.
  assert (Hascii : isAscii hash) by apply md5StrModern_ascii.
  clearbody hash.
  replace (slice 0 16 hash) with (take 16 hash) by (symmetry; apply (slice_0_take 16)).
  rewrite !utf8Encode_ascii by (try apply isAscii_take; done).
  split_and!; [done..|].
  rewrite length_take. lia.
Qed.

Lemma toHex_length (bs : Buffer) : length (toHex bs) = (2 * length bs)%nat.
Proof. unfold toHex. induction bs as [|b bs IH]; simpl; lia. Qed.

#[local] Instance Doubles_hash_laws : @HashLaws Doubles.externals.
Proof.
  split; intros s; unfold md5StrModern; simpl; unfold Doubles.toyHash.
  2:{ lia. }
  - set (h := foldl _ _ _). unfold isAscii.
    apply Forall_fmap. unfold toHex.
    apply Forall_forall. intros x Hx%list_elem_of_In%in_flat_map. simpl.
    destruct Hx as (b & Hb & Hx).
    assert (0 <= b < 256).
    { assert (Hm : forall v, 0 <= v mod 256 < 256) by (intros; apply Z.mod_pos_bound; lia).
      simpl in Hb. repeat (destruct Hb as [<-|Hb]; [apply Hm|]). done. }
    assert (0 <= b / 16 < 16) by (split; [apply Z.div_pos|apply Z.div_lt_upper_bound]; lia).
    assert (0 <= b mod 16 < 16) by (apply Z.mod_pos_bound; lia).
    unfold hexDigit in Hx.
    destruct Hx as [<-|[<-|[]]];
      repeat match goal with
             | |- context [(?a <=? ?b)] => destruct (Z.leb_spec a b)
             | |- context [(?a <? ?b)] => destruct (Z.ltb_spec a b)
             end; simpl; lia.
Qed.

Lemma getNonce_derives_key_witness :
  let r := @getNonce Doubles.externals Doubles.loginNet Doubles.fresh in
  nonce r.1 = Some (js "abc123")
  /\ aesKey r.1 = Some (@deriveAesKey Doubles.externals (js "abc123") (js "secret"))
  /\ length (@deriveAesKey Doubles.externals (js "abc123") (js "secret")) = 16%nat.
Proof.
  intros r.
  exact (@getNonce_derives_key Doubles.externals Doubles_hash_laws Doubles.loginNet
           Doubles.fresh r.1 (js "abc123") ltac:(vm_compute; reflexivity)).
Defined.

(** ** The decryption fallback chain *)

(** C1, as the claim states it, fails: with an AES key and the 24-byte header
    of a response, a body sent in the clear is never tried as plain text.
    [decrypt] tries AES, then the legacy cipher, and throws; the policy of
    the specification would end on its step (d) and return the body. *)
Lemma decrypt_skips_plaintext :
  let data := Doubles.plainFrame 33 0 Doubles.alarmPush in
  @decodePolicy Doubles.externals Doubles.session data 24 33 = Return Doubles.alarmPush
  /\ exists e, @decrypt Doubles.externals Doubles.session data 24 33 AES = Throw e
               /\ err_class e = UnexpectedDataError.
Proof.
  split; [vm_compute; reflexivity|].
  eexists. split; vm_compute; reflexivity.
Qed.

Lemma firstPrologue_Some (attempts : list (Completion jsstring)) (body : jsstring) :
  firstPrologue attempts = Some body -> startsWith body xmlPrologue = true.
Proof.
  induction attempts as [|[b|e] attempts IH]; cbn [firstPrologue]; [done| |done].
  destruct (startsWith b xmlPrologue) eqn:Hb; [|done].
  intros [= Hbody]. by rewrite <- Hbody.
Qed.

Lemma unableToDecrypt_message (this : State) (cmdId : Z) (header encBody : Buffer)
    (recBody : jsstring) :
  includes (err_message (unableToDecrypt this cmdId header encBody recBody))
    (slice 0 5 recBody) = true
  /\ includes (err_message (unableToDecrypt this cmdId header encBody recBody))
       (toHex (slice 0 5 encBody)) = true.
Proof.
  unfold unableToDecrypt. cbn [err_message mkError]. split; apply includes_infix.
  - exists (hostPrefix this ++ js "unable to decrypt message with cmd_id "
            ++ String_of_Z cmdId ++ js ", header '" ++ toHex header
            ++ js "', decrypted data startswith '"),
           (js "', encrypted data startswith '" ++ toHex (slice 0 5 encBody)
            ++ js "' instead of '<?xml'").
    by rewrite <- !app_assoc.
  - exists (hostPrefix this ++ js "unable to decrypt message with cmd_id "
            ++ String_of_Z cmdId ++ js ", header '" ++ toHex header
            ++ js "', decrypted data startswith '" ++ slice 0 5 recBody
            ++ js "', encrypted data startswith '"),
           (js "' instead of '<?xml'").
    by rewrite <- !app_assoc.
Qed.

Section DecryptChain.
Context `{Externals}.

(** [decrypt] returns nothing but the empty body of an empty payload or a
    body that begins with the prologue, whatever the ciphers do. *)
Lemma decrypt_prologue (this : State) (data : Buffer) (lenHeader cmdId : Z)
    (encType : EncType) (body : jsstring) :
  decrypt this data lenHeader cmdId encType = Return body ->
  (sliceFrom lenHeader data = [] /\ body = [])
  \/ startsWith body xmlPrologue = true.
Proof.
  unfold decrypt.
  destruct (readUInt32LE 12 data) as [off|]; [|done]. cbn [mbind Completion_bind].
  destruct (decide (length (sliceFrom lenHeader data) = 0%nat)) as [Hlen|Hlen].
  { intros [= <-]. left. split; [by apply nil_length_inv|done]. }
  intros Hdec. right. revert Hdec.
  generalize (decryptBaichuan (sliceFrom lenHeader data) off).
  generalize (aesDecrypt this (sliceFrom lenHeader data) (slice 0 lenHeader data)).
  generalize (utf8Decode (sliceFrom lenHeader data)).
  intros plain aes legacy.
  repeat match goal with
         | |- context [if ?b then _ else _] =>
             match b with
             | context [startsWith] => fail 1
             | _ => destruct b
             end
         end;
    destruct legacy as [l|], aes as [a|]; unfold catch; cbn [mbind Completion_bind];
    repeat match goal with
           | |- context [startsWith ?x xmlPrologue] =>
               destruct (startsWith x xmlPrologue) eqn:?; cbn [negb mbind Completion_bind]
           end;
    intros [=]; subst; try done; congruence.
Qed.

(** On a frame with a payload, and when the legacy cipher returns, [decrypt]
    returns the first body of [decodeChain] that begins with the prologue. *)
Lemma decrypt_attempts (this : State) (data : Buffer) (lenHeader cmdId : Z)
    (encType : EncType) (off : Z) (legacy : jsstring) :
  readUInt32LE 12 data = Return off ->
  sliceFrom lenHeader data <> [] ->
  decryptBaichuan (sliceFrom lenHeader data) off = Return legacy ->
  decrypt this data lenHeader cmdId encType
  = match decodeChain this lenHeader (toHex (slice 16 18 data)) encType legacy
            (utf8Decode (sliceFrom lenHeader data))
            (aesDecrypt this (sliceFrom lenHeader data) (slice 0 lenHeader data)) with
    | None => Throw (unknownEncryption this (toHex (slice 16 18 data)) data)
    | Some chain =>
        match firstPrologue chain with
        | Some body => Return body
        | None => Throw (unableToDecrypt this cmdId (slice 0 lenHeader data)
                           (sliceFrom lenHeader data) legacy)
        end
    end.
Proof.
  intros Hoff Hlen Hlegacy.
  unfold decrypt, decodeChain. rewrite Hoff. cbn [mbind Completion_bind]. cbv zeta.
  rewrite !Hlegacy.
  destruct (decide (length (sliceFrom lenHeader data) = 0%nat)) as [Hnil|_];
    [by apply nil_length_inv in Hnil|].
  generalize (unknownEncryption this (toHex (slice 16 18 data)) data).
  generalize (aesDecrypt this (sliceFrom lenHeader data) (slice 0 lenHeader data)).
  generalize (utf8Decode (sliceFrom lenHeader data)).
  intros plain aes unknown.
  repeat match goal with
         | |- context [if ?b then _ else _] =>
             match b with
             | context [startsWith] => fail 1
             | _ => destruct b
             end
         end;
    destruct aes as [a|]; unfold catch; cbn [mbind Completion_bind firstPrologue];
    repeat match goal with
           | |- context [startsWith ?x xmlPrologue] =>
               destruct (startsWith x xmlPrologue) eqn:?;
               cbn [negb mbind Completion_bind firstPrologue]
           end;
    try done; congruence.
Qed.

(** Whatever the ciphers are: under the 24-byte header of a response whose
    status is not "00dd", with a key set, a payload that neither AES nor the
    legacy cipher decodes is rejected, also when it is an envelope in the
    clear. *)
Lemma decrypt_24_no_plaintext (this : State) (data : Buffer) (cmdId off : Z)
    (legacy : jsstring) :
  readUInt32LE 12 data = Return off ->
  sliceFrom 24 data <> [] ->
  is_Some (aesKey this) ->
  toHex (slice 16 18 data) <> js "00dd" ->
  decryptBaichuan (sliceFrom 24 data) off = Return legacy ->
  startsWith legacy xmlPrologue = false ->
  firstPrologue [aesDecrypt this (sliceFrom 24 data) (slice 0 24 data)] = None ->
  decrypt this data 24 cmdId AES
  = Throw (unableToDecrypt this cmdId (slice 0 24 data) (sliceFrom 24 data) legacy).
Proof.
  intros Hoff Hlen Hkey Htype Hlegacy Hl Haes.
  rewrite (decrypt_attempts _ _ _ _ _ _ _ Hoff Hlen Hlegacy). unfold decodeChain.
  rewrite (bool_decide_eq_false_2 _ Htype), (bool_decide_eq_true_2 _ Hkey).
  rewrite (bool_decide_eq_false_2 (24 = 20)), (bool_decide_eq_true_2 (24 = 24)),
    (bool_decide_eq_false_2 (AES = BC)) by done.
  cbn [andb orb].
  destruct (aesDecrypt this (sliceFrom 24 data) (slice 0 24 data)) as [a|e];
    cbn [firstPrologue] in *.
  - destruct (startsWith a xmlPrologue); [done|]. by rewrite Hl.
  - by rewrite Hl.
Qed.

(** C1, amended.  On a frame with a payload, and when the legacy cipher
    returns, [decrypt] tries the bodies of [decodeChain] in order: the legacy
    cipher alone when the caller asks for it or a 20-byte header declares it;
    AES then the legacy cipher when a 20-byte header declares AES or the
    header has 24 bytes and a key is set; the legacy cipher then the plain
    text when the type is "00dd" or the header has 24 bytes; nothing, with an
    error for the unknown type, otherwise; and the plain text last when the
    type is "00dd".  It returns the first body that begins with "<?xml" and
    never another one; when none does it throws an error whose message
    carries the first characters of the legacy decoding and the first bytes
    of the payload. *)
Theorem decrypt_chain (this : State) (data : Buffer) (lenHeader cmdId : Z)
    (encType : EncType) (off : Z) (legacy : jsstring) :
  readUInt32LE 12 data = Return off ->
  sliceFrom lenHeader data <> [] ->
  decryptBaichuan (sliceFrom lenHeader data) off = Return legacy ->
  let encBody := sliceFrom lenHeader data in
  let header := slice 0 lenHeader data in
  let recEncType := toHex (slice 16 18 data) in
  let failure := unableToDecrypt this cmdId header encBody legacy in
  decrypt this data lenHeader cmdId encType
  = match decodeChain this lenHeader recEncType encType legacy (utf8Decode encBody)
            (aesDecrypt this encBody header) with
    | None => Throw (unknownEncryption this recEncType data)
    | Some chain =>
        match firstPrologue chain with
        | Some body => Return body
        | None => Throw failure
        end
    end
  /\ (forall body,
        decrypt this data lenHeader cmdId encType = Return body ->
        startsWith body xmlPrologue = true)
  /\ includes (err_message failure) (slice 0 5 legacy) = true
  /\ includes (err_message failure) (toHex (slice 0 5 encBody)) = true.
Proof.
  intros Hoff Hlen Hlegacy encBody header recEncType failure. split_and!.
  - by apply decrypt_attempts with off.
  - intros body [[Hnil _]|Hbody]%decrypt_prologue; done.
  - apply unableToDecrypt_message.
  - apply unableToDecrypt_message.
Qed.

End DecryptChain.

Lemma decrypt_chain_witness :
  let data := Doubles.legacyFrame 33 0 Doubles.alarmPush in
  @decrypt Doubles.externals Doubles.session data 24 33 AES = Return Doubles.alarmPush
  /\ forall body,
       @decrypt Doubles.externals Doubles.session data 24 33 AES = Return body ->
       startsWith body xmlPrologue = true.
Proof.
  intros data.
  pose proof (@decrypt_chain Doubles.externals Doubles.session data 24 33 AES 0
                Doubles.alarmPush ltac:(vm_compute; reflexivity) ltac:(discriminate)
                ltac:(vm_compute; reflexivity)) as (Hchain & Hsafe & _).
  split; [|exact Hsafe].
  rewrite Hchain. vm_compute. reflexivity.
Defined.

(** ** The retry policy of [send] *)


Lemma retryDecision_cases (err : Exception) (retry cmdId : Z) :
  retryDecision err retry cmdId
  = if isBusy err && (0 <? retry) then RetryAfterDelay 1500
    else if (isTimeout err || isConnectionError err) && (0 <? retry) && negb (cmdId =? 2)
    then RetryNow
    else Rethrow.
Proof.
  unfold retryDecision, isBusy, isTimeout, isConnectionError.
  destruct (bool_decide (err_class err = ApiError)), (err_rspCode err =? 400),
    (0 <? retry), (bool_decide (err_class err = ReolinkTimeoutError)),
    (instanceofError err), (includes (err_message err) (js "Connection")),
    (cmdId =? 2); done.
Qed.

Section Retry.
Context `{Externals} (net : Network).

Lemma connectIfNeeded_connected (this : State) :
  connected this -> connectIfNeeded net this = (this, Return tt).
Proof. intros (sock & p & Ht & Hd & Hp). unfold connectIfNeeded. by rewrite Ht, Hp, Hd. Qed.

(** An attempt whose reply is a rejection: the frame is written, and the
    [catch] decides. *)
Lemma sendAttempt_rejected (login : M unit) cmdId channel body extension encType
    messageClass messId retry (this : State) (m : Z) (frame : Buffer) (err : Exception) :
  loggedIn this = true \/ cmdId <= 2 ->
  prepareFrame this cmdId channel body extension encType messageClass messId
    = Return (m, frame) ->
  connected this ->
  reply_result (net_reply net (length (writes this))) = Throw err ->
  let this' := (writeAndAwait net frame this).1 in
  sendAttempt net login cmdId channel body extension encType messageClass messId retry this
  = match retryDecision err retry cmdId with
    | RetryAfterDelay ms => (set_trace (trace this' ++ [EvDelay ms]) this', Return (m, inl tt))
    | RetryNow => (this', Return (m, inl tt))
    | Rethrow => (this', Throw err)
    end.
Proof.
  intros Hready Hframe Hconn Hreply this'. unfold sendAttempt. run_step.
  assert (Hnologin : negb (loggedIn this) && (2 <? cmdId) = false).
  { destruct Hready as [->|Hcmd]; [done|].
    destruct (Z.ltb_spec 2 cmdId); [lia|apply andb_false_r]. }
  rewrite Hnologin. run_steps. unfold lift at 1. rewrite Hframe. cbv beta iota.
  rewrite run_bind, (connectIfNeeded_connected _ Hconn). cbv beta iota. run_step.
  destruct Hconn as (sock & p & Ht & Hd & Hp). rewrite Hp, Ht. run_steps.
  unfold try_catch. rewrite run_bind.
  assert (Hwrite : writeAndAwait net frame this = (this', Throw err)).
  { subst this'. unfold writeAndAwait. simpl. by rewrite Hreply. }
  rewrite Hwrite. cbv beta iota.
  destruct (retryDecision err retry cmdId); unfold emit; by run_steps.
Qed.

(** A failed attempt of [send]: the [catch] decides between a retry, which
    is [send] again with the budget decremented, and the exception. *)
Lemma send_fuel_rejected (login : M unit) (fuel : nat) cmdId channel body extension
    encType messageClass messId retry (this : State) (m : Z) (frame : Buffer)
    (err : Exception) :
  loggedIn this = true \/ cmdId <= 2 ->
  prepareFrame this cmdId channel body extension encType messageClass messId
    = Return (m, frame) ->
  connected this ->
  reply_result (net_reply net (length (writes this))) = Throw err ->
  let this' := (writeAndAwait net frame this).1 in
  let again := send_fuel net login fuel cmdId channel body extension encType messageClass
                 (Some m) (retry - 1) in
  send_fuel net login (S fuel) cmdId channel body extension encType messageClass
    messId retry this
  = if isBusy err && (0 <? retry - 1)
    then again (set_trace (trace this' ++ [EvDelay 1500]) this')
    else if (isTimeout err || isConnectionError err) && (0 <? retry - 1)
            && negb (cmdId =? 2)
    then again this'
    else (this', Throw err).
Proof.
  intros Hready Hframe Hconn Hreply this' again.
  cbn [send_fuel]. rewrite run_bind.
  rewrite (sendAttempt_rejected login _ _ _ _ _ _ _ (retry - 1) _ _ _ _
             Hready Hframe Hconn Hreply).
  fold this'. rewrite retryDecision_cases.
  destruct (isBusy err && (0 <? retry - 1)); [done|].
  by destruct ((isTimeout err || isConnectionError err) && (0 <? retry - 1)
               && negb (cmdId =? 2)).
Qed.



(** An attempt asks for another one only while the budget lasts. *)
Lemma sendAttempt_again (login : M unit) cmdId channel body extension encType
    messageClass messId retry (s s' : State) (m : Z) :
  sendAttempt net login cmdId channel body extension encType messageClass messId retry s
    = (s', Return (m, inl tt)) ->
  0 < retry.
Proof.
  unfold sendAttempt. run_step. rewrite run_bind.
  destruct ((if negb (loggedIn s) && (2 <? cmdId) then login else mret tt) s)
    as [s1 [[]|e]]; [|done].
  run_step. rewrite run_bind. unfold lift at 1.
  destruct (prepareFrame s1 _ _ _ _ _ _ _) as [[m0 fullData]|e]; [|done].
  cbv beta iota. rewrite run_bind.
  destruct (connectIfNeeded net s1) as [s2 [[]|e]]; [|done].
  run_step. rewrite run_bind.
  destruct (protocol s2), (transport s2); try done.
  rewrite run_ret. cbv beta iota. rewrite run_bind. unfold try_catch. rewrite run_bind.
  destruct (writeAndAwait net fullData s2) as [s3 [r|err]]; cbv beta iota.
  { unfold mret, M_ret. cbv beta iota. done. }
  rewrite retryDecision_cases.
  destruct (Z.ltb_spec 0 retry); [done|].
  by rewrite !andb_false_r.
Qed.

(** [send] does not run out of fuel: any fuel from the budget on gives the
    result the budget gives. *)
Lemma send_fuel_enough (login : M unit) cmdId channel body extension encType messageClass
    (fuel1 fuel2 : nat) :
  forall (messId : option Z) (retry : Z) (s : State),
    (Z.to_nat (Z.max 1 retry) <= fuel1)%nat -> (Z.to_nat (Z.max 1 retry) <= fuel2)%nat ->
    send_fuel net login fuel1 cmdId channel body extension encType messageClass messId retry s
    = send_fuel net login fuel2 cmdId channel body extension encType messageClass messId
        retry s.
Proof.
  revert fuel2. induction fuel1 as [|fuel1 IH]; intros fuel2 messId retry s H1 H2; [lia|].
  destruct fuel2 as [|fuel2]; [lia|].
  cbn [send_fuel]. rewrite !run_bind.
  destruct (sendAttempt net login _ _ _ _ _ _ _ _ s) as [s' [[m [[]|[data lenHeader]]]|e]]
    eqn:Hattempt; [|done..].
  apply sendAttempt_again in Hattempt. apply IH; lia.
Qed.


End Retry.



(* ===================================================================== *)
(** * Further properties: arguments, edges, round trips                   *)
(* ===================================================================== *)

(** ** [send]: the arguments are checked before the network is touched *)

Lemma headerField_app (off : nat) (header rest : Buffer) :
  (off + 4 <= length header)%nat ->
  headerField off (header ++ rest) = headerField off header.
Proof.
  intros Hoff. unfold headerField, readUInt32LE.
  rewrite drop_app_le by lia.
  assert (4 <= length (drop off header))%nat by (rewrite length_drop; lia).
  destruct (drop off header) as [|? [|? [|? [|? ?]]]]; simpl in *; (lia || done).
Qed.

Lemma writeUInt32LE_range (v : Z) :
  isUInt32 v -> exists bs, writeUInt32LE v = Return bs.
Proof.
  intros [Hlo Hhi]. unfold writeUInt32LE.
  destruct (Z.leb_spec 0 v); [|lia]. destruct (Z.leb_spec v 4294967295); [|lia].
  by eexists.
Qed.

Lemma writeUInt32LE_Throw (v : Z) (e : Exception) :
  writeUInt32LE v = Throw e -> err_class e = RangeError.
Proof. unfold writeUInt32LE. destruct (_ && _); [done|]. by intros [= <-]. Qed.

(** The layout of the header of the class "1465": 20 bytes, the magic, the
    command id, the payload length and the sequence id as little-endian
    words, the marker 12dc and the class; no payload offset. *)
Lemma buildHeader_1465 (this : State) (cmdId messLen messId payloadOffset : Z)
    (header : Buffer) :
  buildHeader this cmdId messLen messId payloadOffset (js "1465") = Return header ->
  length header = 20%nat
  /\ is_bytes header
  /\ take 4 header = [0xf0; 0xde; 0xbc; 0x0a]
  /\ headerField 4 header = cmdId
  /\ headerField 8 header = messLen
  /\ headerField 12 header = messId
  /\ drop 16 header = [0x12; 0xdc; 0x14; 0x65].
Proof.
  unfold buildHeader.
  destruct (writeUInt32LE cmdId) as [b1|] eqn:H1; [|done].
  destruct (writeUInt32LE messLen) as [b2|] eqn:H2; [|done].
  destruct (writeUInt32LE messId) as [b3|] eqn:H3; [|done].
  destruct (writeUInt32LE payloadOffset) as [b4|] eqn:H4; [|done].
  apply writeUInt32LE_Return in H1 as [? ->], H2 as [? ->], H3 as [? ->], H4 as [? ->].
  simpl. intros [= <-].
  unfold headerField, readUInt32LE. simpl.
  rewrite !le32_value by done.
  repeat split; try done.
  unfold is_bytes, is_byte. repeat constructor; try lia;
    apply Z.mod_pos_bound; lia.
Qed.

(** What [buildHeader] throws. *)
Lemma buildHeader_Throw (this : State) (cmdId messLen messId payloadOffset : Z)
    (messageClass : jsstring) (e : Exception) :
  buildHeader this cmdId messLen messId payloadOffset messageClass = Throw e ->
  err_class e = RangeError
  \/ (messageClass <> js "1464" /\ messageClass <> js "1465"
      /\ e = mkError InvalidParameterError
               (hostPrefix this ++ js "invalid param message_class '" ++ messageClass
                ++ js "'")).
Proof.
  unfold buildHeader.
  destruct (writeUInt32LE cmdId) as [b1|] eqn:H1;
    [|intros [= <-]; left; by eapply writeUInt32LE_Throw].
  destruct (writeUInt32LE messLen) as [b2|] eqn:H2;
    [|intros [= <-]; left; by eapply writeUInt32LE_Throw].
  destruct (writeUInt32LE messId) as [b3|] eqn:H3;
    [|intros [= <-]; left; by eapply writeUInt32LE_Throw].
  destruct (writeUInt32LE payloadOffset) as [b4|] eqn:H4;
    [|intros [= <-]; left; by eapply writeUInt32LE_Throw].
  cbn [mbind Completion_bind].
  destruct (decide (messageClass = js "1465")); [done|].
  destruct (decide (messageClass = js "1464")); [done|].
  intros [= <-]. by right.
Qed.

(** [buildHeader] knows two classes. *)
Lemma buildHeader_Return (this : State) (cmdId messLen messId payloadOffset : Z)
    (messageClass : jsstring) (header : Buffer) :
  buildHeader this cmdId messLen messId payloadOffset messageClass = Return header ->
  messageClass = js "1464" \/ messageClass = js "1465".
Proof.
  unfold buildHeader.
  destruct (writeUInt32LE cmdId) as [b1|]; [|done].
  destruct (writeUInt32LE messLen) as [b2|]; [|done].
  destruct (writeUInt32LE messId) as [b3|]; [|done].
  destruct (writeUInt32LE payloadOffset) as [b4|]; [|done].
  cbn [mbind Completion_bind].
  destruct (decide (messageClass = js "1465")); [by right|].
  destruct (decide (messageClass = js "1464")); [by left|done].
Qed.

Section SendEdges.
Context `{Externals} (net : Network).

Lemma send_fuel_positive (retry : Z) : exists n, Z.to_nat (Z.max 1 retry) = S n.
Proof. exists (Z.to_nat (Z.max 1 retry) - 1)%nat. lia. Qed.

Lemma ready_no_login (this : State) (cmdId : Z) :
  loggedIn this = true \/ cmdId <= 2 -> negb (loggedIn this) && (2 <? cmdId) = false.
Proof.
  intros [->|Hcmd]; [done|].
  destruct (Z.ltb_spec 2 cmdId); [lia|apply andb_false_r].
Qed.

(** A frame that cannot be built: [send] throws what building it threw and
    leaves the client as it was. *)
Lemma send_invalid (login : M unit) cmdId channel body extension encType messageClass
    messId retry (this : State) (e : Exception) :
  loggedIn this = true \/ cmdId <= 2 ->
  prepareFrame this cmdId channel body extension encType messageClass messId = Throw e ->
  send net login cmdId channel body extension encType messageClass messId retry this
  = (this, Throw e).
Proof.
  intros Hready Hframe. unfold send.
  destruct (send_fuel_positive retry) as [n ->].
  cbn [send_fuel]. rewrite run_bind. unfold sendAttempt. run_step.
  rewrite (ready_no_login _ _ Hready). run_steps. unfold lift at 1.
  by rewrite Hframe.
Qed.

End SendEdges.

Section SendArguments.
Context `{Externals} (net : Network).

(** X1. A call of [send] that names both a channel and an extension is
    refused with an InvalidParameterError before anything else happens: the
    client is left as it was, no connection is opened and nothing is
    written. *)
Theorem send_rejects_channel_with_extension (login : M unit) (cmdId ch : Z)
    (body extension : jsstring) (encType : EncType) (messageClass : jsstring)
    (messId : option Z) (retry : Z) (this : State) :
  loggedIn this = true \/ cmdId <= 2 ->
  extension <> [] ->
  send net login cmdId (Some ch) body extension encType messageClass messId retry this
  = (this, Throw (mkError InvalidParameterError
                    (hostPrefix this ++ js "cannot specify both channel and extension"))).
Proof.
  intros Hready Hext. apply send_invalid; [done|].
  unfold prepareFrame; cbv zeta. by destruct extension.
Qed.

(** X2. A call of [send] with a message class other than "1464" and "1465"
    always throws and leaves the client as it was, with nothing written: an
    InvalidParameterError, or the RangeError of a header field outside the
    unsigned 32-bit range; with the fields in range and no channel it is the
    error that names the class. *)
Theorem send_rejects_message_class (login : M unit) (cmdId : Z) (channel : option Z)
    (body extension : jsstring) (encType : EncType) (messageClass : jsstring)
    (messId : option Z) (retry : Z) (this : State) :
  loggedIn this = true \/ cmdId <= 2 ->
  messageClass <> js "1464" -> messageClass <> js "1465" ->
  exists e,
    send net login cmdId channel body extension encType messageClass messId retry this
    = (this, Throw e)
    /\ (err_class e = InvalidParameterError \/ err_class e = RangeError)
    /\ (channel = None -> isUInt32 cmdId -> isUInt32 (default 250 messId) ->
        isUInt32 (jslength extension + jslength body) ->
        e = mkError InvalidParameterError
              (hostPrefix this ++ js "invalid param message_class '" ++ messageClass
               ++ js "'")).
Proof.
  intros Hready H64 H65.
  destruct (prepareFrame this cmdId channel body extension encType messageClass messId)
    as [[m frame]|e] eqn:Hframe.
  - exfalso. revert Hframe. unfold prepareFrame; cbv zeta.
    destruct channel as [ch|]; [destruct extension; [|done]|]; cbn [mbind Completion_bind].
    all: destruct (buildHeader _ _ _ _ _ _) as [header|] eqn:Hh; [|done].
    all: by apply buildHeader_Return in Hh as [?|?].
  - exists e. split; [by apply send_invalid|].
    revert Hframe. unfold prepareFrame; cbv zeta.
    destruct channel as [ch|].
    + destruct extension as [|c extension]; cbn [mbind Completion_bind].
      2:{ intros [= <-]. split; [by left|done]. }
      destruct (buildHeader _ _ _ _ _ _) as [header|] eqn:Hh.
      { by apply buildHeader_Return in Hh as [?|?]. }
      cbn [mbind Completion_bind]. intros [= <-]. split; [|done].
      apply buildHeader_Throw in Hh as [?|(_ & _ & ->)]; [by right|by left].
    + cbn [mbind Completion_bind].
      destruct (buildHeader _ _ _ _ _ _) as [header|] eqn:Hh.
      { by apply buildHeader_Return in Hh as [?|?]. }
      cbn [mbind Completion_bind]. intros [= <-]. split.
      * apply buildHeader_Throw in Hh as [?|(_ & _ & ->)]; [by right|by left].
      * intros _ Hcmd Hid Hlen.
        assert (Hoff : isUInt32 (jslength extension)).
        { unfold isUInt32, jslength in *. lia. }
        revert Hh. unfold buildHeader.
        destruct (writeUInt32LE_range _ Hcmd) as [b1 ->].
        destruct (writeUInt32LE_range _ Hlen) as [b2 ->].
        assert (Hid' : isUInt32 match messId with Some m => m | None => 250 end)
          by by destruct messId.
        destruct (writeUInt32LE_range _ Hid') as [b3 ->].
        destruct (writeUInt32LE_range _ Hoff) as [b4 ->].
        cbn [mbind Completion_bind]. rewrite !decide_False by done. by intros [= <-].
Qed.


End SendArguments.

Lemma send_rejects_channel_with_extension_witness :
  @send Doubles.externals Doubles.silentNet (mret tt) 263 (Some 0) [] (js "<Extension/>")
    AES (js "1464") None RETRY_ATTEMPTS Doubles.session
  = (Doubles.session,
     Throw (mkError InvalidParameterError
              (hostPrefix Doubles.session
               ++ js "cannot specify both channel and extension"))).
Proof.
  exact (@send_rejects_channel_with_extension Doubles.externals Doubles.silentNet (mret tt)
           263 0 [] (js "<Extension/>") AES (js "1464") None RETRY_ATTEMPTS Doubles.session
           ltac:(left; vm_compute; reflexivity) ltac:(discriminate)).
Defined.

Lemma send_rejects_message_class_witness :
  exists e,
    @send Doubles.externals Doubles.silentNet (mret tt) 93 None [] [] AES (js "1466") None
      RETRY_ATTEMPTS Doubles.session
    = (Doubles.session, Throw e)
    /\ e = mkError InvalidParameterError
             (hostPrefix Doubles.session ++ js "invalid param message_class '1466'").
Proof.
  destruct (@send_rejects_message_class Doubles.externals Doubles.silentNet (mret tt)
              93 None [] [] AES (js "1466") None RETRY_ATTEMPTS Doubles.session
              ltac:(left; vm_compute; reflexivity) ltac:(discriminate) ltac:(discriminate))
    as (e & Hsend & _ & He).
  exists e. split; [exact Hsend|].
  apply He; [reflexivity|vm_compute; split; discriminate..].
Defined.


(** ** [logout] on a session without a key *)

Lemma prepareFrame_aes_no_key `{Externals} (this : State) (cmdId : Z)
    (body extension messageClass : jsstring) (messId : option Z) :
  aesKey this = None -> extension <> [] \/ body <> [] ->
  exists e, prepareFrame this cmdId None body extension AES messageClass messId = Throw e.
Proof.
  intros Hkey Hpayload. unfold prepareFrame; cbv zeta. cbn [mbind Completion_bind].
  destruct (buildHeader _ _ _ _ _ _) as [header|e]; [|by exists e].
  cbn [mbind Completion_bind]. unfold encryptPayload.
  assert (Hlen : (0 <? jslength extension + jslength body) = true).
  { apply Z.ltb_lt. unfold jslength.
    destruct Hpayload, extension, body; simpl; try done; lia. }
  rewrite Hlen. unfold aesEncrypt. rewrite Hkey.
  destruct extension; [|by eexists]. destruct body; [by destruct Hpayload|by eexists].
Qed.

(** X4. On a session that holds no AES key, as the legacy login leaves it,
    [logout] writes no logout command: encrypting the envelope fails before
    the network is touched, the error is dropped, and the session is closed
    and cleared all the same. *)
Theorem logout_without_key_sends_nothing `{Externals} (net : Network) (this : State) :
  aesKey this = None ->
  buildLogoutXml (username this) (password this) <> [] ->
  let after := (logout net this).1 in
  writes after = writes this
  /\ connects after = connects this
  /\ (subscribed this = false -> sessionOpen this = true ->
      last (trace after) = Some EvClose /\ loggedIn after = false).
Proof.
  intros Hkey Hxml after. subst after. unfold logout. run_step.
  destruct (subscribed this) eqn:Hsub; [done|].
  unfold sessionOpen.
  destruct (loggedIn this) eqn:Hin, (transport this) as [sock|], (protocol this) as [p|];
    cbn [andb bool_decide decide_rel]; try (repeat run_step; by repeat split).
  destruct (prepareFrame_aes_no_key this 2
              (buildLogoutXml (username this) (password this)) [] (js "1464") None Hkey
              (or_intror Hxml)) as [e He].
  rewrite run_bind. rewrite (run_bind (try_catch _ _)). unfold try_catch.
  rewrite (run_bind (sendCmd _ _ _ _ _ _ _ _ _)). unfold sendCmd.
  rewrite (send_invalid net (login net) 2 None _ [] AES (js "1464") None RETRY_ATTEMPTS
             this e (or_introl Hin) He).
  cbv beta iota.
  destruct (instanceofReolinkError e); unfold emit; run_steps; simpl;
    unfold writes, connects; simpl; rewrite ?filter_app; simpl;
    rewrite ?app_nil_r, ?last_snoc; done.
Qed.

Lemma logout_without_key_sends_nothing_witness :
  let this := Scenarios.legacySession in
  let after := (@logout Doubles.externals Doubles.silentNet this).1 in
  loggedIn this = true
  /\ writes after = writes this
  /\ last (trace after) = Some EvClose.
Proof.
  intros this after.
  destruct (@logout_without_key_sends_nothing Doubles.externals Doubles.silentNet this
              ltac:(vm_compute; reflexivity) ltac:(discriminate))
    as (Hw & _ & Hclose).
  split; [vm_compute; reflexivity|]. split; [exact Hw|].
  exact (proj1 (Hclose ltac:(vm_compute; reflexivity) ltac:(vm_compute; reflexivity))).
Defined.

(** ** The frame of a request *)

Section Frames.
Context `{Externals}.

(** The parts of a frame that was built. *)
Lemma prepareFrame_Return (this : State) (cmdId : Z) (channel : option Z)
    (body extension : jsstring) (encType : EncType) (messageClass : jsstring)
    (messId : option Z) (m : Z) (frame : Buffer) :
  prepareFrame this cmdId channel body extension encType messageClass messId
    = Return (m, frame) ->
  let ext := match channel with Some ch => buildChannelExtensionXml ch | None => extension end in
  exists header payload,
    frame = header ++ payload
    /\ m = match messId with
           | Some i => i
           | None => match channel with Some ch => ch + 1 | None => 250 end
           end
    /\ buildHeader this cmdId (jslength ext + jslength body) m (jslength ext) messageClass
       = Return header
    /\ encryptPayload this ext body (jslength ext + jslength body) m encType = Return payload.
Proof.
  unfold prepareFrame; cbv zeta.
  destruct channel as [ch|]; [destruct extension; [|done]|]; cbn [mbind Completion_bind].
  all: destruct (buildHeader _ _ _ _ _ _) as [header|] eqn:Hh; [|done].
  all: cbn [mbind Completion_bind].
  all: destruct (encryptPayload _ _ _ _ _ _) as [payload|] eqn:He; [|done].
  all: cbn [mbind Completion_bind]; intros [= <- <-].
  all: by exists header, payload.
Qed.

(** X5. The frame [send] builds in the class "1465" for a request without a
    channel begins with a header of exactly 20 bytes: the magic f0debc0a, the
    command id, the payload length and the sequence id as little-endian
    words, the marker 12dc and the class 1465.  It carries no payload offset;
    the encrypted payload follows from byte 20 on. *)
Theorem send_header_1465 (this : State) (cmdId : Z) (body extension : jsstring)
    (encType : EncType) (messId : option Z) (m : Z) (frame : Buffer) :
  prepareFrame this cmdId None body extension encType (js "1465") messId = Return (m, frame) ->
  take 4 frame = [0xf0; 0xde; 0xbc; 0x0a]
  /\ headerField 4 frame = cmdId
  /\ headerField 8 frame = jslength extension + jslength body
  /\ headerField 12 frame = m
  /\ take 4 (drop 16 frame) = [0x12; 0xdc; 0x14; 0x65]
  /\ encryptPayload this extension body (jslength extension + jslength body) m encType
     = Return (drop 20 frame).
Proof.
  intros (header & payload & -> & _ & Hh & He)%prepareFrame_Return.
  apply buildHeader_1465 in Hh as (Hlen & _ & Hmagic & H4 & H8 & H12 & Htail).
  rewrite !headerField_app by lia. rewrite H4, H8, H12.
  rewrite take_app_le, Hmagic by lia.
  rewrite drop_app_le, Htail by lia.
  rewrite drop_app_length' by done. done.
Qed.

(** X6. The sequence id of a request: the one the caller gives; else the
    channel plus one for a request to a channel and 250 for a request to the
    host.  It is the word at offset 12 of the header of the frame, in both
    classes. *)
Theorem send_sequence_id (this : State) (cmdId : Z) (channel : option Z)
    (body extension : jsstring) (encType : EncType) (messageClass : jsstring)
    (messId : option Z) (m : Z) (frame : Buffer) :
  prepareFrame this cmdId channel body extension encType messageClass messId
    = Return (m, frame) ->
  m = match messId with
      | Some i => i
      | None => match channel with Some ch => ch + 1 | None => 250 end
      end
  /\ headerField 12 frame = m.
Proof.
  intros (header & payload & -> & Hm & Hh & _)%prepareFrame_Return.
  split; [done|].
  destruct (buildHeader_Return _ _ _ _ _ _ _ Hh) as [-> | ->].
  - apply buildHeader_1464 in Hh as (Hlen & _ & _ & _ & _ & H12 & _).
    by rewrite headerField_app by lia.
  - apply buildHeader_1465 in Hh as (Hlen & _ & _ & _ & _ & H12 & _).
    by rewrite headerField_app by lia.
Qed.

End Frames.

Lemma send_header_1465_witness :
  let frame := fromHex (js "f0debc0a0100000000000000fa00000012dc1465") in
  take 4 frame = [0xf0; 0xde; 0xbc; 0x0a]
  /\ headerField 4 frame = 1
  /\ headerField 8 frame = 0
  /\ headerField 12 frame = 250
  /\ take 4 (drop 16 frame) = [0x12; 0xdc; 0x14; 0x65].
Proof.
  intros frame.
  pose proof (@send_header_1465 Doubles.externals Doubles.fresh 1 [] [] BC None 250 frame
                ltac:(vm_compute; reflexivity)) as (H0 & H4 & H8 & H12 & H16 & _).
  by repeat split.
Defined.

Lemma send_sequence_id_witness :
  exists frame,
    @prepareFrame Doubles.externals Doubles.session 263 (Some 3) [] [] AES (js "1464") None
    = Return (4, frame)
    /\ headerField 12 frame = 4.
Proof.
  eexists. split; [vm_compute; reflexivity|].
  refine (proj2 (@send_sequence_id Doubles.externals Doubles.session 263 (Some 3) [] [] AES
                   (js "1464") None 4 _ _)).
  vm_compute; reflexivity.
Defined.

(** ** [send]: the connection, the reply, the login *)

Section SendOutcomes.
Context `{Externals} (net : Network).

(** X7. When the connection has to be opened and cannot be, [send] throws
    the ReolinkConnectionError at once, whatever the budget: the connection
    is tried once and nothing is written.  [connectIfNeeded] is called
    outside the [try] whose [catch] retries. *)
Theorem send_connect_failure_not_retried (login : M unit) (cmdId : Z) (channel : option Z)
    (body extension : jsstring) (encType : EncType) (messageClass : jsstring)
    (messId : option Z) (retry : Z) (this : State) (m : Z) (frame : Buffer) :
  loggedIn this = true \/ cmdId <= 2 ->
  prepareFrame this cmdId channel body extension encType messageClass messId
    = Return (m, frame) ->
  ~ connected this ->
  net_connect net (length (connects this)) <> Connected ->
  exists e,
    send net login cmdId channel body extension encType messageClass messId retry this
    = (set_trace (trace this ++ [EvConnect]) this, Throw e)
    /\ err_class e = ReolinkConnectionError.
Proof.
  intros Hready Hframe Hconn Hnet.
  assert (Hopen : connectIfNeeded net this = openConnection net this).
  { unfold connectIfNeeded.
    destruct (transport this) as [sock|] eqn:Ht, (protocol this) as [p|] eqn:Hp; try done.
    destruct (destroyed sock) eqn:Hd; [done|].
    exfalso. apply Hconn. by exists sock, p. }
  assert (Hfail : exists e, openConnection net this
                            = (set_trace (trace this ++ [EvConnect]) this, Throw e)
                            /\ err_class e = ReolinkConnectionError).
  { unfold openConnection. destruct (net_connect net _); [done|by eexists..]. }
  destruct Hfail as (e & Hfail & He). exists e. split; [|done].
  unfold send. destruct (send_fuel_positive retry) as [n ->].
  cbn [send_fuel]. rewrite run_bind. unfold sendAttempt. run_step.
  rewrite (ready_no_login _ _ Hready). run_steps. unfold lift at 1.
  rewrite Hframe. cbv beta iota. rewrite run_bind, Hopen, Hfail. done.
Qed.

(** An attempt whose reply arrives. *)
Lemma sendAttempt_answered (login : M unit) cmdId channel body extension encType
    messageClass messId retry (this : State) (m : Z) (frame data : Buffer) (lenHeader : Z) :
  loggedIn this = true \/ cmdId <= 2 ->
  prepareFrame this cmdId channel body extension encType messageClass messId
    = Return (m, frame) ->
  connected this ->
  reply_result (net_reply net (length (writes this))) = Return (data, lenHeader) ->
  sendAttempt net login cmdId channel body extension encType messageClass messId retry this
  = ((writeAndAwait net frame this).1, Return (m, inr (data, lenHeader))).
Proof.
  intros Hready Hframe Hconn Hreply. unfold sendAttempt. run_step.
  rewrite (ready_no_login _ _ Hready). run_steps. unfold lift at 1. rewrite Hframe.
  cbv beta iota.
  rewrite run_bind, (connectIfNeeded_connected _ _ Hconn). cbv beta iota. run_step.
  destruct Hconn as (sock & p & Ht & Hd & Hp). rewrite Hp, Ht. run_steps.
  unfold try_catch. rewrite run_bind.
  assert (Hwrite : writeAndAwait net frame this
                   = ((writeAndAwait net frame this).1, Return (data, lenHeader))).
  { unfold writeAndAwait. simpl. by rewrite Hreply. }
  rewrite Hwrite. cbv beta iota. by run_steps.
Qed.

Lemma send_answered (login : M unit) cmdId channel body extension encType
    messageClass messId retry (this : State) (m : Z) (frame data : Buffer) (lenHeader : Z) :
  loggedIn this = true \/ cmdId <= 2 ->
  prepareFrame this cmdId channel body extension encType messageClass messId
    = Return (m, frame) ->
  connected this ->
  reply_result (net_reply net (length (writes this))) = Return (data, lenHeader) ->
  let this' := (writeAndAwait net frame this).1 in
  send net login cmdId channel body extension encType messageClass messId retry this
  = (this', decrypt this' data lenHeader cmdId encType).
Proof.
  intros Hready Hframe Hconn Hreply this'. unfold send.
  destruct (send_fuel_positive retry) as [n ->].
  cbn [send_fuel]. rewrite run_bind.
  rewrite (sendAttempt_answered login _ _ _ _ _ _ _ (retry - 1) _ _ _ _ _
             Hready Hframe Hconn Hreply).
  cbv beta iota. by run_steps.
Qed.


(** The login and logout commands never reach the login of [send]. *)
Lemma send_fuel_bootstrap (login1 login2 : M unit) (fuel : nat) cmdId channel body extension
    encType messageClass :
  cmdId <= 2 ->
  forall messId retry (this : State),
    send_fuel net login1 fuel cmdId channel body extension encType messageClass messId
      retry this
    = send_fuel net login2 fuel cmdId channel body extension encType messageClass messId
        retry this.
Proof.
  intros Hcmd. induction fuel as [|fuel IH]; intros messId retry this; [done|].
  cbn [send_fuel]. rewrite !run_bind.
  assert (Hattempt : forall login,
            sendAttempt net login cmdId channel body extension encType messageClass messId
              (retry - 1) this
            = sendAttempt net (mret tt) cmdId channel body extension encType messageClass
                messId (retry - 1) this).
  { intros login. unfold sendAttempt. rewrite !run_bind, !run_get. cbv beta iota.
    by rewrite (ready_no_login this cmdId (or_intror Hcmd)). }
  rewrite (Hattempt login1), (Hattempt login2).
  destruct (sendAttempt _ _ _ _ _ _ _ _ _ _ _) as [s' [[m [[]|[data lenHeader]]]|e]];
    [apply IH|done..].
Qed.

(** X9. For the commands up to 2 (the nonce request and the login, 1, and
    the logout, 2) [send] never calls [login], logged in or not: its outcome
    and the state it leaves are the same whatever [login] would do. *)
Theorem send_bootstrap_never_logs_in (login1 login2 : M unit) (cmdId : Z)
    (channel : option Z) (body extension : jsstring) (encType : EncType)
    (messageClass : jsstring) (messId : option Z) (retry : Z) (this : State) :
  cmdId <= 2 ->
  send net login1 cmdId channel body extension encType messageClass messId retry this
  = send net login2 cmdId channel body extension encType messageClass messId retry this.
Proof. intros Hcmd. by apply send_fuel_bootstrap. Qed.

End SendOutcomes.

Lemma send_connect_failure_not_retried_witness :
  exists e,
    @send Doubles.externals Scenarios.unreachableNet (mret tt) 1 None [] [] BC (js "1465")
      None RETRY_ATTEMPTS Doubles.fresh
    = (set_trace [EvConnect] Doubles.fresh, Throw e)
    /\ err_class e = ReolinkConnectionError.
Proof.
  exact (@send_connect_failure_not_retried Doubles.externals Scenarios.unreachableNet
           (mret tt) 1 None [] [] BC (js "1465") None RETRY_ATTEMPTS Doubles.fresh 250
           (fromHex (js "f0debc0a0100000000000000fa00000012dc1465"))
           ltac:(right; lia) ltac:(vm_compute; reflexivity)
           ltac:(intros (sock & p & Ht & _); discriminate Ht) ltac:(discriminate)).
Defined.


Lemma send_bootstrap_never_logs_in_witness :
  @send Doubles.externals Doubles.loginNet (throw Doubles.timeoutError) 1 None [] [] BC
    (js "1465") None RETRY_ATTEMPTS Doubles.fresh
  = @send Doubles.externals Doubles.loginNet (mret tt) 1 None [] [] BC (js "1465") None
      RETRY_ATTEMPTS Doubles.fresh.
Proof.
  exact (@send_bootstrap_never_logs_in Doubles.externals Doubles.loginNet
           (throw Doubles.timeoutError) (mret tt) 1 None [] [] BC (js "1465") None
           RETRY_ATTEMPTS Doubles.fresh ltac:(lia)).
Defined.

(** ** [decrypt]: frames without a payload, frames that are too short *)

(** X10. A frame shorter than 16 bytes makes [decrypt] throw the RangeError
    of reading the sequence id at offset 12, before anything else is looked
    at.  A frame of at least 16 bytes that ends with its header decodes to
    the empty body, whatever its type field, the cipher asked for and the
    key. *)
Theorem decrypt_without_payload `{Externals} (this : State) (data : Buffer)
    (lenHeader cmdId : Z) (encType : EncType) :
  ((length data < 16)%nat ->
     exists e, decrypt this data lenHeader cmdId encType = Throw e
               /\ err_class e = RangeError)
  /\ ((16 <= length data)%nat -> Z.of_nat (length data) <= lenHeader ->
      decrypt this data lenHeader cmdId encType = Return []).
Proof.
  split.
  - intros Hlen. unfold decrypt, readUInt32LE.
    assert (Hdrop : (length (drop 12 data) < 4)%nat) by (rewrite length_drop; lia).
    destruct (drop 12 data) as [|? [|? [|? [|? ?]]]]; simpl in Hdrop; try lia;
      by eexists.
  - intros Hlen Hhdr. unfold decrypt, readUInt32LE.
    assert (Hdrop : (4 <= length (drop 12 data))%nat) by (rewrite length_drop; lia).
    destruct (drop 12 data) as [|? [|? [|? [|? ?]]]]; simpl in Hdrop; try lia.
    cbn [mbind Completion_bind].
    assert (Hbody : sliceFrom lenHeader data = []).
    { unfold sliceFrom, sliceIndex. destruct (Z.ltb_spec lenHeader 0); [lia|].
      apply drop_ge. lia. }
    rewrite Hbody. done.
Qed.

(** ** What [send] encodes, [decrypt] decodes *)

Section RoundTrip.
Context `{Externals} `{!ExternalsLaws} `{!CipherLaws}.

Lemma encryptBaichuan_nil (off : Z) : encryptBaichuan [] off = [].
Proof. apply nil_length_inv. by rewrite encryptBaichuan_length. Qed.

Lemma readUInt32LE_header (off : nat) (header rest : Buffer) :
  (off + 4 <= length header)%nat ->
  0 <= headerField off header ->
  readUInt32LE off (header ++ rest) = Return (headerField off header).
Proof.
  intros Hoff. unfold headerField, readUInt32LE.
  rewrite drop_app_le by lia.
  assert (4 <= length (drop off header))%nat by (rewrite length_drop; lia).
  destruct (drop off header) as [|? [|? [|? [|? ?]]]]; simpl in *; (lia || done).
Qed.

Lemma sliceFrom_app (n : Z) (header rest : Buffer) :
  Z.of_nat (length header) = n -> sliceFrom n (header ++ rest) = rest.
Proof.
  intros <-. unfold sliceFrom, sliceIndex.
  destruct (Z.ltb_spec (Z.of_nat (length header)) 0); [lia|].
  rewrite Nat2Z.id. by rewrite drop_app_length.
Qed.

(** X11. The legacy cipher through the frame: for a request to the host
    whose body is an ASCII envelope, [decrypt] with the legacy cipher, given
    the frame [send] builds and the length of its header (20 bytes in the
    class "1465", 24 in the class "1464"), returns the body.  The sequence
    id [send] writes at offset 12 is the offset [decrypt] keys the cipher
    with. *)
Theorem legacy_frame_round_trip (this : State) (cmdId : Z) (body messageClass : jsstring)
    (messId : option Z) (m : Z) (frame : Buffer) :
  isAscii body -> startsWith body xmlPrologue = true ->
  prepareFrame this cmdId None body [] BC messageClass messId = Return (m, frame) ->
  decrypt this frame (if decide (messageClass = js "1465") then 20 else 24) cmdId BC
  = Return body.
Proof.
  intros Hascii Hxml (header & payload & -> & _ & Hh & He)%prepareFrame_Return.
  assert (Hbody : body <> []) by (by destruct body).
  assert (Hpayload : payload = encryptBaichuan body m).
  { revert He. unfold encryptPayload.
    destruct (Z.ltb_spec 0 (jslength [] + jslength body)) as [_|Hle].
    - rewrite encryptBaichuan_nil. by intros [= <-].
    - destruct body; [done|]. unfold jslength in Hle. simpl in Hle. lia. }
  assert (Hne : payload <> []).
  { intros Hnil. apply (f_equal length) in Hnil. rewrite Hpayload in Hnil.
    rewrite encryptBaichuan_length, utf8Encode_ascii in Hnil by done.
    by destruct body. }
  assert (Hm : 0 <= m).
  { revert Hh. unfold buildHeader.
    destruct (writeUInt32LE cmdId); [|done]. destruct (writeUInt32LE (_ + _)); [|done].
    cbn [mbind Completion_bind].
    destruct (writeUInt32LE m) as [b|] eqn:Hw; [|done].
    apply writeUInt32LE_Return in Hw as [? _]. intros _. lia. }
  assert (Hshape : exists n : nat,
            (if decide (messageClass = js "1465") then 20 else 24) = Z.of_nat n
            /\ length header = n /\ (16 <= n)%nat /\ headerField 12 header = m).
  { destruct (buildHeader_Return _ _ _ _ _ _ _ Hh) as [-> | ->].
    - apply buildHeader_1464 in Hh as (Hlen & _ & _ & _ & _ & H12 & _).
      exists 24%nat. rewrite decide_False by done. repeat split; (done || lia).
    - apply buildHeader_1465 in Hh as (Hlen & _ & _ & _ & _ & H12 & _).
      exists 20%nat. rewrite decide_True by done. repeat split; (done || lia). }
  destruct Hshape as (n & -> & Hlen & Hn & H12).
  unfold decrypt.
  rewrite readUInt32LE_header by (rewrite ?H12; lia). rewrite H12.
  cbn [mbind Completion_bind]. cbv zeta.
  rewrite sliceFrom_app by by rewrite Hlen.
  rewrite decide_False by (by destruct payload).
  rewrite (bool_decide_eq_true_2 (BC = BC)) by done. rewrite orb_true_r.
  rewrite Hpayload, decryptBaichuan_encryptBaichuan by done.
  cbn [mbind Completion_bind]. by rewrite Hxml.
Qed.

(** X12. AES through the frame: with a key set, for a request to the host in
    the class "1464" whose body is an ASCII envelope, [decrypt] with AES,
    given the frame [send] builds and the 24 bytes of its header, returns the
    body. *)
Theorem aes_frame_round_trip (this : State) (cmdId : Z) (body : jsstring)
    (messId : option Z) (m : Z) (frame : Buffer) :
  isAscii body -> startsWith body xmlPrologue = true ->
  prepareFrame this cmdId None body [] AES (js "1464") messId = Return (m, frame) ->
  decrypt this frame 24 cmdId AES = Return body.
Proof.
  intros Hascii Hxml (header & payload & -> & _ & Hh & He)%prepareFrame_Return.
  assert (Hbody : body <> []) by (by destruct body).
  assert (Hkey : exists key, aesKey this = Some key
                             /\ aes128cfb_encrypt key AES_IV (utf8Encode body) = Return payload).
  { revert He. unfold encryptPayload.
    destruct (Z.ltb_spec 0 (jslength [] + jslength body)) as [_|Hle].
    - cbn [aesEncrypt mbind Completion_bind]. unfold aesEncrypt.
      destruct body as [|c body]; [done|].
      destruct (aesKey this) as [key|]; [|done].
      destruct (aes128cfb_encrypt key AES_IV _) as [enc|] eqn:Henc; [|done].
      cbn [mbind Completion_bind]. intros [= <-]. by exists key.
    - destruct body; [done|]. unfold jslength in Hle. simpl in Hle. lia. }
  destruct Hkey as (key & Hkey & Henc).
  assert (Hne : payload <> []).
  { intros Hnil. apply (f_equal length) in Hnil.
    rewrite (aes128cfb_encrypt_length _ _ _ _ Henc), utf8Encode_ascii in Hnil by done.
    by destruct body. }
  assert (Hm : 0 <= m).
  { revert Hh. unfold buildHeader.
    destruct (writeUInt32LE cmdId); [|done]. destruct (writeUInt32LE (_ + _)); [|done].
    cbn [mbind Completion_bind].
    destruct (writeUInt32LE m) as [b|] eqn:Hw; [|done].
    apply writeUInt32LE_Return in Hw as [? _]. intros _. lia. }
  apply buildHeader_1464 in Hh as (Hlen & _ & _ & _ & _ & H12 & _).
  unfold decrypt.
  rewrite readUInt32LE_header by (rewrite ?H12; lia). rewrite H12.
  cbn [mbind Completion_bind]. cbv zeta.
  rewrite sliceFrom_app by by rewrite Hlen.
  rewrite decide_False by (by destruct payload).
  rewrite (bool_decide_eq_false_2 (AES = BC)) by done.
  rewrite (bool_decide_eq_false_2 (24 = 20)) by done.
  rewrite (bool_decide_eq_true_2 (24 = 24)) by done.
  rewrite (bool_decide_eq_true_2 (is_Some (aesKey this))) by (by rewrite Hkey).
  cbn [andb orb]. unfold aesDecrypt. rewrite Hkey.
  rewrite (aes128cfb_decrypt_encrypt _ _ _ _ Henc). cbn [mbind Completion_bind catch].
  rewrite (utf8Encode_ascii body), (utf8Decode_ascii body) by done.
  rewrite Hxml. cbn [negb catch mbind Completion_bind]. by rewrite Hxml.
Qed.

End RoundTrip.

(** The doubles keep the laws of the ciphers. *)

Lemma xorStream_length (offset idx : Z) (bs : list Z) :
  length (Doubles.xorStream offset idx bs) = length bs.
Proof. revert idx. induction bs as [|b bs IH]; intros idx; simpl; [done|]. by rewrite IH. Qed.

Lemma lxor_cancel (b k o : Z) : Z.lxor (Z.lxor (Z.lxor (Z.lxor b k) o) k) o = b.
Proof.
  rewrite (Z.lxor_assoc (Z.lxor b k) o k), (Z.lxor_comm o k), <- Z.lxor_assoc.
  rewrite (Z.lxor_assoc b k k), Z.lxor_nilpotent, Z.lxor_0_r.
  by rewrite Z.lxor_assoc, Z.lxor_nilpotent, Z.lxor_0_r.
Qed.

Lemma xorStream_involutive (offset idx : Z) (bs : list Z) :
  Doubles.xorStream offset idx (Doubles.xorStream offset idx bs) = bs.
Proof.
  revert idx. induction bs as [|b bs IH]; intros idx; cbn [Doubles.xorStream]; [done|].
  rewrite IH. f_equal. apply lxor_cancel.
Qed.

Lemma xorKey_length (key : list Z) (i : nat) (bs : list Z) :
  length (Doubles.xorKey key i bs) = length bs.
Proof. revert i. induction bs as [|b bs IH]; intros i; simpl; [done|]. by rewrite IH. Qed.

Lemma xorKey_involutive (key : list Z) (i : nat) (bs : list Z) :
  Doubles.xorKey key i (Doubles.xorKey key i bs) = bs.
Proof.
  revert i. induction bs as [|b bs IH]; intros i; cbn [Doubles.xorKey]; [done|].
  rewrite IH. f_equal. by rewrite Z.lxor_assoc, Z.lxor_nilpotent, Z.lxor_0_r.
Qed.

Lemma asciiDecode_ascii (s : jsstring) : isAscii s -> Doubles.asciiDecode s = s.
Proof.
  unfold Doubles.asciiDecode. induction 1 as [|c s [Hlo Hhi] _ IH]; [done|].
  cbn [map]. rewrite IH. destruct (Z.ltb_spec c 128); [done|lia].
Qed.

#[local] Instance Doubles_externals_laws : @ExternalsLaws Doubles.externals.
Proof.
  split.
  - intros s off. apply xorStream_length.
  - intros key iv bs out. unfold aes128cfb_encrypt. simpl. unfold Doubles.streamCipher.
    destruct (decide _); [|done]. intros [= <-]. apply xorKey_length.
Qed.

#[local] Instance Doubles_cipher_laws : @CipherLaws Doubles.externals.
Proof.
  split.
  - intros s off Hascii. unfold decryptBaichuan, encryptBaichuan. simpl.
    by rewrite xorStream_involutive, utf8Encode_ascii, asciiDecode_ascii.
  - intros key iv bs out. unfold aes128cfb_encrypt, aes128cfb_decrypt. simpl.
    unfold Doubles.streamCipher. destruct (decide _); [|done]. intros [= <-].
    by rewrite xorKey_involutive.
  - intros s. apply asciiDecode_ascii.
Qed.

Lemma js_isAscii_login : isAscii Doubles.loginReply.
Proof.
  unfold isAscii. apply Forall_forall. intros c Hc. vm_compute in Hc.
  repeat (apply elem_of_cons in Hc as [->|Hc]; [lia|]). by apply elem_of_nil in Hc.
Qed.

Lemma legacy_frame_round_trip_witness :
  exists frame,
    @prepareFrame Doubles.externals Doubles.fresh 1 None Doubles.loginReply [] BC
      (js "1464") None = Return (250, frame)
    /\ @decrypt Doubles.externals Doubles.fresh frame 24 1 BC = Return Doubles.loginReply.
Proof.
  destruct (@prepareFrame Doubles.externals Doubles.fresh 1 None Doubles.loginReply [] BC
              (js "1464") None) as [[m frame]|e] eqn:Hframe;
    [|vm_compute in Hframe; discriminate].
  assert (Hm : m = 250) by (vm_compute in Hframe; congruence). subst m.
  exists frame. split; [done|].
  exact (@legacy_frame_round_trip Doubles.externals Doubles_externals_laws
           Doubles_cipher_laws Doubles.fresh 1 Doubles.loginReply (js "1464") None 250
           frame js_isAscii_login eq_refl Hframe).
Defined.

Lemma aes_frame_round_trip_witness :
  exists frame,
    @prepareFrame Doubles.externals Doubles.session 93 None Doubles.loginReply [] AES
      (js "1464") None = Return (250, frame)
    /\ @decrypt Doubles.externals Doubles.session frame 24 93 AES = Return Doubles.loginReply.
Proof.
  destruct (@prepareFrame Doubles.externals Doubles.session 93 None Doubles.loginReply []
              AES (js "1464") None) as [[m frame]|e] eqn:Hframe;
    [|vm_compute in Hframe; discriminate].
  assert (Hm : m = 250) by (vm_compute in Hframe; congruence). subst m.
  exists frame. split; [done|].
  exact (@aes_frame_round_trip Doubles.externals Doubles_externals_laws
           Doubles_cipher_laws Doubles.session 93 Doubles.loginReply None 250
           frame js_isAscii_login eq_refl Hframe).
Defined.

(** ** Pushes: which commands, which callbacks, which flags *)

(** X13. A push of a command other than 33 changes nothing in the client:
    whatever the frame, the state is left as it was but for at most one
    entry of the debug log (the frame could not be decoded, or its body not
    parsed), and [pushCallback] returns. *)
Theorem pushCallback_ignores_other_commands `{Externals} (cmdId : Z) (data : Buffer)
    (lenHeader : Z) (this : State) :
  cmdId <> 33 ->
  exists logs,
    pushCallback cmdId data lenHeader this = (set_trace (trace this ++ logs) this, Return tt)
    /\ Forall (fun e => isDebugLog e = true) logs
    /\ (length logs <= 1)%nat.
Proof.
  intros Hcmd.
  assert (Hnone : forall s : State,
            (s, Return tt) = (set_trace (trace s ++ []) s, Return tt)
            /\ Forall (fun e => isDebugLog e = true) [] /\ (length (@nil Event) <= 1)%nat).
  { intros s. rewrite set_trace_nil. split; [done|]. split; [constructor|simpl; lia]. }
  assert (Hone : forall (s : State) e,
            emit (EvDebugLog e) s = (set_trace (trace s ++ [EvDebugLog e]) s, Return tt)
            /\ Forall (fun e => isDebugLog e = true) [EvDebugLog e]
            /\ (length [EvDebugLog e] <= 1)%nat).
  { intros s e. split; [done|]. split; [by repeat constructor|simpl; lia]. }
  unfold pushCallback, try_catch. run_step. rewrite run_bind. unfold lift at 1.
  destruct (decrypt this data lenHeader cmdId AES) as [[|c recBody]|e]; cbv beta iota.
  - exists []. apply Hnone.
  - unfold parseXml, try_catch. rewrite run_bind. unfold lift at 1.
    destruct (xmlParse (c :: recBody)) as [parsed|e]; cbv beta iota.
    + destruct (Z.eqb_spec cmdId 33); [done|]. exists []. apply Hnone.
    + exists [EvDebugLog e]. apply Hone.
  - destruct (instanceofReolinkError e).
    + exists [EvDebugLog e]. apply Hone.
    + exists []. apply Hnone.
Qed.

Lemma pushCallback_ignores_other_commands_witness :
  exists logs,
    @pushCallback Doubles.externals 26 (Doubles.legacyFrame 26 0 Doubles.alarmPush) 24
      Doubles.session
    = (set_trace (trace Doubles.session ++ logs) Doubles.session, Return tt)
    /\ Forall (fun e => isDebugLog e = true) logs
    /\ (length logs <= 1)%nat.
Proof.
  exact (@pushCallback_ignores_other_commands Doubles.externals 26
           (Doubles.legacyFrame 26 0 Doubles.alarmPush) 24 Doubles.session
           ltac:(discriminate)).
Defined.

Section PushEffects.
Context `{Externals}.

(** What an event for a known channel does: the flags are updated from the
    status and the AI type that are present, then the callbacks of the
    channel and those of any channel are called. *)
Lemma handleEvent_effect (cmdId : Z) (event : JsValue) (channel : Z) (s : State) :
  eventChannel s event = Some channel ->
  let status := getProp (alarmEventOf event) (js "status") in
  let aiType := getProp (alarmEventOf event) (js "AItype") in
  let s1 := if negb (isUndefined status)
            then updateStatus channel status (markEventsActive s)
            else markEventsActive s in
  let s2 := if negb (isUndefined aiType) then updateAItype channel aiType s1 else s1 in
  handleEvent cmdId event s
  = if negb (isUndefined status) || negb (isUndefined aiType)
    then (set_trace (trace s ++ callbackEvents (registered s (Some cmdId) (Some channel))
                             ++ callbackEvents (registered s (Some cmdId) None)) s2,
          Return tt)
    else (s, Return tt).
Proof.
  unfold eventChannel, handleEvent, alarmEventOf.
  destruct (truthy event); simpl; [|done].
  destruct (truthy (nullish _ _)); simpl; [|done].
  destruct (isUndefined (nullish _ _)); [done|].
  intros Hch. run_step. rewrite Hch.
  set (status := getProp _ (js "status")).
  set (aiType := getProp _ (js "AItype")).
  destruct (negb (isUndefined status) || negb (isUndefined aiType)) eqn:Hany; [|done].
  run_step.
  set (s1 := if negb (isUndefined status)
             then updateStatus channel status (markEventsActive s)
             else markEventsActive s).
  set (s2 := if negb (isUndefined aiType) then updateAItype channel aiType s1 else s1).
  assert (H1 : (if negb (isUndefined status)
                then modify (updateStatus channel status) else mret tt) (markEventsActive s)
               = (s1, Return tt)).
  { subst s1. by destruct (negb (isUndefined status)). }
  rewrite run_bind, H1. cbv beta iota.
  assert (H2 : (if negb (isUndefined aiType)
                then modify (updateAItype channel aiType) else mret tt) s1
               = (s2, Return tt)).
  { subst s2. by destruct (negb (isUndefined aiType)). }
  rewrite run_bind, H2. cbv beta iota.
  assert (Hkept : trace s2 = trace s /\ extCallback s2 = extCallback s).
  { subst s2 s1. unfold updateAItype, updateStatus, markEventsActive.
    by repeat case_match. }
  destruct Hkept as [Ht He].
  rewrite run_bind, executeCallbacks_spec. cbv beta iota.
  rewrite executeCallbacks_spec. simpl.
  unfold registered. simpl. rewrite He, Ht. by rewrite <- app_assoc.
Qed.

End PushEffects.

Lemma map_get_None_keys {K V} `{EqDecision K} (m : Map K V) (k : K) :
  map_get k m = None -> k ∉ m.*1.
Proof.
  induction m as [|[k' v] m IH]; simpl; [intros _; apply not_elem_of_nil|].
  destruct (decide (k = k')); [done|]. intros Hm. apply not_elem_of_cons. auto.
Qed.

#[local] Instance notCalled_preorder (id : jsstring) : PreOrder (notCalled id).
Proof.
  split.
  - by intros s _.
  - intros s1 s2 s3 H12 H23 Hfree. destruct (H12 Hfree) as [Ht He].
    assert (Hfree2 : forall channel, map_get id (registered s2 (Some 33) channel) = None).
    { intros channel. unfold registered. rewrite He. apply Hfree. }
    destruct (H23 Hfree2) as [Ht' He']. split; congruence.
Qed.

Section PushCallbacks.
Context `{Externals}.

Lemma emit_log_notCalled (id : jsstring) (err : Exception) :
  keeps (notCalled id) (emit (EvDebugLog err)).
Proof.
  intros s _. simpl. rewrite filter_app. rewrite (filter_cons_False _ (EvDebugLog err)) by done.
  by rewrite filter_nil, app_nil_r.
Qed.

Lemma handleEvent_notCalled (id : jsstring) (event : JsValue) :
  keeps (notCalled id) (handleEvent 33 event).
Proof.
  intros s Hfree.
  destruct (eventChannel s event) as [channel|] eqn:Hch.
  - rewrite (handleEvent_effect 33 event channel s Hch).
    destruct (_ || _); [|done]. simpl. split.
    + rewrite !filter_app, !callbackEvents_none, !app_nil_r; [done|..];
        by apply map_get_None_keys.
    + unfold updateAItype, updateStatus, markEventsActive. by repeat case_match.
  - by rewrite handleEvent_unknown.
Qed.

Lemma pushCallback_notCalled (id : jsstring) (cmdId : Z) (data : Buffer) (lenHeader : Z) :
  keeps (notCalled id) (pushCallback cmdId data lenHeader).
Proof.
  unfold pushCallback, parseXml, handleEventList.
  destruct (Z.eqb_spec cmdId 33) as [->|_];
    keeps_steps; try apply handleEvent_notCalled; try apply emit_log_notCalled.
Qed.

(** X14. A push calls no callback but those registered for the alarm command
    (33): a callback whose id is registered for no channel of command 33,
    such as one registered without a command, is called by no push,
    whatever the command and the frame. *)
Theorem push_calls_only_alarm_callbacks (id : jsstring) (cmdId : Z) (data : Buffer)
    (lenHeader : Z) (this : State) :
  (forall channel, map_get id (registered this (Some 33) channel) = None) ->
  filter (fun e => isCallbackOf id e = true) (trace (pushCallback cmdId data lenHeader this).1)
  = filter (fun e => isCallbackOf id e = true) (trace this).
Proof. intros Hfree. by apply (pushCallback_notCalled id cmdId data lenHeader this). Qed.

Lemma map_get_retag {K A B} `{EqDecision K} (f : K -> B) (m : Map K A) (k : K) :
  map_get k (map (fun '(key, _) => (key, f key)) m) = (fun _ => f k) <$> map_get k m.
Proof.
  induction m as [|[k' v] m IH]; simpl; [done|].
  destruct (decide (k = k')) as [->|]; [done|apply IH].
Qed.

Lemma markEventsActive_tables (s : State) :
  httpApi_motionDetectionStates (markEventsActive s) = httpApi_motionDetectionStates s
  /\ httpApi_visitorStates (markEventsActive s) = httpApi_visitorStates s
  /\ httpApi_aiDetectionStates (markEventsActive s) = httpApi_aiDetectionStates s.
Proof. unfold markEventsActive. by destruct (_ && _). Qed.

Lemma updateAItype_motionDetected (channel : Z) (aiType : JsValue) (s : State) :
  motionDetected channel (updateAItype channel aiType s)
  = motionDetected channel s || includes (toString aiType) (js "other").
Proof.
  unfold motionDetected, updateAItype.
  set (s1 := match httpApi_aiDetectionStates s !! channel with Some _ => _ | None => _ end).
  assert (Hm : httpApi_motionDetectionStates s1 = httpApi_motionDetectionStates s).
  { subst s1. by destruct (httpApi_aiDetectionStates s !! channel). }
  rewrite Hm.
  destruct (default false (httpApi_motionDetectionStates s !! channel)) eqn:Hold;
    cbn [negb andb orb].
  - by rewrite Hm, Hold.
  - destruct (includes (toString aiType) (js "other")).
    + simpl. by rewrite lookup_insert_eq.
    + by rewrite Hm, Hold.
Qed.

Lemma updateAItype_visitor (channel : Z) (aiType : JsValue) (s : State) :
  httpApi_visitorStates (updateAItype channel aiType s) = httpApi_visitorStates s.
Proof. unfold updateAItype. by repeat case_match. Qed.

(** X15. What an event of the alarm command for a known channel does to the
    motion and the visitor flag the host reports for the channel.  With a
    status, the visitor flag is whether the status contains "visitor" and
    the motion flag whether it contains "MD"; without one both are as they
    were.  An AI type that contains "other" sets the motion flag besides; an
    AI type never clears it. *)
Theorem push_event_motion_and_visitor (cmdId : Z) (event : JsValue) (channel : Z)
    (this : State) :
  eventChannel this event = Some channel ->
  let status := getProp (alarmEventOf event) (js "status") in
  let aiType := getProp (alarmEventOf event) (js "AItype") in
  let after := dispatchEvent cmdId this event in
  motionDetected channel after
  = (if isUndefined status then motionDetected channel this
     else includes (toString status) (js "MD"))
    || (negb (isUndefined aiType) && includes (toString aiType) (js "other"))
  /\ visitorDetected channel after
     = if isUndefined status then visitorDetected channel this
       else includes (toString status) (js "visitor").
Proof.
  intros Hch status aiType after. subst after. unfold dispatchEvent.
  rewrite (handleEvent_effect cmdId event channel this Hch). fold status aiType.
  destruct (markEventsActive_tables this) as (Hm & Hv & _).
  assert (Hm0 : motionDetected channel (markEventsActive this) = motionDetected channel this)
    by (unfold motionDetected; by rewrite Hm).
  assert (Hv0 : visitorDetected channel (markEventsActive this)
                = visitorDetected channel this)
    by (unfold visitorDetected; by rewrite Hv).
  assert (Hm1 : forall s, motionDetected channel (updateStatus channel status s)
                          = includes (toString status) (js "MD")).
  { intros s. unfold motionDetected, updateStatus. simpl. by rewrite lookup_insert_eq. }
  assert (Hv1 : forall s, visitorDetected channel (updateStatus channel status s)
                          = includes (toString status) (js "visitor")).
  { intros s. unfold visitorDetected, updateStatus. simpl. by rewrite lookup_insert_eq. }
  assert (Hv2 : forall s, visitorDetected channel (updateAItype channel aiType s)
                          = visitorDetected channel s).
  { intros s. unfold visitorDetected. by rewrite updateAItype_visitor. }
  assert (Htrace : forall t s, motionDetected channel (set_trace t s) = motionDetected channel s
                               /\ visitorDetected channel (set_trace t s)
                                  = visitorDetected channel s) by done.
  destruct (isUndefined status), (isUndefined aiType); cbn [negb orb andb fst].
  - by rewrite orb_false_r.
  - destruct (Htrace (trace this ++ callbackEvents (registered this (Some cmdId) (Some channel))
                        ++ callbackEvents (registered this (Some cmdId) None))
                (updateAItype channel aiType (markEventsActive this))) as [-> ->].
    by rewrite updateAItype_motionDetected, Hv2, Hm0, Hv0.
  - destruct (Htrace (trace this ++ callbackEvents (registered this (Some cmdId) (Some channel))
                        ++ callbackEvents (registered this (Some cmdId) None))
                (updateStatus channel status (markEventsActive this))) as [-> ->].
    by rewrite Hm1, Hv1, orb_false_r.
  - destruct (Htrace (trace this ++ callbackEvents (registered this (Some cmdId) (Some channel))
                        ++ callbackEvents (registered this (Some cmdId) None))
                (updateAItype channel aiType
                   (updateStatus channel status (markEventsActive this)))) as [-> ->].
    by rewrite updateAItype_motionDetected, Hv2, Hm1, Hv1.
Qed.

(** Names a lookup in a table, whatever the form of its type. *)
Ltac fold_lookup o m k :=
  repeat match goal with
         | |- context [@lookup ?K ?A ?M ?I k m] =>
             progress change (@lookup K A M I k m) with o
         end.

Ltac name_lookup o m k := set (o := m !! k) in *; fold_lookup o m k.

Lemma updateAItype_aiDetected (channel : Z) (aiType : JsValue) (objectType : jsstring)
    (s : State) :
  aiDetected channel objectType (updateAItype channel aiType s)
  = match httpApi_aiDetectionStates s !! channel ≫= map_get objectType with
    | Some _ => includes (toString aiType) objectType
    | None => false
    end.
Proof.
  unfold aiDetected, updateAItype.
  name_lookup o (httpApi_aiDetectionStates s) channel.
  destruct o as [aiStates|] eqn:Ho.
  - destruct (negb _ && _); simpl; rewrite lookup_insert_eq; simpl;
      rewrite map_get_retag; by destruct (map_get objectType aiStates).
  - destruct (negb _ && _); simpl; fold_lookup o (httpApi_aiDetectionStates s) channel;
      by rewrite Ho.
Qed.

(** X16. What an event of the alarm command for a known channel does to the
    AI flags the host reports for the channel: with an AI type, the flag of
    every object type the host tracks for the channel is whether the AI type
    contains the name of the object type, and no object type is added;
    without one the flags are as they were. *)
Theorem push_event_ai_flags (cmdId : Z) (event : JsValue) (channel : Z)
    (objectType : jsstring) (this : State) :
  eventChannel this event = Some channel ->
  let aiType := getProp (alarmEventOf event) (js "AItype") in
  aiDetected channel objectType (dispatchEvent cmdId this event)
  = if isUndefined aiType then aiDetected channel objectType this
    else match httpApi_aiDetectionStates this !! channel ≫= map_get objectType with
         | Some _ => includes (toString aiType) objectType
         | None => false
         end.
Proof.
  intros Hch aiType. unfold dispatchEvent.
  rewrite (handleEvent_effect cmdId event channel this Hch). fold aiType.
  destruct (markEventsActive_tables this) as (_ & _ & Hai).
  assert (Hstatus : forall status s,
            httpApi_aiDetectionStates (updateStatus channel status s)
            = httpApi_aiDetectionStates s) by done.
  destruct (isUndefined (getProp (alarmEventOf event) (js "status"))),
    (isUndefined aiType); cbn [negb orb andb fst]; try done.
  - change (aiDetected channel objectType (set_trace ?t ?s))
      with (aiDetected channel objectType s).
    by rewrite updateAItype_aiDetected, Hai.
  - unfold aiDetected. simpl. by rewrite Hai.
  - change (aiDetected channel objectType (set_trace ?t ?s))
      with (aiDetected channel objectType s).
    by rewrite updateAItype_aiDetected, Hstatus, Hai.
Qed.

(** X17. An event changes the flags of no channel but its own: for every
    other channel, and for every channel when the event names none that the
    host knows, the tables the host reads the motion, the visitor and the AI
    flags from are left as they were. *)
Theorem push_event_other_channels (cmdId : Z) (event : JsValue) (other : Z)
    (this : State) :
  eventChannel this event <> Some other ->
  let after := dispatchEvent cmdId this event in
  httpApi_motionDetectionStates after !! other = httpApi_motionDetectionStates this !! other
  /\ httpApi_visitorStates after !! other = httpApi_visitorStates this !! other
  /\ httpApi_aiDetectionStates after !! other = httpApi_aiDetectionStates this !! other.
Proof.
  intros Hother after. subst after. unfold dispatchEvent.
  destruct (eventChannel this event) as [channel|] eqn:Hch;
    [|by rewrite handleEvent_unknown].
  assert (Hne : channel <> other) by congruence.
  rewrite (handleEvent_effect cmdId event channel this Hch).
  destruct (_ || _); [|done]. cbn [fst].
  unfold updateAItype, updateStatus, markEventsActive.
  repeat case_match; simpl; rewrite ?lookup_insert_ne by done; done.
Qed.

End PushCallbacks.

Lemma push_calls_only_alarm_callbacks_witness :
  let this := registerCallback (js "onAny") {| cb_throws := None |} None None
                Doubles.session in
  let after := (@pushCallback Doubles.externals 33
                  (Doubles.legacyFrame 33 0 Doubles.alarmPush) 24 this).1 in
  registered this None None = [(js "onAny", {| cb_throws := None |})]
  /\ motionDetected 0 after = true
  /\ filter (fun e => isCallbackOf (js "onAny") e = true) (trace after) = [].
Proof.
  intros this after. split; [vm_compute; reflexivity|]. split; [vm_compute; reflexivity|].
  subst after.
  rewrite (@push_calls_only_alarm_callbacks Doubles.externals (js "onAny") 33
             (Doubles.legacyFrame 33 0 Doubles.alarmPush) 24 this
             ltac:(intros channel; vm_compute; reflexivity)).
  vm_compute. reflexivity.
Defined.

Lemma push_event_motion_and_visitor_witness :
  let after := @dispatchEvent Doubles.externals 33 Doubles.session Doubles.alarmEvent in
  motionDetected 0 after = true /\ visitorDetected 0 after = false.
Proof.
  exact (@push_event_motion_and_visitor Doubles.externals 33 Doubles.alarmEvent 0
           Doubles.session ltac:(vm_compute; reflexivity)).
Defined.

Lemma push_event_ai_flags_witness :
  let this := newBaichuan (js "192.168.1.10") (js "admin") (js "secret") [0]
                {[ 0 := [(js "people", false); (js "vehicle", true)] ]} in
  let event := JObject [(js "channelId", JNumber 0); (js "AItype", JString (js "people"))] in
  let after := @dispatchEvent Doubles.externals 33 this event in
  aiDetected 0 (js "people") after = true
  /\ aiDetected 0 (js "vehicle") after = false
  /\ aiDetected 0 (js "dog_cat") after = false.
Proof.
  intros this event after. subst after.
  rewrite !(@push_event_ai_flags Doubles.externals 33 event 0 _ this
              ltac:(vm_compute; reflexivity)).
  vm_compute. repeat split.
Defined.

Lemma push_event_other_channels_witness :
  let this := set_httpApi_motionDetectionStates {[ 1 := true ]} Doubles.session in
  let after := @dispatchEvent Doubles.externals 33 this Doubles.alarmEvent in
  motionDetected 0 after = true
  /\ httpApi_motionDetectionStates after !! 1 = Some true.
Proof.
  intros this after. split; [vm_compute; reflexivity|]. subst after.
  rewrite (proj1 (@push_event_other_channels Doubles.externals 33 Doubles.alarmEvent 1 this
                    ltac:(vm_compute; discriminate))).
  vm_compute. reflexivity.
Defined.

(** ** The registry: registration, lookup, removal *)

Section MapFacts2.
Context {K V : Type} `{EqDecision K}.
Implicit Types (m : Map K V) (k : K) (v : V).

Lemma map_get_set_ne m k k' v : k' <> k -> map_get k' (map_set k v m) = map_get k' m.
Proof.
  intros Hne. induction m as [|[k0 v0] m IH]; cbn.
  - by rewrite decide_False.
  - destruct (decide (k = k0)) as [->|]; cbn.
    + by rewrite !decide_False.
    + destruct (decide (k' = k0)); [done|apply IH].
Qed.

Lemma map_get_notin m k : k ∉ map_keys m -> map_get k m = None.
Proof.
  unfold map_keys. induction m as [|[k0 v0] m IH]; cbn; [done|].
  intros [Hne Hm]%not_elem_of_cons. rewrite decide_False by done. auto.
Qed.

Lemma map_wf_elem_get m k v : map_wf m -> (k, v) ∈ m -> map_get k m = Some v.
Proof.
  unfold map_wf, map_keys. induction m as [|[k0 v0] m IH]; cbn.
  - by intros _ ?%elem_of_nil.
  - intros [Hnotin Hnodup]%NoDup_cons [[= -> ->]|Hin]%elem_of_cons.
    + by rewrite decide_True.
    + rewrite decide_False; [by apply IH|].
      intros ->. apply Hnotin. apply list_elem_of_fmap. by exists (k0, v).
Qed.

Lemma map_get_delete_eq m k : map_wf m -> map_get k (map_delete k m) = None.
Proof.
  unfold map_wf, map_keys. induction m as [|[k0 v0] m IH]; cbn; [done|].
  intros [Hnotin Hnodup]%NoDup_cons.
  destruct (decide (k = k0)) as [->|Hne]; cbn.
  - by apply map_get_notin.
  - rewrite decide_False by done. by apply IH.
Qed.

Lemma map_get_delete_ne m k k' : k' <> k -> map_get k' (map_delete k m) = map_get k' m.
Proof.
  intros Hne. induction m as [|[k0 v0] m IH]; cbn; [done|].
  destruct (decide (k = k0)) as [->|]; cbn.
  - by rewrite decide_False.
  - destruct (decide (k' = k0)); [done|apply IH].
Qed.

Lemma map_set_set m k v v0 : map_set k v (map_set k v0 m) = map_set k v m.
Proof.
  induction m as [|[k0 w] m IH]; cbn.
  - by rewrite decide_True.
  - destruct (decide (k = k0)) as [->|]; cbn.
    + by rewrite decide_True.
    + rewrite decide_False by done. by rewrite IH.
Qed.

Lemma map_delete_absent m k : map_get k m = None -> map_delete k m = m.
Proof.
  induction m as [|[k0 v0] m IH]; cbn; [done|].
  destruct (decide (k = k0)); [done|]. intros Hm. by rewrite IH.
Qed.

Lemma map_delete_set_absent m k v : map_get k m = None -> map_delete k (map_set k v m) = m.
Proof.
  induction m as [|[k0 v0] m IH]; cbn.
  - by rewrite decide_True.
  - destruct (decide (k = k0)); [done|]. intros Hm. cbn.
    rewrite decide_False by done. by rewrite IH.
Qed.

Lemma map_set_nonempty m k v : map_set k v m <> [].
Proof. destruct m as [|[k0 v0] m]; cbn; [done|]. by destruct (decide (k = k0)). Qed.

Lemma pruneWith_cons (f : V -> list V) m k v :
  pruneWith f ((k, v) :: m) = map (fun v' => (k, v')) (f v) ++ pruneWith f m.
Proof. done. Qed.

Lemma pruneWith_id (f : V -> list V) m :
  (forall k v, (k, v) ∈ m -> f v = [v]) -> pruneWith f m = m.
Proof.
  induction m as [|[k0 v0] m IH]; [done|]. intros Hf.
  rewrite pruneWith_cons, (Hf k0 v0) by left. cbn. rewrite IH; [done|].
  intros k v Hin. apply (Hf k). by right.
Qed.

(** Setting a key and pruning the new value away again gives the map back. *)
Lemma pruneWith_set (f : V -> list V) m k v :
  (forall k' v', (k', v') ∈ m -> f v' = [v']) ->
  f v = match map_get k m with Some v0 => [v0] | None => [] end ->
  pruneWith f (map_set k v m) = m.
Proof.
  induction m as [|[k0 v0] m IH]; cbn [map_get map_set]; intros Hf Hv.
  - by rewrite pruneWith_cons, Hv.
  - destruct (decide (k = k0)) as [->|Hne].
    + rewrite pruneWith_cons, Hv. cbn. rewrite pruneWith_id; [done|].
      intros k' v' Hin. apply (Hf k'). by right.
    + rewrite pruneWith_cons, (Hf k0 v0) by left. cbn. rewrite IH; [done| |done].
      intros k' v' Hin. apply (Hf k'). by right.
Qed.

Lemma map_get_pruneWith (f : V -> list V) m k :
  map_wf m -> (forall v, (length (f v) <= 1)%nat) ->
  map_get k (pruneWith f m) = map_get k m ≫= (fun v => head (f v)).
Proof.
  intros Hwf Hf. induction m as [|[k0 v0] m IH]; [done|].
  rewrite pruneWith_cons.
  apply NoDup_cons in Hwf as [Hnotin Hnodup]. specialize (IH Hnodup).
  cbn [map_get]. pose proof (Hf v0) as Hf0.
  destruct (decide (k = k0)) as [->|Hne]; cbn.
  - destruct (f v0) as [|v1 [|v2 rest]]; cbn in *; [|by rewrite decide_True|lia].
    apply map_get_notin. intros Hin. apply Hnotin.
    eapply elem_of_sublist; [exact Hin|].
    by apply pruneWith_keys_sublist.
  - destruct (f v0) as [|v1 [|v2 rest]]; cbn in *; [done| |lia].
    by rewrite decide_False.
Qed.

End MapFacts2.

Lemma map_has_get {K V} `{EqDecision K} (k : K) (m : Map K V) :
  map_has k m = match map_get k m with Some _ => true | None => false end.
Proof.
  unfold map_has. destruct (map_get k m).
  - by apply bool_decide_eq_true_2.
  - apply bool_decide_eq_false_2. by intros [? ?].
Qed.

(** The registry after [registerCallback], in terms of the maps it had. *)
Lemma registerCallback_ext callbackId callback (cmdId channel : option Z) (this : State) :
  let cmdCallbacks := default [] (map_get cmdId (extCallback this)) in
  let channelCallbacks := default [] (map_get channel cmdCallbacks) in
  extCallback (registerCallback callbackId callback cmdId channel this)
  = map_set cmdId
      (map_set channel (map_set callbackId callback channelCallbacks) cmdCallbacks)
      (extCallback this).
Proof.
  unfold registerCallback. cbn [extCallback set_extCallback].
  rewrite (map_has_get cmdId).
  destruct (map_get cmdId (extCallback this)) as [cmdCallbacks|] eqn:Hcmd; cbn [default from_option id].
  - rewrite Hcmd. cbn [default from_option id]. rewrite (map_has_get channel).
    destruct (map_get channel cmdCallbacks) as [channelCallbacks|] eqn:Hch; cbn [default from_option id].
    + by rewrite Hch.
    + by rewrite map_get_set_eq, map_set_set.
  - rewrite map_get_set_eq. cbn [default from_option id]. rewrite (map_has_get channel).
    cbn [map_get]. rewrite map_get_set_eq. cbn [default from_option id].
    by rewrite !map_set_set.
Qed.

(** X18. After [registerCallback] the callback is the one registered under
    its id for the command and the channel, whether that id was free or
    taken; the other ids of that command and channel, and all the other
    commands and channels, have the callbacks they had. *)
Theorem registerCallback_lookup (callbackId : jsstring) (callback : CallbackFunction)
    (cmdId channel : option Z) (this : State) :
  let after := registerCallback callbackId callback cmdId channel this in
  map_get callbackId (registered after cmdId channel) = Some callback
  /\ (forall id, id <> callbackId ->
        map_get id (registered after cmdId channel)
        = map_get id (registered this cmdId channel))
  /\ (forall cmdId' channel', (cmdId', channel') <> (cmdId, channel) ->
        registered after cmdId' channel' = registered this cmdId' channel').
Proof.
  intros after. subst after.
  assert (Hsame : registered (registerCallback callbackId callback cmdId channel this)
                    cmdId channel
                  = map_set callbackId callback (registered this cmdId channel)).
  { unfold registered. rewrite registerCallback_ext. cbv zeta.
    rewrite map_get_set_eq. cbn [mbind option_bind]. rewrite map_get_set_eq.
    cbn [default from_option id]. by destruct (map_get cmdId (extCallback this)). }
  split_and!.
  - rewrite Hsame. apply map_get_set_eq.
  - intros id Hid. rewrite Hsame. by apply map_get_set_ne.
  - intros cmdId' channel' Hne. unfold registered. rewrite registerCallback_ext. cbv zeta.
    destruct (decide (cmdId' = cmdId)) as [->|Hcmd].
    + rewrite map_get_set_eq. cbn [mbind option_bind].
      rewrite map_get_set_ne by congruence.
      by destruct (map_get cmdId (extCallback this)).
    + by rewrite map_get_set_ne.
Qed.

(** The callbacks of a command and a channel after [unregisterCallback]. *)
Lemma registered_unregister (callbackId : jsstring) (cmdId channel : option Z)
    (this : State) :
  registryWf (extCallback this) ->
  registered (unregisterCallback callbackId this) cmdId channel
  = map_delete callbackId (registered this cmdId channel).
Proof.
  intros [Hwf Hall]. unfold registered, unregisterCallback.
  cbn [extCallback set_extCallback].
  rewrite map_get_pruneWith by (done || intros; apply nonEmpty_length).
  destruct (map_get cmdId (extCallback this)) as [cmdCallbacks|] eqn:Hcmd;
    cbn [mbind option_bind]; [|done].
  pose proof (map_get_Forall _ _ _ _ Hall Hcmd) as [Hwf' _]. cbn [snd] in Hwf'.
  pose proof (map_get_pruneWith
                (fun channelCallbacks => nonEmpty (map_delete callbackId channelCallbacks))
                cmdCallbacks channel Hwf'
                (fun v => nonEmpty_length _)) as Hinner.
  cbv beta in Hinner.
  destruct (pruneWith _ cmdCallbacks) as [|entry rest] eqn:Hprune;
    cbn [nonEmpty head mbind option_bind default from_option id].
  - cbn [map_get] in Hinner.
    destruct (map_get channel cmdCallbacks) as [channelCallbacks|]; [|done].
    cbn [mbind option_bind default from_option id] in *.
    by destruct (map_delete callbackId channelCallbacks).
  - rewrite Hinner.
    destruct (map_get channel cmdCallbacks) as [channelCallbacks|]; [|done].
    cbn [mbind option_bind default from_option id].
    by destruct (map_delete callbackId channelCallbacks).
Qed.

(** X19. In a state the client can reach, after [unregisterCallback] the id
    is registered for no command and no channel, and every other id has,
    for every command and channel, the callback it had. *)
Theorem unregisterCallback_removes `{Externals} (callbackId : jsstring) (this : State) :
  reachable this ->
  let after := unregisterCallback callbackId this in
  (forall cmdId channel, map_get callbackId (registered after cmdId channel) = None)
  /\ (forall id cmdId channel, id <> callbackId ->
        map_get id (registered after cmdId channel)
        = map_get id (registered this cmdId channel)).
Proof.
  intros [_ Hwf]%reachable_invariant after. subst after. split.
  - intros cmdId channel. rewrite registered_unregister by done.
    apply map_get_delete_eq. by apply registered_wf.
  - intros id cmdId channel Hid. rewrite registered_unregister by done.
    by apply map_get_delete_ne.
Qed.

Lemma nonEmpty_elem_ne {A} (m m' : list A) : m' ∈ nonEmpty m -> m' = m /\ m <> [].
Proof.
  destruct m; simpl; [by intros ?%elem_of_nil|].
  by intros ->%list_elem_of_singleton.
Qed.

Lemma nonEmpty_ne {A} (m : list A) : m <> [] -> nonEmpty m = [m].
Proof. by destruct m. Qed.

Lemma registerCallback_tight callbackId callback (cmdId channel : option Z) (this : State) :
  registryTight (extCallback this) ->
  registryTight (extCallback (registerCallback callbackId callback cmdId channel this)).
Proof.
  intros Htight. rewrite registerCallback_ext. cbv zeta. unfold registryTight.
  apply map_set_Forall; [done|]. cbn [snd]. split; [apply map_set_nonempty|].
  apply map_set_Forall; [|apply map_set_nonempty].
  destruct (map_get cmdId (extCallback this)) as [cmdCallbacks|] eqn:Hcmd; [|constructor].
  by pose proof (map_get_Forall _ _ _ _ Htight Hcmd) as [_ ?].
Qed.

Lemma unregisterCallback_tight callbackId (this : State) :
  registryTight (extCallback (unregisterCallback callbackId this)).
Proof.
  unfold unregisterCallback, registryTight. cbn [extCallback set_extCallback].
  eapply (pruneWith_Forall _ (fun _ => True)); [|by apply Forall_true].
  intros cmdId cmdCallbacks cmdCallbacks' _ [-> Hne]%nonEmpty_elem_ne. cbn [snd].
  split; [done|].
  eapply (pruneWith_Forall _ (fun _ => True)); [|by apply Forall_true].
  by intros channel callbacks callbacks' _ [-> Hne']%nonEmpty_elem_ne.
Qed.

Lemma perform_tight `{Externals} (net : Network) (op : Op) (s : State) :
  registryTight (extCallback s) -> registryTight (extCallback (perform net op s)).
Proof.
  intros Htight.
  assert (Hsession : forall A (c : M A), keeps sessionOnly c ->
            registryTight (extCallback (c s).1)).
  { intros A c Hc. destruct (Hc s) as (_ & Hreg & _). by rewrite Hreg. }
  destruct op; simpl.
  - apply Hsession, login_kept.
  - apply Hsession, logout_kept.
  - apply Hsession, sendCmd_kept.
  - by rewrite (subscribeEvents_registryKept net now s).
  - by rewrite (unsubscribeEvents_registryKept net s).
  - destruct (timers s); [done|]. apply Hsession, keepaliveLoop_kept.
  - destruct (socketClosed_kept now s) as (_ & Hreg & _). by rewrite Hreg.
  - apply Hsession, pushCallback_kept.
  - by apply registerCallback_tight.
  - apply unregisterCallback_tight.
Qed.

Lemma reachable_tight `{Externals} (s : State) :
  reachable s -> registryTight (extCallback s).
Proof.
  induction 1 as [host username password channels aiStates|net op s _ IH].
  - constructor.
  - by apply perform_tight.
Qed.

(** X20. In a state the client can reach, registering a callback under an
    id that is registered nowhere and unregistering that id again gives the
    state back: the maps [registerCallback] created for the command and the
    channel are deleted again, and nothing else has moved. *)
Theorem register_unregister_round_trip `{Externals} (callbackId : jsstring)
    (callback : CallbackFunction) (cmdId channel : option Z) (this : State) :
  reachable this ->
  (forall cmd ch, map_get callbackId (registered this cmd ch) = None) ->
  unregisterCallback callbackId (registerCallback callbackId callback cmdId channel this)
  = this.
Proof.
  intros Hreach Hfree.
  pose proof (reachable_tight _ Hreach) as Htight.
  apply reachable_invariant in Hreach as [_ [Hwf Hwfs]].
  set (g := fun channelCallbacks : Map jsstring CallbackFunction =>
              nonEmpty (map_delete callbackId channelCallbacks)).
  set (G := fun cmdCallbacks : Map (option Z) (Map jsstring CallbackFunction) =>
              nonEmpty (pruneWith g cmdCallbacks)).
  (* the maps of the registry are left by the pruning *)
  assert (Hg : forall cmd cmdCallbacks ch channelCallbacks,
            map_get cmd (extCallback this) = Some cmdCallbacks ->
            (ch, channelCallbacks) ∈ cmdCallbacks ->
            g channelCallbacks = [channelCallbacks]).
  { intros cmd cmdCallbacks ch channelCallbacks Hcmd Hin.
    pose proof (map_get_Forall _ _ _ _ Hwfs Hcmd) as [Hwf' _].
    pose proof (map_get_Forall _ _ _ _ Htight Hcmd) as [_ Hne].
    cbn [snd] in *.
    pose proof (map_wf_elem_get _ _ _ Hwf' Hin) as Hch.
    specialize (Hfree cmd ch). unfold registered in Hfree. rewrite Hcmd in Hfree.
    cbn [mbind option_bind] in Hfree. rewrite Hch in Hfree.
    cbn [default from_option id] in Hfree.
    unfold g. rewrite map_delete_absent by done. apply nonEmpty_ne.
    apply (proj1 (Forall_forall _ _) Hne (ch, channelCallbacks) Hin). }
  assert (HG : forall cmd cmdCallbacks,
            map_get cmd (extCallback this) = Some cmdCallbacks ->
            pruneWith g cmdCallbacks = cmdCallbacks /\ cmdCallbacks <> []).
  { intros cmd cmdCallbacks Hcmd. split.
    - apply pruneWith_id. intros ch channelCallbacks Hin. by eapply Hg.
    - by pose proof (map_get_Forall _ _ _ _ Htight Hcmd) as [? _]. }
  (* the new maps are pruned away *)
  set (cmdCallbacks0 := default [] (map_get cmdId (extCallback this))).
  set (channelCallbacks0 := default [] (map_get channel cmdCallbacks0)).
  assert (Hfree0 : map_get callbackId channelCallbacks0 = None).
  { specialize (Hfree cmdId channel). unfold registered in Hfree.
    subst channelCallbacks0 cmdCallbacks0.
    by destruct (map_get cmdId (extCallback this)). }
  assert (Hinner : pruneWith g
                     (map_set channel (map_set callbackId callback channelCallbacks0)
                        cmdCallbacks0) = cmdCallbacks0).
  { apply pruneWith_set.
    - intros ch channelCallbacks Hin. subst cmdCallbacks0.
      destruct (map_get cmdId (extCallback this)) as [cmdCallbacks|] eqn:Hcmd;
        [by eapply Hg|by apply elem_of_nil in Hin].
    - unfold g. rewrite map_delete_set_absent by done. subst channelCallbacks0.
      destruct (map_get channel cmdCallbacks0) as [channelCallbacks|] eqn:Hch; [|done].
      cbn [default from_option id]. apply nonEmpty_ne.
      subst cmdCallbacks0.
      destruct (map_get cmdId (extCallback this)) as [cmdCallbacks|] eqn:Hcmd; [|done].
      pose proof (map_get_Forall _ _ _ _ Htight Hcmd) as [_ Hne]. cbn [snd] in Hne.
      by pose proof (map_get_Forall _ _ _ _ Hne Hch). }
  assert (Houter : pruneWith G
                     (map_set cmdId
                        (map_set channel (map_set callbackId callback channelCallbacks0)
                           cmdCallbacks0) (extCallback this))
                   = extCallback this).
  { apply pruneWith_set.
    - intros cmd cmdCallbacks Hin.
      pose proof (map_wf_elem_get _ _ _ Hwf Hin) as Hcmd.
      destruct (HG _ _ Hcmd) as [Hid Hne]. unfold G. rewrite Hid. by apply nonEmpty_ne.
    - unfold G. rewrite Hinner. subst cmdCallbacks0.
      destruct (map_get cmdId (extCallback this)) as [cmdCallbacks|] eqn:Hcmd; [|done].
      cbn [default from_option id]. apply nonEmpty_ne. by destruct (HG _ _ Hcmd). }
  unfold unregisterCallback. rewrite registerCallback_ext. fold g G.
  fold cmdCallbacks0 channelCallbacks0. rewrite Houter.
  unfold registerCallback. by destruct this.
Qed.

Lemma unregisterCallback_removes_witness :
  let this :=
    @perform Doubles.externals Doubles.silentNet
      (OpRegisterCallback (js "onAny") {| cb_throws := None |} (Some 33) None)
      (@perform Doubles.externals Doubles.silentNet
         (OpRegisterCallback (js "onMotion") {| cb_throws := None |} (Some 33) (Some 0))
         (newBaichuan (js "192.168.1.10") (js "admin") (js "secret") [0] ∅)) in
  let after := unregisterCallback (js "onAny") this in
  map_get (js "onAny") (registered this (Some 33) None) = Some {| cb_throws := None |}
  /\ map_get (js "onAny") (registered after (Some 33) None) = None
  /\ map_get (js "onMotion") (registered after (Some 33) (Some 0))
     = Some {| cb_throws := None |}.
Proof.
  intros this after.
  destruct (@unregisterCallback_removes Doubles.externals (js "onAny") this
              (reachable_perform _ _ _ (reachable_perform _ _ _
                 (reachable_new _ _ _ _ _)))) as [Hgone Hkept].
  split; [vm_compute; reflexivity|]. split; [apply Hgone|].
  subst after. rewrite Hkept by discriminate. vm_compute. reflexivity.
Defined.

Lemma register_unregister_round_trip_witness :
  let this :=
    @perform Doubles.externals Doubles.silentNet
      (OpRegisterCallback (js "onMotion") {| cb_throws := None |} (Some 33) (Some 0))
      (newBaichuan (js "192.168.1.10") (js "admin") (js "secret") [0] ∅) in
  unregisterCallback (js "onAny")
    (registerCallback (js "onAny") {| cb_throws := None |} (Some 33) None this)
  = this.
Proof.
  intros this.
  apply (@register_unregister_round_trip Doubles.externals (js "onAny")
           {| cb_throws := None |} (Some 33) None this
           (reachable_perform _ _ _ (reachable_new _ _ _ _ _))).
  intros cmd ch. unfold registered.
  change (extCallback this)
    with [(Some 33, [(Some 0, [(js "onMotion", {| cb_throws := None |})])])].
  cbn [map_get].
  destruct (decide (cmd = Some 33)); cbn [mbind option_bind map_get]; [|done].
  destruct (decide (ch = Some 0)); [|done].
  vm_compute. reflexivity.
Defined.

(** ** After the connection is lost *)

(** X21. When the socket of a subscribed client is closed, nothing the
    subscription does reconnects it: every later tick of the keepalive timer
    returns without sending, because the events are no longer flagged
    active, and a new call of [subscribeEvents] returns without logging in,
    because the client is still subscribed.  The client is left as the close
    left it. *)
Theorem connection_loss_not_recovered `{Externals} (net : Network) (lost : Z)
    (this : State) :
  subscribed this = true ->
  let closed := socketClosed lost this in
  subscribed closed = true
  /\ loggedIn closed = false
  /\ (forall now, keepaliveLoop net now closed = (closed, Return tt))
  /\ (forall now, subscribeEvents net now closed = (closed, Return tt)).
Proof.
  intros Hsub closed.
  assert (Hs : subscribed closed = true).
  { subst closed. unfold socketClosed, closeCallback. simpl. rewrite Hsub.
    by destruct (negb (eventsActive this)). }
  assert (He : eventsActive closed = false).
  { subst closed. unfold socketClosed, closeCallback. simpl. rewrite Hsub.
    by destruct (negb (eventsActive this)). }
  split_and!; [done| | |].
  - subst closed. unfold socketClosed, closeCallback. simpl. rewrite Hsub.
    by destruct (negb (eventsActive this)).
  - intros now. unfold keepaliveLoop. run_step. rewrite Hs, He. done.
  - intros now. unfold subscribeEvents. run_step. by rewrite Hs.
Qed.

Lemma connection_loss_not_recovered_witness :
  let this := (@subscribeEvents Doubles.externals Doubles.loginNet 1000 Doubles.fresh).1 in
  let closed := socketClosed 5000 this in
  subscribed this = true
  /\ forall now,
       @keepaliveLoop Doubles.externals Doubles.loginNet now closed = (closed, Return tt).
Proof.
  intros this closed. split; [vm_compute; reflexivity|].
  exact (proj1 (proj2 (proj2 (@connection_loss_not_recovered Doubles.externals
                                Doubles.loginNet 5000 this
                                ltac:(vm_compute; reflexivity))))).
Defined.

(** ** The device information of the login reply *)

Section DeviceInfo.
Context `{Externals}.

(** X22. [parseDeviceInfo] never takes back what is known of the kind of
    device: a host flagged as NVR stays an NVR and a host flagged as hub
    stays a hub, whatever the device information says; and when every hub is
    an NVR before, every hub is an NVR after. *)
Theorem parseDeviceInfo_flags (devInfo : JsValue) (this : State) :
  let after := parseDeviceInfo devInfo this in
  (httpApi_isNvr this = true -> httpApi_isNvr after = true)
  /\ (httpApi_isHub this = true -> httpApi_isHub after = true)
  /\ ((httpApi_isHub this = true -> httpApi_isNvr this = true) ->
      httpApi_isHub after = true -> httpApi_isNvr after = true).
Proof.
  intros after. subst after. unfold parseDeviceInfo.
  set (devType := jsOr (getProp (getProp devInfo (js "type")) (js "_text")) _).
  set (devTypeInfo := jsOr (getProp (getProp devInfo (js "typeInfo")) (js "_text")) _).
  set (this1 := if truthy devType && truthy devTypeInfo then _ else this).
  assert (H1 : (httpApi_isNvr this = true -> httpApi_isNvr this1 = true)
               /\ (httpApi_isHub this = true -> httpApi_isHub this1 = true)
               /\ ((httpApi_isHub this = true -> httpApi_isNvr this = true) ->
                   httpApi_isHub this1 = true -> httpApi_isNvr this1 = true)).
  { subst this1. destruct (truthy devType && truthy devTypeInfo); [|tauto]. simpl.
    destruct (httpApi_isNvr this) eqn:Hnvr, (httpApi_isHub this) eqn:Hhub; simpl;
      rewrite ?Hnvr, ?Hhub; simpl; split_and!; try done.
    - intros Himp. by specialize (Himp eq_refl).
    - intros _ [->| ->]%orb_true_iff; by rewrite ?orb_true_r. }
  clearbody this1.
  set (this2 := if _ || _ then _ else this1).
  assert (H2 : httpApi_isNvr this2 = httpApi_isNvr this1
               /\ httpApi_isHub this2 = httpApi_isHub this1).
  { subst this2. by destruct (_ || _). }
  clearbody this2. destruct H2 as [Hn Hh].
  assert (H3 : forall s3 : State,
            httpApi_isNvr s3 = httpApi_isNvr this2 ->
            httpApi_isHub s3 = httpApi_isHub this2 ->
            (httpApi_isNvr this = true -> httpApi_isNvr s3 = true)
            /\ (httpApi_isHub this = true -> httpApi_isHub s3 = true)
            /\ ((httpApi_isHub this = true -> httpApi_isNvr this = true) ->
                httpApi_isHub s3 = true -> httpApi_isNvr s3 = true)).
  { intros s3 -> ->. by rewrite Hn, Hh. }
  destruct (toNumber _) as [n|]; [|by apply H3].
  destruct (_ && _); by apply H3.
Qed.



End DeviceInfo.

(** ** Subscribing and unsubscribing *)

Section SubscriptionEdges.
Context `{Externals} (net : Network).

(** X24. [subscribeEvents] on a client that is not subscribed either fails
    as a whole or succeeds as a whole.  It throws only what [login] throws,
    and then the client is not subscribed and no timer has been armed.
    When [login] returns it returns as well, whatever becomes of the
    subscribe command (31): the client is subscribed and one more interval
    timer is armed, of which it holds the handle. *)
Theorem subscribeEvents_all_or_nothing (now : Z) (this : State) :
  subscribed this = false ->
  let after := subscribeEvents net now this in
  match after.2 with
  | Throw e =>
      (login net (forceRelogin this)).2 = Throw e
      /\ subscribed after.1 = false
      /\ timers after.1 = timers this
      /\ keepaliveTask after.1 = keepaliveTask this
  | Return _ =>
      (login net (forceRelogin this)).2 = Return tt
      /\ subscribed after.1 = true
      /\ exists id, keepaliveTask after.1 = Some id /\ timers after.1 = timers this ++ [id]
  end.
Proof.
  intros Hsub after. subst after. unfold subscribeEvents. run_step. rewrite Hsub.
  run_step.
  assert (H1 : sessionOnly this (forceRelogin this)) by (unfold forceRelogin; kept).
  rewrite run_bind.
  pose proof (login_kept net (forceRelogin this)) as H2.
  destruct (login net (forceRelogin this)) as [s2 [[]|e]]; simpl in H2; cbv beta iota.
  2:{ simpl. destruct H1 as ((E1 & E2 & E3 & _) & _), H2 as ((F1 & F2 & F3 & _) & _).
      split_and!; congruence. }
  run_step.
  match goal with
  | |- context [?c (armKeepalive now s2)] =>
      assert (Htail : keeps sessionOnly c /\ returns c)
  end.
  { split.
    - keeps_steps; [apply sendCmd_kept|apply emit_kept].
    - intros s. unfold try_catch.
      destruct ((_ ← sendCmd net 31 None [] [] AES (js "1464") (Some 251) RETRY_ATTEMPTS;
                 mret tt) s) as [s' [[]|e]]; by eexists. }
  destruct Htail as [Hkeeps Hreturns].
  specialize (Hkeeps (armKeepalive now s2)). specialize (Hreturns (armKeepalive now s2)).
  match goal with
  | |- context [?c (armKeepalive now s2)] => destruct (c (armKeepalive now s2)) as [s3 r]
  end.
  destruct Hreturns as [[] Hr]. simpl in Hr. subst r. simpl in *.
  destruct H1 as ((E1 & E2 & E3 & _) & _), H2 as ((F1 & F2 & F3 & _) & _),
    Hkeeps as ((G1 & G2 & G3 & _) & _).
  split; [done|]. split; [by rewrite G1|].
  exists (nextTimer s2). rewrite G2, G3. unfold armKeepalive. simpl.
  split; [done|]. congruence.
Qed.



End SubscriptionEdges.

Lemma subscribeEvents_all_or_nothing_witness :
  let failed := @subscribeEvents Doubles.externals Scenarios.unreachableNet 1000
                  Doubles.fresh in
  let done := @subscribeEvents Doubles.externals Doubles.loginNet 1000 Doubles.fresh in
  (exists e, failed.2 = Throw e /\ subscribed failed.1 = false /\ timers failed.1 = [])
  /\ done.2 = Return tt /\ subscribed done.1 = true /\ timers done.1 = [1].
Proof.
  intros failed done. split.
  - pose proof (@subscribeEvents_all_or_nothing Doubles.externals Scenarios.unreachableNet
                  1000 Doubles.fresh eq_refl) as Hfailed.
    fold failed in Hfailed. cbv zeta in Hfailed.
    destruct (failed.2) as [[]|e] eqn:Hr.
    + vm_compute in Hr. discriminate.
    + exists e. destruct Hfailed as (_ & Hs & Ht & _). by repeat split.
  - pose proof (@subscribeEvents_all_or_nothing Doubles.externals Doubles.loginNet
                  1000 Doubles.fresh eq_refl) as Hdone.
    fold done in Hdone. cbv zeta in Hdone.
    destruct (done.2) as [[]|e] eqn:Hr.
    + destruct Hdone as (_ & Hs & _). split; [done|]. split; [done|].
      vm_compute. reflexivity.
    + vm_compute in Hr. discriminate.
Defined.


(** ** The siren: who is asked *)

(** X26. [Host.setSiren] and [audioAlarmPlay] refuse a target they cannot
    address before anything is sent, and leave the client as it was:
    [setSiren] for a channel that is not among the channels of a host that
    has channels, [setSiren] without a channel on a host that has no channel
    and is no hub, and [audioAlarmPlay] without a channel on a host that is
    no hub; each throws its InvalidParameterError. *)
Theorem setSiren_validates_target `{Externals} `{SirenXml} (net : Network)
    (enabled : bool) (duration times : option Z) (this : State) :
  (forall ch, httpApi_channels this <> [] -> ch ∉ httpApi_channels this ->
     setSiren net (Some ch) enabled duration times this = (this, Throw (noCamera ch)))
  /\ (httpApi_channels this = [] -> httpApi_isHub this = false ->
      setSiren net None enabled duration times this = (this, Throw noChannels))
  /\ (httpApi_isHub this = false ->
      forall options, audioAlarmPlay net None options this = (this, Throw channelRequired)).
Proof.
  split_and!.
  - intros ch Hsome Hnotin. unfold setSiren. run_step.
    rewrite (bool_decide_eq_false_2 _ Hnotin).
    destruct (httpApi_channels this) as [|c cs] eqn:Hcs; [done|].
    assert (Hlen : (0 <? Z.of_nat (length (c :: cs))) = true)
      by (apply Z.ltb_lt; simpl; lia).
    rewrite Hlen. done.
  - intros Hnone Hhub. unfold setSiren. run_step. run_step.
    rewrite Hnone. cbn [head]. by rewrite Hhub.
  - intros Hhub options. unfold audioAlarmPlay. run_step. rewrite run_bind.
    unfold lift at 1, alarmXml. by rewrite Hhub.
Qed.

Lemma setSiren_validates_target_witness :
  @setSiren Doubles.externals Scenarios.sirenXml Doubles.silentNet (Some 5) true (Some 2)
    None Doubles.session
  = (Doubles.session, Throw (noCamera 5))
  /\ @audioAlarmPlay Doubles.externals Scenarios.sirenXml Doubles.silentNet None
       {| alarmMode := AlarmManual; alarmTimes := None; manualSwitch := Some true |}
       Doubles.session
     = (Doubles.session, Throw channelRequired).
Proof.
  destruct (@setSiren_validates_target Doubles.externals Scenarios.sirenXml
              Doubles.silentNet true (Some 2) None Doubles.session) as (Hch & _ & Hhub).
  split.
  - apply Hch; [vm_compute; discriminate|].
    vm_compute. intros Hin. apply elem_of_cons in Hin as [Hin|Hin]; [discriminate|].
    by apply elem_of_nil in Hin.
  - apply Hhub. vm_compute. reflexivity.
Defined.

(** ** [getHostData]: the abilities are asked for once *)

Lemma writeAndAwait_writes (net : Network) (frame : Buffer) (this : State) :
  writes (writeAndAwait net frame this).1 = writes this ++ [EvWrite frame]
  /\ connects (writeAndAwait net frame this).1 = connects this.
Proof.
  unfold writeAndAwait. cbn [fst].
  assert (Hclose : forall now s, trace (socketClosed now s) = trace s).
  { intros now s. unfold socketClosed, closeCallback. by repeat case_match. }
  assert (Hfinal : forall s : State,
            trace s = trace this ++ [EvWrite frame] ->
            writes s = writes this ++ [EvWrite frame] /\ connects s = connects this).
  { intros s Hs. unfold writes, connects. rewrite Hs, !filter_app. split; [done|].
    change (filter (fun e => isConnect e) [EvWrite frame]) with (@nil Event).
    by rewrite app_nil_r. }
  apply Hfinal. destruct (reply_closedAt _); by rewrite ?Hclose.
Qed.

Section HostData.
Context `{Externals} (net : Network).

(** With a budget of at most one, [send] on an open connection writes its
    frame once, whatever the reply. *)
Lemma send_once (login : M unit) cmdId channel body extension encType messageClass messId
    retry (this : State) (m : Z) (frame : Buffer) :
  loggedIn this = true \/ cmdId <= 2 ->
  prepareFrame this cmdId channel body extension encType messageClass messId
    = Return (m, frame) ->
  connected this ->
  retry <= 1 ->
  (send net login cmdId channel body extension encType messageClass messId retry this).1
  = (writeAndAwait net frame this).1.
Proof.
  intros Hready Hframe Hconn Hretry.
  destruct (reply_result (net_reply net (length (writes this)))) as [[data lenHeader]|err]
    eqn:Hreply.
  - by rewrite (send_answered net login _ _ _ _ _ _ _ retry _ _ _ _ _ Hready Hframe Hconn
                  Hreply).
  - unfold send. replace (Z.to_nat (Z.max 1 retry)) with 1%nat by lia.
    rewrite (send_fuel_rejected net login 0 _ _ _ _ _ _ _ retry _ _ _ _
               Hready Hframe Hconn Hreply).
    destruct (Z.ltb_spec 0 (retry - 1)); [lia|].
    by rewrite !andb_false_r.
Qed.

(** X27. [getHostData] on a logged-in client with an open connection never
    throws.  With an AES key it writes the request of the abilities (command
    199, without a body) exactly once, whatever the device answers: the
    request is sent with a budget of 0, so that no failure is retried, and
    what fails is logged and dropped.  Without a key it writes nothing.  In
    both cases the capabilities of the host get an entry. *)
Theorem getHostData_abilities_once (capabilities : Capabilities) (this : State) :
  loggedIn this = true -> connected this ->
  let after := getHostData net capabilities this in
  let request := fromHex (js "f0debc0ac700000000000000fa0000000000146400000000") in
  after.2 = Return (map_set None (default [] (map_get None capabilities)) capabilities)
  /\ writes after.1
     = writes this ++ match aesKey this with Some _ => [EvWrite request] | None => [] end
  /\ connects after.1 = connects this.
Proof.
  intros Hin Hconn after request. subst after.
  unfold getHostData. run_step. rewrite Hin. cbn [negb]. run_step. run_step.
  destruct (aesKey this) as [key|] eqn:Hkey; [|run_steps; by rewrite app_nil_r].
  rewrite run_bind. unfold try_catch. rewrite (run_bind (sendCmd _ _ _ _ _ _ _ _ _)).
  assert (Hframe : prepareFrame this 199 None [] [] AES (js "1464") None
                   = Return (250, request)) by done.
  pose proof (send_once (login net) 199 None [] [] AES (js "1464") None 0 this 250 request
                (or_introl Hin) Hframe Hconn ltac:(lia)) as Hsend.
  destruct (writeAndAwait_writes net request this) as [Hw Hc].
  assert (Hlog : forall (s : State) e,
            writes (set_trace (trace s ++ [EvDebugLog e]) s) = writes s
            /\ connects (set_trace (trace s ++ [EvDebugLog e]) s) = connects s).
  { intros s e. unfold writes, connects. simpl. rewrite !filter_app.
    change (filter (fun e => isWrite e) [EvDebugLog e]) with (@nil Event).
    change (filter (fun e => isConnect e) [EvDebugLog e]) with (@nil Event).
    by rewrite !app_nil_r. }
  unfold sendCmd.
  destruct (send net (login net) 199 None [] [] AES (js "1464") None 0 this)
    as [s1 [mess|err]]; cbn [fst] in Hsend; subst s1; cbv beta iota.
  - rewrite run_bind. unfold lift.
    destruct (xmlParse mess) as [parsed|err]; cbv beta iota.
    + run_steps. cbn [fst snd]. by rewrite Hw, Hc.
    + destruct (Hlog (writeAndAwait net request this).1 err) as [Hw' Hc'].
      unfold emit. run_steps. cbn [fst snd]. by rewrite Hw', Hc', Hw, Hc.
  - destruct (Hlog (writeAndAwait net request this).1 err) as [Hw' Hc'].
    unfold emit. run_steps. cbn [fst snd]. by rewrite Hw', Hc', Hw, Hc.
Qed.

End HostData.

Lemma getHostData_abilities_once_witness :
  let after := @getHostData Doubles.externals Doubles.busyNet [] Doubles.session in
  after.2 = Return [(None, [])]
  /\ length (writes after.1) = S (length (writes Doubles.session)).
Proof.
  intros after.
  destruct (@getHostData_abilities_once Doubles.externals Doubles.busyNet []
              Doubles.session ltac:(vm_compute; reflexivity)
              ltac:(exists {| destroyed := false |}, BaichuanTcpClientProtocol;
                    vm_compute; repeat split)) as (Hr & Hw & _).
  fold after in Hr, Hw. split; [exact Hr|].
  rewrite Hw. vm_compute. reflexivity.
Defined.

(** ** Who writes the detection tables *)

#[local] Instance detectionKept_preorder : PreOrder detectionKept.
Proof.
  split.
  - by intros s.
  - intros s1 s2 s3 (? & ? & ?) (? & ? & ?). unfold detectionKept. split_and!; congruence.
Qed.

(** Settles that an assignment leaves the detection tables. *)
Ltac detection :=
  intros; unfold detectionKept; simpl;
  repeat match goal with
         | |- context [if ?b then _ else _] => destruct b eqn:?; simpl
         | |- context [match ?x with _ => _ end] => destruct x eqn:?; simpl
         end;
  split_and?; done.

Section DetectionFrame.
Context `{Externals} (net : Network).

Lemma socketClosed_detection (now : Z) (s : State) : detectionKept s (socketClosed now s).
Proof. unfold socketClosed, closeCallback. detection. Qed.

Lemma emit_detection (e : Event) : keeps detectionKept (emit e).
Proof. apply (keeps_modify detectionKept). detection. Qed.

Lemma parseDeviceInfo_detection (devInfo : JsValue) (s : State) :
  detectionKept s (parseDeviceInfo devInfo s).
Proof.
  unfold parseDeviceInfo.
  repeat match goal with
         | |- context [if ?b then _ else _] => destruct b
         | |- context [match ?x with _ => _ end] => destruct x
         end; detection.
Qed.

Lemma connectIfNeeded_detection : keeps detectionKept (connectIfNeeded net).
Proof.
  intros s. unfold connectIfNeeded, openConnection.
  destruct (transport s) as [sock|], (protocol s); try destruct (negb (destroyed sock));
    try destruct (net_connect net _); detection.
Qed.

Lemma writeAndAwait_detection (fullData : Buffer) :
  keeps detectionKept (writeAndAwait net fullData).
Proof.
  intros s. unfold writeAndAwait. simpl.
  destruct (reply_closedAt _) as [now|]; [|detection].
  etrans; [|apply socketClosed_detection]. detection.
Qed.

Lemma send_detection (login : M unit) cmdId channel body extension encType messageClass
    messId retry :
  keeps detectionKept login ->
  keeps detectionKept
    (send net login cmdId channel body extension encType messageClass messId retry).
Proof.
  intros Hlogin. unfold send. generalize (Z.to_nat (Z.max 1 retry)). intros fuel.
  revert messId retry. induction fuel as [|fuel IH]; intros messId retry; simpl.
  - apply (keeps_throw detectionKept).
  - apply (keeps_bind detectionKept).
    + unfold sendAttempt.
      keeps_steps; try done; try apply emit_detection;
        try apply connectIfNeeded_detection; try apply writeAndAwait_detection.
    + intros [m [[]|[data lenHeader]]]; [apply IH|]. keeps_steps.
Qed.

Lemma login_detection : keeps detectionKept (login net).
Proof.
  assert (Hwith : forall mess, keeps detectionKept (loggedInWith mess)).
  { intros mess. unfold loggedInWith.
    keeps_steps; apply (keeps_modify detectionKept); try (by detection).
    intros s. apply parseDeviceInfo_detection. }
  unfold login, getNonce, sendBootstrap.
  keeps_steps; try apply Hwith;
    try (apply send_detection, (keeps_ret detectionKept));
    apply (keeps_modify detectionKept); detection.
Qed.

Lemma sendCmd_detection cmdId channel body extension encType messageClass messId retry :
  keeps detectionKept
    (sendCmd net cmdId channel body extension encType messageClass messId retry).
Proof. apply send_detection, login_detection. Qed.

Lemma logout_detection : keeps detectionKept (logout net).
Proof.
  unfold logout.
  keeps_steps; try apply sendCmd_detection; try apply emit_detection;
    apply (keeps_modify detectionKept); detection.
Qed.

(** X28. Nothing but a push writes the detection tables: logging in and
    out, sending a command, subscribing and unsubscribing, a tick of the
    keepalive timer, the close of the socket and the registration of
    callbacks all leave the tables of the motion, the visitor and the AI
    flags as they were, so that [motionDetected], [visitorDetected] and
    [aiDetected] report after them what they reported before. *)
Theorem detection_written_by_push_only (op : Op) (this : State) :
  (forall cmdId data lenHeader, op <> OpPush cmdId data lenHeader) ->
  let after := perform net op this in
  detectionKept this after
  /\ forall channel objectType,
       motionDetected channel after = motionDetected channel this
       /\ visitorDetected channel after = visitorDetected channel this
       /\ aiDetected channel objectType after = aiDetected channel objectType this.
Proof.
  intros Hop after.
  assert (Hkept : detectionKept this after).
  { subst after. destruct op; simpl.
    - apply login_detection.
    - apply logout_detection.
    - apply sendCmd_detection.
    - unfold subscribeEvents.
      assert (Hc : keeps detectionKept (subscribeEvents net now)); [|apply Hc].
      unfold subscribeEvents.
      keeps_steps; try apply login_detection; try apply sendCmd_detection;
        try apply emit_detection; apply (keeps_modify detectionKept);
        unfold forceRelogin, armKeepalive; detection.
    - assert (Hc : keeps detectionKept (unsubscribeEvents net)); [|apply Hc].
      unfold unsubscribeEvents.
      keeps_steps; try apply logout_detection; apply (keeps_modify detectionKept);
        unfold disarmKeepalive; detection.
    - destruct (timers this); [reflexivity|].
      assert (Hc : keeps detectionKept (keepaliveLoop net now)); [|apply Hc].
      unfold keepaliveLoop.
      keeps_steps; try apply sendCmd_detection; try apply emit_detection;
        apply (keeps_modify detectionKept); detection.
    - apply socketClosed_detection.
    - by destruct (Hop cmdId data lenHeader).
    - unfold registerCallback. detection.
    - unfold unregisterCallback. detection. }
  split; [done|]. destruct Hkept as (Hm & Hv & Ha). intros channel objectType.
  unfold motionDetected, visitorDetected, aiDetected. by rewrite Hm, Hv, Ha.
Qed.

End DetectionFrame.

Lemma detection_written_by_push_only_witness :
  let this := (@pushCallback Doubles.externals 33
                 (Doubles.legacyFrame 33 0 Doubles.alarmPush) 24 Doubles.session).1 in
  let after := @perform Doubles.externals Doubles.silentNet OpLogout this in
  motionDetected 0 this = true /\ loggedIn after = false /\ motionDetected 0 after = true.
Proof.
  intros this after. split; [vm_compute; reflexivity|]. split; [vm_compute; reflexivity|].
  destruct (@detection_written_by_push_only Doubles.externals Doubles.silentNet OpLogout
              this ltac:(discriminate)) as [_ Hflags].
  destruct (Hflags 0 []) as (Hm & _). fold after in Hm. rewrite Hm.
  vm_compute. reflexivity.
Defined.

(** ** [login]: rejected credentials, and the legacy login *)

Section LoginEdges.
Context `{Externals} (net : Network).








End LoginEdges.



